(** * EvalML: the batch algorithm [EvalMLAlgorithm] and the tuner [SKOptTuner]

    A shallow embedding of
      - src/evalml/tuners/skopt_tuner.py
      - src/evalml/automl/automl_algorithm/evalml_algorithm.py
    Python objects become records, methods become computations in a
    state-and-exception monad over the receiver, Python dicts become
    insertion-ordered association lists, and scores are IEEE-754 values
    ([spec_float] with the comparison [SFltb] of the Standard Library). *)

From Stdlib Require Import List String ZArith Bool Lia PeanoNat.
From Stdlib Require Import Floats.SpecFloat.
Import ListNotations.
Open Scope string_scope.

Set Implicit Arguments.

(* ================================================================= *)
(** ** Python values *)

(** The values that travel through the code under study: parameter values,
    hyperparameter ranges ([skopt.space.Integer], [Real], [Categorical]) and
    the constructor's arguments. *)
#[local] Unset Elimination Schemes.
Inductive PyVal : Type :=
| PyNone
| PyBool (b : bool)
| PyInt (z : Z)
| PyFloat (f : spec_float)
| PyStr (s : string)
| PyList (items : list PyVal)
| PyDict (items : list (string * PyVal))
| SkoptInteger (lo hi : Z)
| SkoptReal (lo hi : spec_float)
| SkoptCategorical (choices : list PyVal).
#[local] Set Elimination Schemes.

(** An instance of Python's [Exception]: its class and [str(e)]. *)
Record PyException : Type := mkExc { exc_class : string; exc_msg : string }.

Inductive result (A : Type) : Type :=
| Ok (a : A)
| Raise (e : PyException).
Arguments Ok {A} a.
Arguments Raise {A} e.

Definition is_ok {A} (r : result A) : bool :=
  match r with Ok _ => true | Raise _ => false end.

(** A method of an object whose attributes are [S]: it may mutate the
    receiver and either returns or raises; the receiver's attributes at the
    moment of the raise are kept. *)
Definition M (S A : Type) : Type := S -> S * result A.

Definition ret {S A} (a : A) : M S A := fun s => (s, Ok a).
Definition raise {S A} (e : PyException) : M S A := fun s => (s, Raise e).
Definition bind {S A B} (m : M S A) (k : A -> M S B) : M S B :=
  fun s => match m s with
           | (s', Ok a) => k a s'
           | (s', Raise e) => (s', Raise e)
           end.
Definition get {S} : M S S := fun s => (s, Ok s).
Definition modify {S} (f : S -> S) : M S unit := fun s => (f s, Ok tt).

Declare Scope py_scope.
Delimit Scope py_scope with py.
Notation "x <- m ;; k" := (bind m (fun x => k))
  (at level 61, m at next level, right associativity) : py_scope.
Notation "m ;;; k" := (bind m (fun _ => k))
  (at level 61, right associativity) : py_scope.

(* ================================================================= *)
(** ** Python dicts: insertion-ordered association lists *)

Section Dict.
Variables (K V : Type).
Variable eqb : K -> K -> bool.

Definition dict := list (K * V).

(** [d.get(k)] *)
Fixpoint dict_get (k : K) (d : dict) : option V :=
  match d with
  | [] => None
  | (k', v) :: d' => if eqb k k' then Some v else dict_get k d'
  end.

(** [d[k] = v] (also [d.update({k: v})]): an existing key keeps its
    position, a new key goes last. *)
Fixpoint dict_set (k : K) (v : V) (d : dict) : dict :=
  match d with
  | [] => [(k, v)]
  | (k', v') :: d' =>
      if eqb k k' then (k', v) :: d' else (k', v') :: dict_set k v d'
  end.

Definition dict_values (d : dict) : list V := map snd d.
Definition dict_keys (d : dict) : list K := map fst d.
Definition dict_mem (k : K) (d : dict) : bool :=
  match dict_get k d with Some _ => true | None => false end.
End Dict.

(** Nested parameter mappings [{component: {parameter: value}}]. *)
Definition component_parameters := dict string PyVal.
Definition parameters := dict string component_parameters.

Definition sget {V} := @dict_get string V String.eqb.
Definition sset {V} := @dict_set string V String.eqb.

(** Scores: [float] or [None]. *)
Definition score := option spec_float.

Definition np_inf : spec_float := S754_infinity false.

(** [pd.isnull(score)] on a scalar: [None] and NaN are null. *)
Definition pd_isnull (sc : score) : bool :=
  match sc with
  | None => true
  | Some S754_nan => true
  | Some _ => false
  end.

(* ================================================================= *)
(** ** src/evalml/tuners/skopt_tuner.py *)

Module SKOptTuner.

(** What the tuner is built on: the [skopt.Optimizer] it owns, the two
    conversions inherited from the base class [Tuner], and Python's
    formatting of a parameter mapping. *)
Record Env : Type := {
  Optimizer : Type;
  (** [Optimizer.ask()] *)
  opt_ask : M Optimizer (list PyVal);
  (** [Optimizer.tell(x, y)] *)
  opt_tell : list PyVal -> score -> M Optimizer unit;
  (** Modelled from the spec: [Tuner._convert_to_flat_parameters] of the
      base class, which is not part of the sources; it flattens a nested
      mapping in the fixed order of the search-space names. *)
  convert_to_flat_parameters :
    list (string * string) -> parameters -> result (list PyVal);
  (** Modelled from the spec: [Tuner._convert_to_pipeline_parameters] of
      the base class; it rebuilds the nested mapping from a flat vector. *)
  convert_to_pipeline_parameters :
    list (string * string) -> list PyVal -> parameters;
  (** [str.format] applied to a parameter mapping *)
  format_parameters : parameters -> string;
}.

Section WithEnv.
Variable E : Env.

Record Tuner : Type := mkTuner {
  _search_space_names : list (string * string);
  _search_space_ranges : list PyVal;
  opt : Optimizer E;
}.

Definition set_opt (t : Tuner) (o : Optimizer E) : Tuner :=
  mkTuner (_search_space_names t) (_search_space_ranges t) o.

(** Run a method of [self.opt] on the tuner. *)
Definition on_opt {A} (m : M (Optimizer E) A) : M Tuner A :=
  fun t => let (o, r) := m (opt t) in (set_opt t o, r).

Definition le_not_supported : string :=
  "'<=' not supported between instances of 'int' and 'NoneType'".

Definition invalid_parameters_msg (pipeline_parameters : parameters)
    (e : PyException) : string :=
  "Invalid parameters specified to SKOptTuner.add: parameters "
    ++ format_parameters E pipeline_parameters ++ " error " ++ exc_msg e.

Definition ParameterError (msg : string) : PyException :=
  mkExc "ParameterError" msg.

(** The [except Exception as e] handler of [add]. *)
Definition add_handler (pipeline_parameters : parameters)
    (e : PyException) : PyException :=
  if String.eqb (exc_msg e) le_not_supported
  then ParameterError (invalid_parameters_msg pipeline_parameters e)
  else e.

(** [SKOptTuner.add(self, pipeline_parameters, score)] *)
Definition add (pipeline_parameters : parameters) (sc : score)
  : M Tuner unit :=
  fun t =>
    if pd_isnull sc then (t, Ok tt)
    else
      match convert_to_flat_parameters E (_search_space_names t)
              pipeline_parameters with
      | Raise e => (t, Raise e)
      | Ok flat_parameter_values =>
          match on_opt (opt_tell E flat_parameter_values sc) t with
          | (t', Ok _) => (t', Ok tt)
          | (t', Raise e) =>
              (t', Raise (add_handler pipeline_parameters e))
          end
      end.

(** [SKOptTuner.propose(self)] *)
Definition propose : M Tuner parameters :=
  fun t =>
    if Nat.eqb (List.length (_search_space_ranges t)) 0
    then (t, Ok (convert_to_pipeline_parameters E
                   (_search_space_names t) []))
    else
      match on_opt (opt_ask E) t with
      | (t', Ok flat_parameters) =>
          (t', Ok (convert_to_pipeline_parameters E
                     (_search_space_names t') flat_parameters))
      | (t', Raise e) => (t', Raise e)
      end.

(** The outcomes of [n] successive [propose()] calls. *)
Fixpoint propose_seq (n : nat) (t : Tuner) : list (result parameters) :=
  match n with
  | O => []
  | S n' => let (t', r) := propose t in r :: propose_seq n' t'
  end.

End WithEnv.
End SKOptTuner.

(* ================================================================= *)
(** ** Collaborators of the batch algorithm *)

(** [bool(v)]: Python's truth value. *)
Definition truthy (v : PyVal) : bool :=
  match v with
  | PyNone => false
  | PyBool b => b
  | PyInt z => negb (Z.eqb z 0)
  | PyFloat f => negb (SFeqb f (S754_zero false))
  | PyStr s => negb (String.eqb s "")
  | PyList l => negb (Nat.eqb (List.length l) 0)
  | PyDict d => negb (Nat.eqb (List.length d) 0)
  | SkoptInteger _ _ | SkoptReal _ _ | SkoptCategorical _ => true
  end.

(** [isinstance(v, dict)] *)
Definition is_dict (v : PyVal) : bool :=
  match v with PyDict _ => true | _ => false end.

(** [isinstance(v, (Integer, Real, Categorical))] *)
Definition is_skopt_space (v : PyVal) : bool :=
  match v with
  | SkoptInteger _ _ | SkoptReal _ _ | SkoptCategorical _ => true
  | _ => false
  end.

(** [type(v).__name__] *)
Definition type_name (v : PyVal) : string :=
  match v with
  | PyNone => "NoneType"
  | PyBool _ => "bool"
  | PyInt _ => "int"
  | PyFloat _ => "float"
  | PyStr _ => "str"
  | PyList _ => "list"
  | PyDict _ => "dict"
  | SkoptInteger _ _ => "Integer"
  | SkoptReal _ _ => "Real"
  | SkoptCategorical _ => "Categorical"
  end.

Definition ValueError (msg : string) : PyException := mkExc "ValueError" msg.
Definition IndexError (msg : string) : PyException := mkExc "IndexError" msg.
Definition TypeError (msg : string) : PyException := mkExc "TypeError" msg.
Definition KeyError (msg : string) : PyException := mkExc "KeyError" msg.
Definition AttributeError (v : PyVal) (attr : string) : PyException :=
  mkExc "AttributeError"
    ("'" ++ type_name v ++ "' object has no attribute '" ++ attr ++ "'").

(** [v.values()] and [v.items()]: only a dict has them. *)
Definition py_values (v : PyVal) : result (list PyVal) :=
  match v with
  | PyDict d => Ok (map snd d)
  | _ => Raise (AttributeError v "values")
  end.

Definition py_items (v : PyVal) : result (list (string * PyVal)) :=
  match v with
  | PyDict d => Ok d
  | _ => Raise (AttributeError v "items")
  end.

(** [a or b] *)
Definition py_or (a b : PyVal) : PyVal := if truthy a then a else b.

(** Modelled from the spec: the enum [evalml.model_family.ModelFamily] is not
    part of the sources; the code only distinguishes [ENSEMBLE] from every
    other member, which is identified here by its name. *)
Inductive ModelFamily : Type :=
| ENSEMBLE
| Family (name : string).

Definition ModelFamily_eqb (a b : ModelFamily) : bool :=
  match a, b with
  | ENSEMBLE, ENSEMBLE => true
  | Family x, Family y => String.eqb x y
  | _, _ => false
  end.

(** Modelled from the spec: the enum [evalml.problem_types.ProblemTypes] and
    [is_regression] are not part of the sources; the members are those the
    test fixtures name, and the regression ones are the plain and the
    time-series regression problems. *)
Inductive ProblemTypes : Type :=
| BINARY | MULTICLASS | REGRESSION
| TIME_SERIES_REGRESSION | TIME_SERIES_BINARY | TIME_SERIES_MULTICLASS.

Definition is_regression (pt : ProblemTypes) : bool :=
  match pt with
  | REGRESSION | TIME_SERIES_REGRESSION => true
  | _ => false
  end.

(** A component class (an estimator or a transformer class) is a global
    object, identified by its name. *)
Definition ComponentClass := string.

Definition RFClassifierSelectFromModel : ComponentClass :=
  "RFClassifierSelectFromModel".
Definition RFRegressorSelectFromModel : ComponentClass :=
  "RFRegressorSelectFromModel".
Definition SelectColumns : ComponentClass := "SelectColumns".

(** A fitted component: [get_names()] are the columns a feature selector
    chose. *)
Record Component : Type := { get_names : list string }.

(** The capability set of a pipeline object the algorithm relies on. *)
Record Pipeline : Type := {
  name : string;
  model_family : ModelFamily;
  pipeline_problem_type : ProblemTypes;
  pipeline_parameters : parameters;
  linearized_component_graph : list (string * ComponentClass);
  (** [pipeline.estimator.__class__] *)
  estimator : ComponentClass;
  get_component : string -> Component;
}.

(** [trained_pipeline_results]: a mapping that has an ["id"]. *)
Record TrainedPipelineResults : Type := { id : PyVal }.

(** A record of the best-pipeline table. *)
Record BestPipelineInfo : Type := {
  mean_cv_score : spec_float;
  pipeline : Pipeline;
  bp_parameters : parameters;
  bp_id : PyVal;
}.

(** [None] or a list of column names, as a Python value. *)
Definition cols_val (cols : option (list string)) : PyVal :=
  match cols with
  | None => PyNone
  | Some l => PyList (map PyStr l)
  end.

Module EvalML.

(** The functions the algorithm imports from the rest of the library. *)
Record Env : Type := {
  TE : SKOptTuner.Env;
  (** training data *)
  Data : Type;
  (** Modelled from the spec: the tuner's constructor, "constructed from a
      nested range mapping and a random seed". *)
  tuner_init : parameters -> Z -> SKOptTuner.Tuner TE;
  (** [make_pipeline(X, y, estimator, problem_type, sampler_name=...,
      extra_components=...)] *)
  make_pipeline : Data -> Data -> ComponentClass -> ProblemTypes ->
                  PyVal -> list ComponentClass -> Pipeline;
  (** [pipeline.new(parameters=..., random_seed=...)]: a fresh instance,
      the receiver is not mutated. *)
  new : Pipeline -> parameters -> Z -> Pipeline;
  (** [_make_stacked_ensemble_pipeline(input_pipelines, problem_type,
      random_seed=..., n_jobs=...)] *)
  _make_stacked_ensemble_pipeline :
    list Pipeline -> ProblemTypes -> Z -> PyVal -> Pipeline;
  get_estimators : ProblemTypes -> list ComponentClass;
  handle_component_class : string -> ComponentClass;
  (** [get_hyperparameter_ranges(component_graph, custom_hyperparameters)] *)
  get_hyperparameter_ranges :
    list (string * ComponentClass) -> PyVal -> parameters;
  (** the names in [inspect.signature(component_class.__init__).parameters] *)
  init_params : ComponentClass -> list string;
}.

Section WithEnv.
Variable E : Env.

Definition Tuner := SKOptTuner.Tuner (TE E).

(** The attributes set once by [__init__]. *)
Record Config : Type := {
  X : Data E;
  y : Data E;
  problem_type : ProblemTypes;
  _sampler_name : PyVal;
  n_jobs : PyVal;
  number_features : PyVal;
  text_in_ensembling : PyVal;
  _pipeline_params : PyVal;
  _custom_hyperparameters : PyVal;
  random_seed : Z;
}.

(** An [EvalMLAlgorithm] instance.  [_tuners], [_batch_number] and
    [_pipeline_number] are attributes of the base class
    [AutoMLAlgorithm]. *)
Record Algo : Type := mkAlgo {
  config : Config;
  _best_pipeline_info : dict ModelFamily BestPipelineInfo;
  _selected_cols : option (list string);
  _top_n_pipelines : option (list Pipeline);
  _tuners : dict string Tuner;
  _batch_number : nat;
  _pipeline_number : nat;
  (** Modelled from the spec: the bookkeeping of the base class
      [AutoMLAlgorithm], which is not part of the sources, is the list of
      the results forwarded to its [add_result]. *)
  base_results : list (score * Pipeline * TrainedPipelineResults);
}.

(** The read-only properties of the base class. *)
Definition batch_number (s : Algo) : nat := _batch_number s.
Definition pipeline_number (s : Algo) : nat := _pipeline_number s.

Definition set_best_pipeline_info (v : dict ModelFamily BestPipelineInfo)
    (s : Algo) : Algo :=
  mkAlgo (config s) v (_selected_cols s) (_top_n_pipelines s) (_tuners s)
         (_batch_number s) (_pipeline_number s) (base_results s).
Definition set_selected_cols (v : option (list string)) (s : Algo) : Algo :=
  mkAlgo (config s) (_best_pipeline_info s) v (_top_n_pipelines s)
         (_tuners s) (_batch_number s) (_pipeline_number s)
         (base_results s).
Definition set_top_n_pipelines (v : option (list Pipeline)) (s : Algo)
  : Algo :=
  mkAlgo (config s) (_best_pipeline_info s) (_selected_cols s) v
         (_tuners s) (_batch_number s) (_pipeline_number s)
         (base_results s).
Definition set_tuners (v : dict string Tuner) (s : Algo) : Algo :=
  mkAlgo (config s) (_best_pipeline_info s) (_selected_cols s)
         (_top_n_pipelines s) v (_batch_number s) (_pipeline_number s)
         (base_results s).
Definition set_batch_number (v : nat) (s : Algo) : Algo :=
  mkAlgo (config s) (_best_pipeline_info s) (_selected_cols s)
         (_top_n_pipelines s) (_tuners s) v (_pipeline_number s)
         (base_results s).
Definition set_pipeline_number (v : nat) (s : Algo) : Algo :=
  mkAlgo (config s) (_best_pipeline_info s) (_selected_cols s)
         (_top_n_pipelines s) (_tuners s) (_batch_number s) v
         (base_results s).
Definition set_base_results
    (v : list (score * Pipeline * TrainedPipelineResults)) (s : Algo)
  : Algo :=
  mkAlgo (config s) (_best_pipeline_info s) (_selected_cols s)
         (_top_n_pipelines s) (_tuners s) (_batch_number s)
         (_pipeline_number s) v.

(* ------------------------------------------------------------- *)
(** *** [__init__] *)

Record InitArgs : Type := {
  arg_X : Data E;
  arg_y : Data E;
  arg_problem_type : ProblemTypes;
  arg_sampler_name : PyVal;
  arg_random_seed : Z;
  arg_pipeline_params : PyVal;
  arg_custom_hyperparameters : PyVal;
  arg_n_jobs : PyVal;
  arg_number_features : PyVal;
  arg_text_in_ensembling : PyVal;
}.

(** [str(type(v))] *)
Definition type_repr (v : PyVal) : string :=
  match v with
  | SkoptInteger _ _ | SkoptReal _ _ | SkoptCategorical _ =>
      "<class 'skopt.space.space." ++ type_name v ++ "'>"
  | _ => "<class '" ++ type_name v ++ "'>"
  end.

Definition not_a_dict_msg (custom_hyperparameters : PyVal) : string :=
  "If custom_hyperparameters provided, must be of type dict. Received "
    ++ type_repr custom_hyperparameters.

Definition pipeline_params_msg : string :=
  "Pipeline parameters should not contain skopt.Space variables, please pass them to custom_hyperparameters instead!".

Definition custom_hyperparameters_msg : string :=
  "Custom hyperparameters should only contain skopt.Space variables such as Categorical, Integer, and Real!".

(** [for _, val in items: if rejected(val): raise ValueError(msg)] *)
Fixpoint check_items (rejected : PyVal -> bool) (msg : string)
    (items : list (string * PyVal)) : result unit :=
  match items with
  | [] => Ok tt
  | (_, val) :: rest =>
      if rejected val then Raise (ValueError msg)
      else check_items rejected msg rest
  end.

(** [for name_val in values: for _, val in name_val.items(): ...] *)
Fixpoint check_values (rejected : PyVal -> bool) (msg : string)
    (values : list PyVal) : result unit :=
  match values with
  | [] => Ok tt
  | name_val :: rest =>
      match py_items name_val with
      | Raise e => Raise e
      | Ok items =>
          match check_items rejected msg items with
          | Raise e => Raise e
          | Ok _ => check_values rejected msg rest
          end
      end
  end.

(** The loop over [self._pipeline_params.values()]. *)
Definition check_pipeline_params (pipeline_params : PyVal) : result unit :=
  match py_values pipeline_params with
  | Raise e => Raise e
  | Ok values => check_values is_skopt_space pipeline_params_msg values
  end.

(** The loop over [self._custom_hyperparameters.values()]. *)
Definition check_custom_hyperparameters (custom : PyVal) : result unit :=
  match py_values custom with
  | Raise e => Raise e
  | Ok values =>
      check_values (fun v => negb (is_skopt_space v))
        custom_hyperparameters_msg values
  end.

(** The attributes [__init__] assigns.  Modelled from the spec:
    [super().__init__] is not part of the sources; it starts both
    counters at 0, with no tuner and nothing recorded. *)
Definition initial_attributes (a : InitArgs) : Algo :=
  {| config :=
       {| X := arg_X a;
          y := arg_y a;
          problem_type := arg_problem_type a;
          _sampler_name := arg_sampler_name a;
          n_jobs := arg_n_jobs a;
          number_features := arg_number_features a;
          text_in_ensembling := arg_text_in_ensembling a;
          _pipeline_params :=
            py_or (arg_pipeline_params a) (PyDict []);
          _custom_hyperparameters :=
            py_or (arg_custom_hyperparameters a) (PyDict []);
          random_seed := arg_random_seed a |};
     _best_pipeline_info := [];
     _selected_cols := None;
     _top_n_pipelines := None;
     _tuners := [];
     _batch_number := 0;
     _pipeline_number := 0;
     base_results := [] |}.

Definition __init__ (a : InitArgs) : result Algo :=
  let self := initial_attributes a in
  if truthy (arg_custom_hyperparameters a)
     && negb (is_dict (arg_custom_hyperparameters a))
  then Raise (ValueError (not_a_dict_msg (arg_custom_hyperparameters a)))
  else
    match check_pipeline_params (_pipeline_params (config self)) with
    | Raise e => Raise e
    | Ok _ =>
        match check_custom_hyperparameters
                (_custom_hyperparameters (config self)) with
        | Raise e => Raise e
        | Ok _ => Ok self
        end
    end.

(* ------------------------------------------------------------- *)
(** *** Helpers for loops and list operations *)

(** [[f(a) for a in l]] where [f] may mutate [self] or raise. *)
Fixpoint mapM {S A B} (f : A -> M S B) (l : list A) : M S (list B) :=
  match l with
  | [] => ret []
  | a :: l' =>
      (b <- f a ;; bs <- mapM f l' ;; ret (b :: bs))%py
  end.

(** [list.sort(key=lambda pipeline: pipeline[1])]: a stable sort on the
    score; an element goes after every element it is not strictly
    below. *)
Fixpoint insert_by_score {A} (x : A * spec_float)
    (l : list (A * spec_float)) : list (A * spec_float) :=
  match l with
  | [] => [x]
  | h :: t =>
      if SFltb (snd x) (snd h) then x :: h :: t
      else h :: insert_by_score x t
  end.

Definition sort_by_score {A} (l : list (A * spec_float))
  : list (A * spec_float) :=
  fold_left (fun acc x => insert_by_score x acc) l [].

Definition select_columns_name : string := "Select Columns Transformer".

(** [{"Select Columns Transformer": {"columns": self._selected_cols}}] *)
Definition select_columns_parameters (s : Algo) : component_parameters :=
  [("columns", cols_val (_selected_cols s))].

(* ------------------------------------------------------------- *)
(** *** Batch generators *)

Definition _naive_estimators (s : Algo) : list ComponentClass :=
  if is_regression (problem_type (config s))
  then map (handle_component_class E)
           ["Linear Regressor"; "Random Forest Regressor"]
  else map (handle_component_class E)
           ["Logistic Regression Classifier"; "Random Forest Classifier"].

Definition make (s : Algo) (extra_components : list ComponentClass)
    (estimator : ComponentClass) : Pipeline :=
  make_pipeline E (X (config s)) (y (config s)) estimator
    (problem_type (config s)) (_sampler_name (config s))
    extra_components.

Definition _create_naive_pipelines : M Algo (list Pipeline) :=
  fun s => (s, Ok (map (make s []) (_naive_estimators s))).

Definition _create_naive_pipelines_with_feature_selection
  : M Algo (list Pipeline) :=
  fun s =>
    let feature_selector :=
      if is_regression (problem_type (config s))
      then RFRegressorSelectFromModel
      else RFClassifierSelectFromModel in
    (s, Ok (map (make s [feature_selector]) (_naive_estimators s))).

Definition _create_tuner (pipeline : Pipeline) : M Algo unit :=
  fun s =>
    let pipeline_hyperparameters :=
      get_hyperparameter_ranges E (linearized_component_graph pipeline)
        (_custom_hyperparameters (config s)) in
    (set_tuners
       (sset (name pipeline)
          (tuner_init E pipeline_hyperparameters (random_seed (config s)))
          (_tuners s)) s,
     Ok tt).

Definition _create_fast_final : M Algo (list Pipeline) :=
  (s <- get ;;
   let estimators :=
     filter (fun estimator =>
               negb (existsb (String.eqb estimator) (_naive_estimators s)))
            (get_estimators E (problem_type (config s))) in
   let pipelines := map (make s [SelectColumns]) estimators in
   let pipelines :=
     map (fun pipeline =>
            new E pipeline
              [(select_columns_name, select_columns_parameters s)]
              (random_seed (config s)))
         pipelines in
   mapM _create_tuner pipelines ;;;
   ret pipelines)%py.

(** One iteration of the loop of [_transform_parameters]:
    [component_parameters] is the very dict stored in
    [proposed_parameters] when there is one, so writing [n_jobs] also
    writes into [proposed_parameters]. *)
Definition transform_step (s : Algo)
    (acc : parameters * parameters)
    (entry : string * ComponentClass) : parameters * parameters :=
  let '(parameters, proposed_parameters) := acc in
  let '(cname, component_class) := entry in
  let stored := sget cname proposed_parameters in
  let component_parameters :=
    match stored with Some cp => cp | None => [] end in
  if existsb (String.eqb "n_jobs") (init_params E component_class)
  then
    let component_parameters :=
      sset "n_jobs" (n_jobs (config s)) component_parameters in
    (sset cname component_parameters parameters,
     match stored with
     | Some _ => sset cname component_parameters proposed_parameters
     | None => proposed_parameters
     end)
  else (sset cname component_parameters parameters, proposed_parameters).

(** [_transform_parameters(self, pipeline, proposed_parameters)]: the
    returned mapping and [proposed_parameters] after the call. *)
Definition _transform_parameters (s : Algo) (pipeline : Pipeline)
    (proposed_parameters : parameters) : parameters * parameters :=
  fold_left (transform_step s) (linearized_component_graph pipeline)
    ([], proposed_parameters).

Definition set_bp_parameters (v : parameters) (info : BestPipelineInfo)
  : BestPipelineInfo :=
  {| mean_cv_score := mean_cv_score info;
     pipeline := pipeline info;
     bp_parameters := v;
     bp_id := bp_id info |}.

(** The body of the loop of [_create_ensemble] on one record of the
    table: the input pipeline and the record after the call. *)
Definition ensemble_input (s : Algo)
    (entry : ModelFamily * BestPipelineInfo)
  : Pipeline * (ModelFamily * BestPipelineInfo) :=
  let pipeline_dict := snd entry in
  let '(parameters, stored) :=
    _transform_parameters s (pipeline pipeline_dict)
      (bp_parameters pipeline_dict) in
  (new E (pipeline pipeline_dict) parameters (random_seed (config s)),
   (fst entry, set_bp_parameters stored pipeline_dict)).

Definition _create_ensemble : M Algo (list Pipeline) :=
  fun s =>
    let visited := map (ensemble_input s) (_best_pipeline_info s) in
    let input_pipelines := map fst visited in
    let s' := set_best_pipeline_info (map snd visited) s in
    let n_jobs_ensemble :=
      if truthy (text_in_ensembling (config s)) then PyInt 1
      else n_jobs (config s) in
    match input_pipelines with
    | [] => (s', Raise (IndexError "list index out of range"))
    | first :: _ =>
        (s', Ok [_make_stacked_ensemble_pipeline E input_pipelines
                   (pipeline_problem_type first)
                   (random_seed (config s)) n_jobs_ensemble])
    end.

(** [self._tuners[name].propose()] *)
Definition tuner_propose (tuner_name : string) : M Algo parameters :=
  fun s =>
    match sget tuner_name (_tuners s) with
    | None => (s, Raise (KeyError tuner_name))
    | Some tuner =>
        let (tuner', r) := SKOptTuner.propose tuner in
        (set_tuners (sset tuner_name tuner' (_tuners s)) s, r)
    end.

(** The statements shared by the two sampling loops: ask the pipeline's
    tuner, transform, bind the selected columns, instantiate. *)
Definition propose_pipeline (pipeline : Pipeline) : M Algo Pipeline :=
  (proposed_parameters <- tuner_propose (name pipeline) ;;
   s <- get ;;
   let parameters :=
     fst (_transform_parameters s pipeline proposed_parameters) in
   let parameters :=
     sset select_columns_name (select_columns_parameters s) parameters in
   ret (new E pipeline parameters (random_seed (config s))))%py.

Definition _create_long_top_n (n : nat) : M Algo (list Pipeline) :=
  (s <- get ;;
   let estimators :=
     map (fun pipeline_dict =>
            (estimator (pipeline pipeline_dict),
             mean_cv_score pipeline_dict))
         (dict_values (_best_pipeline_info s)) in
   let estimators := sort_by_score estimators in
   let estimators := firstn n estimators in
   let estimators := map fst estimators in
   let pipelines := map (make s [SelectColumns]) estimators in
   modify (set_top_n_pipelines (Some pipelines)) ;;;
   rounds <-
     mapM (fun _ : nat =>
             mapM (fun pipeline =>
                     (s <- get ;;
                      (if dict_mem String.eqb (name pipeline) (_tuners s)
                       then ret tt
                       else _create_tuner pipeline) ;;;
                      propose_pipeline pipeline)%py)
                  pipelines)
          (seq 0 50) ;;
   ret (List.concat rounds))%py.

(** The [else] branch of [next_batch]. *)
Definition _sample_top_n : M Algo (list Pipeline) :=
  (rounds <-
     mapM (fun _ : nat =>
             (s <- get ;;
              match _top_n_pipelines s with
              | None =>
                  raise (TypeError "'NoneType' object is not iterable")
              | Some pipelines => mapM propose_pipeline pipelines
              end)%py)
          (seq 0 10) ;;
   ret (List.concat rounds))%py.

(** [EvalMLAlgorithm.next_batch(self)] *)
Definition next_batch : M Algo (list Pipeline) :=
  (s <- get ;;
   next_batch <-
     (if Nat.eqb (_batch_number s) 0 then _create_naive_pipelines
      else if Nat.eqb (_batch_number s) 1
           then _create_naive_pipelines_with_feature_selection
      else if Nat.eqb (_batch_number s) 2 then _create_fast_final
      else if Nat.eqb (batch_number s) 3 then _create_ensemble
      else if Nat.eqb (batch_number s) 4 then _create_long_top_n 3
      else if negb (Nat.eqb (batch_number s mod 2) 0)
           then _create_ensemble
      else _sample_top_n) ;;
   modify (fun s => set_pipeline_number
                      (_pipeline_number s + List.length next_batch) s) ;;;
   modify (fun s => set_batch_number (_batch_number s + 1) s) ;;;
   ret next_batch)%py.

(* ------------------------------------------------------------- *)
(** *** [add_result] *)

(** Modelled from the spec: [AutoMLAlgorithm.add_result] of the base
    class, which is not part of the sources: it records the result in
    the base class's bookkeeping. *)
Definition super_add_result (score_to_minimize : score)
    (pipeline : Pipeline)
    (trained_pipeline_results : TrainedPipelineResults) : M Algo unit :=
  modify (fun s =>
            set_base_results
              (base_results s
                 ++ [(score_to_minimize, pipeline,
                      trained_pipeline_results)]) s).

Definition is_None {A} (o : option A) : bool :=
  match o with None => true | Some _ => false end.

(** [self._best_pipeline_info.get(family, {}).get("mean_cv_score",
    np.inf)] *)
Definition current_best_score (s : Algo) (family : ModelFamily)
  : spec_float :=
  match dict_get ModelFamily_eqb family (_best_pipeline_info s) with
  | Some pipeline_dict => mean_cv_score pipeline_dict
  | None => np_inf
  end.

(** [score_to_minimize is not None and score_to_minimize < best] *)
Definition improves (score_to_minimize : score) (best : spec_float)
  : bool :=
  match score_to_minimize with
  | None => false
  | Some sc => SFltb sc best
  end.

(** The score written into the record; it is read only under
    [improves], hence on a score that is not [None]. *)
Definition score_value (score_to_minimize : score) : spec_float :=
  match score_to_minimize with
  | Some sc => sc
  | None => S754_nan
  end.

(** [EvalMLAlgorithm.add_result(self, score_to_minimize, pipeline,
    trained_pipeline_results)] *)
Definition add_result (score_to_minimize : score) (pipeline : Pipeline)
    (trained_pipeline_results : TrainedPipelineResults) : M Algo unit :=
  (s <- get ;;
   (if negb (ModelFamily_eqb (model_family pipeline) ENSEMBLE)
    then
      if Nat.leb 3 (batch_number s)
      then super_add_result score_to_minimize pipeline
             trained_pipeline_results
      else ret tt
    else ret tt) ;;;
   s <- get ;;
   (if Nat.eqb (batch_number s) 2 && is_None (_selected_cols s)
    then
      if is_regression (problem_type (config s))
      then modify (set_selected_cols
             (Some (get_names
                      (get_component pipeline
                         "RF Regressor Select From Model"))))
      else modify (set_selected_cols
             (Some (get_names
                      (get_component pipeline
                         "RF Classifier Select From Model"))))
    else ret tt) ;;;
   s <- get ;;
   let current_best_score := current_best_score s (model_family pipeline) in
   if improves score_to_minimize current_best_score
      && negb (ModelFamily_eqb (model_family pipeline) ENSEMBLE)
   then
     modify (fun s =>
       set_best_pipeline_info
         (dict_set ModelFamily_eqb (model_family pipeline)
            {| mean_cv_score := score_value score_to_minimize;
               pipeline := pipeline;
               bp_parameters := pipeline_parameters pipeline;
               bp_id := id trained_pipeline_results |}
            (_best_pipeline_info s)) s)
   else ret tt)%py.

End WithEnv.
End EvalML.

(* ================================================================= *)
(** ** Runs of the driver loop *)

Section Runs.
Variable E : EvalML.Env.

(** One call of the external driver on the algorithm. *)
Inductive Call : Type :=
| NextBatch
| AddResult (score_to_minimize : score) (pipeline : Pipeline)
            (trained_pipeline_results : TrainedPipelineResults).

(** The algorithm after one call (whether it returned or raised). *)
Definition call (c : Call) (s : EvalML.Algo E) : EvalML.Algo E :=
  match c with
  | NextBatch => fst (EvalML.next_batch s)
  | AddResult sc p r => fst (EvalML.add_result sc p r s)
  end.

Definition run (cs : list Call) (s : EvalML.Algo E) : EvalML.Algo E :=
  fold_left (fun s c => call c s) cs s.

(** [n] successive calls of [next_batch()], stopping at the first one that
    raises; the batches they returned. *)
Fixpoint next_batches (n : nat) : M (EvalML.Algo E) (list (list Pipeline)) :=
  match n with
  | O => ret []
  | S n' =>
      (b <- EvalML.next_batch (E := E) ;;
       bs <- next_batches n' ;;
       ret (b :: bs))%py
  end.

(** The results of the batch of index [k] (the [k+1]-th batch) come in
    after the call of [next_batch()] that returned it and before the next
    one, that is while [batch_number] is [k + 1]. *)
Definition result_of_batch (k : nat) (s : EvalML.Algo E) : Prop :=
  EvalML.batch_number s = S k.

(** The non-null scores of the non-ensemble pipelines of a family passed
    to [add_result] during a run. *)
Definition seen1 (f : ModelFamily) (c : Call) : list spec_float :=
  match c with
  | AddResult (Some sc) p _ =>
      if ModelFamily_eqb (model_family p) f
         && negb (ModelFamily_eqb f ENSEMBLE)
      then [sc] else []
  | _ => []
  end.

Definition seen (f : ModelFamily) (cs : list Call) : list spec_float :=
  flat_map (seen1 f) cs.

(** The score the table holds for a family. *)
Definition best_score (s : EvalML.Algo E) (f : ModelFamily)
  : option spec_float :=
  option_map mean_cv_score
    (dict_get ModelFamily_eqb f (EvalML._best_pipeline_info s)).

(** The shape of a pipeline of the sampling batches: [q] is a fresh
    instance of [p] whose parameters are the transform of some parameter
    mapping, with the column selection bound to the selected columns of
    [s].  Which mapping it is, namely what the tuner of [p] proposed, is
    what [proposals] below states. *)
Definition materialized (s : EvalML.Algo E) (p q : Pipeline) : Prop :=
  exists proposed_parameters,
    let parameters :=
      sset EvalML.select_columns_name (EvalML.select_columns_parameters s)
        (fst (EvalML._transform_parameters s p proposed_parameters)) in
    q = EvalML.new E p parameters (EvalML.random_seed (EvalML.config s))
    /\ sget EvalML.select_columns_name parameters
       = Some [("columns", cols_val (EvalML._selected_cols s))].

(** The pipeline the sampling loops build from the parameters the
    tuner proposed for [p]: the proposal goes through
    [_transform_parameters], the column selection is bound to the
    selected columns, and [p.new(...)] makes the instance. *)
Definition instantiate (s : EvalML.Algo E) (p : Pipeline)
    (proposed_parameters : parameters) : Pipeline :=
  EvalML.new E p
    (sset EvalML.select_columns_name (EvalML.select_columns_parameters s)
       (fst (EvalML._transform_parameters s p proposed_parameters)))
    (EvalML.random_seed (EvalML.config s)).

(** [proposals s prepare tuners ps tuners' qs]: the pipelines [qs] are
    what the tuners proposed for the skeletons [ps], asked one after the
    other.  For each skeleton in order, [prepare] readies the tuner
    table, the tuner stored under the skeleton's name is asked with
    [SKOptTuner.propose], which returns, the tuner it leaves is stored
    back under that name, and the pipeline is [instantiate]d from the
    proposal.  [tuners] is the tuner table before the first [propose()]
    and [tuners'] the table after the last one. *)
Inductive proposals (s : EvalML.Algo E)
    (prepare : Pipeline -> dict string (EvalML.Tuner E)
               -> dict string (EvalML.Tuner E))
  : dict string (EvalML.Tuner E) -> list Pipeline
    -> dict string (EvalML.Tuner E) -> list Pipeline -> Prop :=
| proposals_nil tuners : proposals s prepare tuners [] tuners []
| proposals_cons tuners p ps tuner tuner' proposed_parameters tuners' qs :
    sget (name p) (prepare p tuners) = Some tuner ->
    SKOptTuner.propose tuner = (tuner', Ok proposed_parameters) ->
    proposals s prepare (sset (name p) tuner' (prepare p tuners))
      ps tuners' qs ->
    proposals s prepare tuners (p :: ps) tuners'
      (instantiate s p proposed_parameters :: qs).

(** The sampling batches ask the tuners as they are stored. *)
Definition as_stored (p : Pipeline) (tuners : dict string (EvalML.Tuner E))
  : dict string (EvalML.Tuner E) := tuners.

(** Every pipeline of the top-n set has its tuner. *)
Definition tuners_cover (s : EvalML.Algo E) (tops : list Pipeline) : Prop :=
  forall p, In p tops ->
    dict_mem String.eqb (name p) (EvalML._tuners s) = true.

(** The optimizer backend answers every [ask()]. *)
Definition asks_succeed : Prop :=
  forall o, is_ok (snd (SKOptTuner.opt_ask (EvalML.TE E) o)) = true.

(** The branch of the [if]/[elif] chain of [next_batch] taken when
    [batch_number] is [b]. *)
Definition batch_generator (b : nat) : M (EvalML.Algo E) (list Pipeline) :=
  if Nat.eqb b 0 then EvalML._create_naive_pipelines (E := E)
  else if Nat.eqb b 1
       then EvalML._create_naive_pipelines_with_feature_selection (E := E)
  else if Nat.eqb b 2 then EvalML._create_fast_final (E := E)
  else if Nat.eqb b 3 then EvalML._create_ensemble (E := E)
  else if Nat.eqb b 4 then EvalML._create_long_top_n (E := E) 3
  else if negb (Nat.eqb (b mod 2) 0) then EvalML._create_ensemble (E := E)
  else EvalML._sample_top_n (E := E).

(** The two increments that end [next_batch]. *)
Definition count_batch (next_batch : list Pipeline) (s : EvalML.Algo E)
  : EvalML.Algo E :=
  EvalML.set_batch_number (EvalML._batch_number s + 1)
    (EvalML.set_pipeline_number
       (EvalML._pipeline_number s + List.length next_batch) s).

(** The three steps of [add_result], one after the other. *)
Definition forward (sc : score) (p : Pipeline) (r : TrainedPipelineResults)
    (s : EvalML.Algo E) : EvalML.Algo E :=
  if negb (ModelFamily_eqb (model_family p) ENSEMBLE)
     && Nat.leb 3 (EvalML.batch_number s)
  then EvalML.set_base_results
         (EvalML.base_results s ++ [(sc, p, r)])%list s
  else s.

Definition record_cols (p : Pipeline) (s : EvalML.Algo E) : EvalML.Algo E :=
  if Nat.eqb (EvalML.batch_number s) 2
     && EvalML.is_None (EvalML._selected_cols s)
  then EvalML.set_selected_cols
         (Some (get_names
                  (get_component p
                     (if is_regression (EvalML.problem_type (EvalML.config s))
                      then "RF Regressor Select From Model"
                      else "RF Classifier Select From Model")))) s
  else s.

Definition record_best (sc : score) (p : Pipeline)
    (r : TrainedPipelineResults) (s : EvalML.Algo E) : EvalML.Algo E :=
  if EvalML.improves sc (EvalML.current_best_score s (model_family p))
     && negb (ModelFamily_eqb (model_family p) ENSEMBLE)
  then EvalML.set_best_pipeline_info
         (dict_set ModelFamily_eqb (model_family p)
            {| mean_cv_score := EvalML.score_value sc;
               pipeline := p;
               bp_parameters := pipeline_parameters p;
               bp_id := id r |}
            (EvalML._best_pipeline_info s)) s
  else s.

(** The table holds, for every family, a lowest score among those seen:
    one of them, with none strictly below it; a family has no record only
    when no score seen is below infinity. *)
Definition table_holds_best (cs : list Call) (s : EvalML.Algo E) : Prop :=
  forall f,
    match best_score s f with
    | Some best =>
        In best (seen f cs)
        /\ forall sc, In sc (seen f cs) -> SFltb sc best = false
    | None => forall sc, In sc (seen f cs) -> SFltb sc np_inf = false
    end.

(** The invariant of the table along a run. *)
Definition table_invariant (cs : list Call) (s : EvalML.Algo E) : Prop :=
  table_holds_best cs s /\ best_score s ENSEMBLE = None.

(** [next_batch] when the branch taken is the generator [g]. *)
Definition generate_and_count (g : M (EvalML.Algo E) (list Pipeline))
  : M (EvalML.Algo E) (list Pipeline) :=
  fun s =>
    match g s with
    | (s1, Ok b) => (count_batch b s1, Ok b)
    | (s1, Raise e) => (s1, Raise e)
    end.

(** The input pipelines of the ensemble built from the table of [s]. *)
Definition ensemble_inputs (s : EvalML.Algo E) : list Pipeline :=
  map fst (map (EvalML.ensemble_input s) (EvalML._best_pipeline_info s)).

(** The skeleton pipelines [_create_long_top_n(n)] stores in
    [_top_n_pipelines]: one per record of the table among the [n] of
    lowest score. *)
Definition top_n_skeletons (n : nat) (s : EvalML.Algo E) : list Pipeline :=
  map (EvalML.make s [SelectColumns])
    (map fst
       (firstn n
          (EvalML.sort_by_score
             (map (fun pipeline_dict =>
                     (estimator (pipeline pipeline_dict),
                      mean_cv_score pipeline_dict))
                  (dict_values (EvalML._best_pipeline_info s)))))).

(** [n_jobs_ensemble] *)
Definition n_jobs_ensemble (s : EvalML.Algo E) : PyVal :=
  if truthy (EvalML.text_in_ensembling (EvalML.config s)) then PyInt 1
  else EvalML.n_jobs (EvalML.config s).

#[local] Unset Implicit Arguments.
(** What every batch generator leaves alone. *)
Record frame (s s' : EvalML.Algo E) : Prop := {
  fr_config : EvalML.config s' = EvalML.config s;
  fr_selected : EvalML._selected_cols s' = EvalML._selected_cols s;
  fr_top : EvalML._top_n_pipelines s' = EvalML._top_n_pipelines s;
  fr_batch : EvalML._batch_number s' = EvalML._batch_number s;
  fr_pipeline : EvalML._pipeline_number s' = EvalML._pipeline_number s;
  fr_base : EvalML.base_results s' = EvalML.base_results s;
  fr_scores : forall f, best_score s' f = best_score s f;
  fr_families : map fst (EvalML._best_pipeline_info s')
                = map fst (EvalML._best_pipeline_info s);
  fr_tuners : forall k, dict_mem String.eqb k (EvalML._tuners s) = true ->
                        dict_mem String.eqb k (EvalML._tuners s') = true;
}.
#[local] Set Implicit Arguments.
End Runs.

Arguments frame {E} s s'.
Arguments as_stored {E} p tuners.
Arguments fr_config {E} s s' _.
Arguments fr_selected {E} s s' _.
Arguments fr_top {E} s s' _.
Arguments fr_batch {E} s s' _.
Arguments fr_pipeline {E} s s' _.
Arguments fr_base {E} s s' _.
Arguments fr_scores {E} s s' _ f.
Arguments fr_families {E} s s' _.
Arguments fr_tuners {E} s s' _ k _.

(** A mapping whose values are all mappings. *)
Definition mapping_of_mappings (v : PyVal) : bool :=
  match v with
  | PyDict d => forallb (fun kv => is_dict (snd kv)) d
  | _ => false
  end.

(** The values at the second level of a nested mapping. *)
Definition leaves (v : PyVal) : list PyVal :=
  match v with
  | PyDict d =>
      flat_map (fun kv => match snd kv with
                          | PyDict inner => map snd inner
                          | _ => []
                          end) d
  | _ => []
  end.

(** An argument that [__init__] can walk: a falsy value (it is replaced by
    [{}]) or a mapping of mappings. *)
Definition well_shaped (v : PyVal) : bool :=
  mapping_of_mappings (py_or v (PyDict [])).

Definition is_finite_score (sc : score) : bool :=
  match sc with
  | Some (S754_zero _) | Some (S754_finite _ _ _) => true
  | _ => false
  end.

(** The float nearest to an integer (binary64). *)
Definition float_of_Z (z : Z) : spec_float :=
  binary_normalize 53 1024 z 0 false.

(* ================================================================= *)
(** ** A concrete environment

    A small instance of the collaborators, used to run the code on concrete
    inputs: an optimizer that records what it is told and checks the point
    against an integer dimension, a pipeline factory that records what it was
    asked for. *)

Module Demo.

Definition out_of_bounds : PyException :=
  ValueError "Point is not within the bounds of the space".

(** Checking a point against the dimensions of the space, as the
    optimizer does on [tell]: each value is compared with the bounds of its
    dimension, and [None] cannot be compared. *)
Fixpoint check_point (space x : list PyVal) : option PyException :=
  match space, x with
  | SkoptInteger lo hi :: space', v :: x' =>
      match v with
      | PyInt z =>
          if (Z.leb lo z && Z.leb z hi)%bool then check_point space' x'
          else Some out_of_bounds
      | PyNone =>
          Some (TypeError
            "'<=' not supported between instances of 'int' and 'NoneType'")
      | _ => Some out_of_bounds
      end
  | SkoptReal lo hi :: space', v :: x' =>
      match v with
      | PyFloat f =>
          if (SFleb lo f && SFleb f hi)%bool then check_point space' x'
          else Some out_of_bounds
      | PyNone =>
          Some (TypeError
            "'<=' not supported between instances of 'float' and 'NoneType'")
      | _ => Some out_of_bounds
      end
  | _ :: space', _ :: x' => check_point space' x'
  | _, _ => None
  end.

(** The optimizer: its space and the observations it was told. *)
Record Opt : Type := {
  space : list PyVal;
  observations : list (list PyVal * score);
}.

Definition ask : M Opt (list PyVal) :=
  fun o =>
    (o, Ok (map (fun _ => PyInt (Z.of_nat (List.length (observations o))))
              (space o))).

Definition tell (x : list PyVal) (sc : score) : M Opt unit :=
  fun o =>
    match check_point (space o) x with
    | Some e => (o, Raise e)
    | None =>
        ({| space := space o;
            observations := (observations o ++ [(x, sc)])%list |}, Ok tt)
    end.

Fixpoint flatten (names : list (string * string)) (p : parameters)
  : result (list PyVal) :=
  match names with
  | [] => Ok []
  | (c, k) :: rest =>
      match sget c p with
      | None => Raise (TypeError "Pipeline parameters missing required field")
      | Some cp =>
          match sget k cp with
          | None =>
              Raise (TypeError "Pipeline parameters missing required field")
          | Some v =>
              match flatten rest p with
              | Ok vs => Ok (v :: vs)
              | Raise e => Raise e
              end
          end
      end
  end.

Fixpoint unflatten (names : list (string * string)) (vs : list PyVal)
  : parameters :=
  match names, vs with
  | (c, k) :: names', v :: vs' =>
      let rest := unflatten names' vs' in
      sset c (sset k v (match sget c rest with Some cp => cp | None => [] end))
        rest
  | _, _ => []
  end.

Definition TE : SKOptTuner.Env :=
  {| SKOptTuner.Optimizer := Opt;
     SKOptTuner.opt_ask := ask;
     SKOptTuner.opt_tell := tell;
     SKOptTuner.convert_to_flat_parameters := flatten;
     SKOptTuner.convert_to_pipeline_parameters := unflatten;
     SKOptTuner.format_parameters :=
       fun p => String.concat "," (map fst p) |}.

(** A tuner over one integer dimension, [Estimator.x] in [0, 10]. *)
Definition tuner : SKOptTuner.Tuner TE :=
  SKOptTuner.mkTuner TE [("Estimator", "x")] [SkoptInteger 0 10]
    {| space := [SkoptInteger 0 10]; observations := [] |}.

(** A tuner over one real dimension, [Estimator.x] in [0.0, 1.0]. *)
Definition real_tuner : SKOptTuner.Tuner TE :=
  SKOptTuner.mkTuner TE [("Estimator", "x")]
    [SkoptReal (S754_zero false) (float_of_Z 1)]
    {| space := [SkoptReal (S754_zero false) (float_of_Z 1)];
       observations := [] |}.

Definition params (v : PyVal) : parameters := [("Estimator", [("x", v)])].

Definition names_of (ranges : parameters) : list (string * string) :=
  flat_map (fun c => map (fun kv => (fst c, fst kv)) (snd c)) ranges.

(** The name under which a component class appears in a pipeline. *)
Definition component_name (c : ComponentClass) : string :=
  if String.eqb c SelectColumns then "Select Columns Transformer"
  else if String.eqb c RFClassifierSelectFromModel
       then "RF Classifier Select From Model"
  else if String.eqb c RFRegressorSelectFromModel
       then "RF Regressor Select From Model"
  else c.

Definition make_pipeline (_ _ : unit) (estimator : ComponentClass)
    (pt : ProblemTypes) (_ : PyVal) (extra : list ComponentClass)
  : Pipeline :=
  {| name := String.concat " + " (extra ++ [estimator])%list;
     model_family := Family estimator;
     pipeline_problem_type := pt;
     pipeline_parameters := [];
     linearized_component_graph :=
       map (fun c => (component_name c, c)) (extra ++ [estimator])%list;
     estimator := estimator;
     get_component := fun c => {| get_names := ["a"; "b"] |} |}.

Definition new (p : Pipeline) (ps : parameters) (_ : Z) : Pipeline :=
  {| name := name p;
     model_family := model_family p;
     pipeline_problem_type := pipeline_problem_type p;
     pipeline_parameters := ps;
     linearized_component_graph := linearized_component_graph p;
     estimator := estimator p;
     get_component := get_component p |}.

Definition stacked (inputs : list Pipeline) (pt : ProblemTypes) (_ : Z)
    (n_jobs : PyVal) : Pipeline :=
  {| name := "Stacked Ensemble Pipeline";
     model_family := ENSEMBLE;
     pipeline_problem_type := pt;
     pipeline_parameters := [("Stacked Ensemble", [("n_jobs", n_jobs)])];
     linearized_component_graph := [("Stacked Ensemble", "StackedEnsemble")];
     estimator := "StackedEnsemble";
     get_component := fun c => {| get_names := [] |} |}.

Definition E : EvalML.Env :=
  {| EvalML.TE := TE;
     EvalML.Data := unit;
     EvalML.tuner_init :=
       fun ranges _ =>
         SKOptTuner.mkTuner TE (names_of ranges)
           (flat_map (fun c => map snd (snd c)) ranges)
           {| space := flat_map (fun c => map snd (snd c)) ranges;
              observations := [] |};
     EvalML.make_pipeline := make_pipeline;
     EvalML.new := new;
     EvalML._make_stacked_ensemble_pipeline := stacked;
     EvalML.get_estimators :=
       fun pt =>
         if is_regression pt
         then ["Linear Regressor"; "Random Forest Regressor";
               "Extra Trees Regressor"; "XGBoost Regressor"]
         else ["Logistic Regression Classifier"; "Random Forest Classifier";
               "Extra Trees Classifier"; "XGBoost Classifier"];
     EvalML.handle_component_class := fun n => n;
     EvalML.get_hyperparameter_ranges :=
       fun graph _ =>
         map (fun c => (fst c, [("max_depth", SkoptInteger 1 10)]))
           (filter (fun c => negb (String.eqb (snd c) SelectColumns)) graph);
     EvalML.init_params :=
       fun c => if String.eqb c SelectColumns then ["columns"]
                else ["n_jobs"; "random_seed"] |}.

(** [EvalMLAlgorithm(X, y, "binary", None, pipeline_params=...,
    custom_hyperparameters=...)] *)
Definition args (pipeline_params custom_hyperparameters : PyVal)
  : EvalML.InitArgs E :=
  {| EvalML.arg_X := (tt : EvalML.Data E);
     EvalML.arg_y := (tt : EvalML.Data E);
     EvalML.arg_problem_type := BINARY;
     EvalML.arg_sampler_name := PyNone;
     EvalML.arg_random_seed := 0;
     EvalML.arg_pipeline_params := pipeline_params;
     EvalML.arg_custom_hyperparameters := custom_hyperparameters;
     EvalML.arg_n_jobs := PyInt (-1);
     EvalML.arg_number_features := PyNone;
     EvalML.arg_text_in_ensembling := PyNone |}.

(** The algorithm right after construction with default arguments. *)
Definition algo0 : EvalML.Algo E :=
  EvalML.initial_attributes (args PyNone PyNone).

Definition results (n : Z) : TrainedPipelineResults := {| id := PyInt n |}.

Definition skeleton (estimator : ComponentClass)
    (extra : list ComponentClass) : Pipeline :=
  make_pipeline tt tt estimator BINARY PyNone extra.

(** The pipelines of the batch of index 2, with the columns bound. *)
Definition fast_final (estimator : ComponentClass)
    (cols : option (list string)) : Pipeline :=
  new (skeleton estimator [SelectColumns])
    [("Select Columns Transformer", [("columns", cols_val cols)])] 0.

(** Three batches issued, no result reported. *)
Definition algo3 : EvalML.Algo E :=
  run [NextBatch; NextBatch; NextBatch] algo0.

(** Three batches issued and one result of the third one reported. *)
Definition algo_one_family : EvalML.Algo E :=
  run [AddResult (Some (float_of_Z 1))
         (fast_final "Extra Trees Classifier" None) (results 0)]
    algo3.

(** The driver loop: every result of a batch is reported before the next
    batch is asked for.  Up to the second batch, whose results are still
    to come: *)
Definition calls2 : list Call :=
  [NextBatch;
   AddResult (Some (float_of_Z 3))
     (skeleton "Logistic Regression Classifier" []) (results 0);
   AddResult (Some (float_of_Z 2))
     (skeleton "Random Forest Classifier" []) (results 1);
   NextBatch].

(** the results of the second batch and the third batch: *)
Definition calls3 : list Call :=
  [AddResult (Some (float_of_Z 4))
     (skeleton "Logistic Regression Classifier"
        [RFClassifierSelectFromModel]) (results 2);
   AddResult (Some (float_of_Z 1))
     (skeleton "Random Forest Classifier"
        [RFClassifierSelectFromModel]) (results 3);
   NextBatch].

(** the results of the third batch: *)
Definition calls3_results : list Call :=
  [AddResult (Some (float_of_Z 2))
     (fast_final "Extra Trees Classifier" (Some ["a"; "b"])) (results 4);
   AddResult (Some (float_of_Z 5))
     (fast_final "XGBoost Classifier" (Some ["a"; "b"])) (results 5)].

Definition driver2 : EvalML.Algo E := run calls2 algo0.
Definition driver3 : EvalML.Algo E := run calls3 driver2.
Definition reported3 : EvalML.Algo E := run calls3_results driver3.

(** The batches of index 3, 4 and 5 issued. *)
Definition driver6 : EvalML.Algo E :=
  run [NextBatch; NextBatch; NextBatch] reported3.

(** The top-3 skeletons batch 4 stored in that run. *)
Definition top3 : list Pipeline :=
  [skeleton "Random Forest Classifier" [SelectColumns];
   skeleton "Extra Trees Classifier" [SelectColumns];
   skeleton "Logistic Regression Classifier" [SelectColumns]].

Definition returned {A} (r : result (list A)) : list A :=
  match r with Ok l => l | Raise _ => [] end.

(** The [i]-th pipeline of the batch the next call of [next_batch()]
    returns. *)
Definition nth_of_next_batch (i : nat) (s : EvalML.Algo E)
  : option Pipeline :=
  match snd (EvalML.next_batch s) with
  | Ok batch => nth_error batch i
  | Raise _ => None
  end.

End Demo.

From Stdlib Require Import Sorted Permutation.

(* ================================================================= *)
(** ** Histories of a tuner *)

Section TunerRuns.
Variable E : SKOptTuner.Env.

(** One call on a tuner. *)
Inductive TunerCall : Type :=
| Propose
| Add (pipeline_parameters : parameters) (sc : score).

(** The tuner after the call and what the call returned: the proposal of
    [propose()], [None] for [add]. *)
Definition tuner_call (c : TunerCall) (t : SKOptTuner.Tuner E)
  : SKOptTuner.Tuner E * result (option parameters) :=
  match c with
  | Propose =>
      match SKOptTuner.propose t with
      | (t', Ok p) => (t', Ok (Some p))
      | (t', Raise e) => (t', Raise e)
      end
  | Add pp sc =>
      match SKOptTuner.add pp sc t with
      | (t', Ok _) => (t', Ok None)
      | (t', Raise e) => (t', Raise e)
      end
  end.

(** A sequence of calls, each on the tuner the previous one left (a caller
    that catches what a call raises and goes on). *)
Fixpoint tuner_run (cs : list TunerCall) (t : SKOptTuner.Tuner E)
  : SKOptTuner.Tuner E * list (result (option parameters)) :=
  match cs with
  | [] => (t, [])
  | c :: cs' =>
      let (t1, r) := tuner_call c t in
      let (t2, rs) := tuner_run cs' t1 in
      (t2, r :: rs)
  end.

(** An [add] whose score is null. *)
Definition is_null_add (c : TunerCall) : bool :=
  match c with
  | Add _ sc => pd_isnull sc
  | Propose => false
  end.

(** The outcomes of the calls of a history that are not null adds. *)
Fixpoint drop_null_adds (cs : list TunerCall)
    (rs : list (result (option parameters)))
  : list (result (option parameters)) :=
  match cs, rs with
  | c :: cs', r :: rs' =>
      if is_null_add c then drop_null_adds cs' rs'
      else r :: drop_null_adds cs' rs'
  | _, _ => []
  end.
End TunerRuns.

(* ================================================================= *)
(** ** More on the runs of the algorithm *)

Section MoreRuns.
Variable E : EvalML.Env.

(** The estimators of batch 2: those of the problem type that are not
    naive estimators. *)
Definition remaining_estimators (s : EvalML.Algo E) : list ComponentClass :=
  filter (fun estimator =>
            negb (existsb (String.eqb estimator)
                    (EvalML._naive_estimators s)))
         (EvalML.get_estimators E (EvalML.problem_type (EvalML.config s))).

(** The pipelines of batch 2. *)
Definition fast_final_pipelines (s : EvalML.Algo E) : list Pipeline :=
  map (fun estimator =>
         EvalML.new E (EvalML.make s [SelectColumns] estimator)
           [(EvalML.select_columns_name,
             [("columns", cols_val (EvalML._selected_cols s))])]
           (EvalML.random_seed (EvalML.config s)))
      (remaining_estimators s).

(** The tuner [_create_tuner] builds for a pipeline. *)
Definition tuner_for (s : EvalML.Algo E) (p : Pipeline) : EvalML.Tuner E :=
  EvalML.tuner_init E
    (EvalML.get_hyperparameter_ranges E (linearized_component_graph p)
       (EvalML._custom_hyperparameters (EvalML.config s)))
    (EvalML.random_seed (EvalML.config s)).

(** [if pipeline.name not in self._tuners: self._create_tuner(pipeline)]
    on the tuner table. *)
Definition ensure_tuner (s : EvalML.Algo E) (p : Pipeline)
    (tuners : dict string (EvalML.Tuner E))
  : dict string (EvalML.Tuner E) :=
  if dict_mem String.eqb (name p) tuners then tuners
  else sset (name p) (tuner_for s p) tuners.

(** The estimators of the table with their scores, as
    [_create_long_top_n] sorts them. *)
Definition scored_estimators (s : EvalML.Algo E)
  : list (ComponentClass * spec_float) :=
  map (fun pipeline_dict =>
         (estimator (pipeline pipeline_dict), mean_cv_score pipeline_dict))
      (dict_values (EvalML._best_pipeline_info s)).

Definition ranked (s : EvalML.Algo E) : list (ComponentClass * spec_float) :=
  EvalML.sort_by_score (scored_estimators s).

(** [b] is not strictly below [a]. *)
Definition not_below {A} (a b : A * spec_float) : Prop :=
  SFltb (snd b) (snd a) = false.

(** The shape of the table: one record per family, none for [ENSEMBLE],
    each holding a pipeline of its family and a score below infinity. *)
Definition table_well_formed (s : EvalML.Algo E) : Prop :=
  NoDup (map fst (EvalML._best_pipeline_info s))
  /\ forall family info,
       In (family, info) (EvalML._best_pipeline_info s) ->
       family <> ENSEMBLE
       /\ model_family (pipeline info) = family
       /\ SFltb (mean_cv_score info) np_inf = true.

(** [s'] differs from [s] at most in the tuner table and the top-n
    set. *)
Definition only_tuners_and_top_n (s s' : EvalML.Algo E) : Prop :=
  exists tops tuners,
    s' = EvalML.set_top_n_pipelines tops (EvalML.set_tuners tuners s).

(** Two records of the table that differ at most in their stored
    parameters. *)
Definition same_record (e e' : ModelFamily * BestPipelineInfo) : Prop :=
  fst e' = fst e
  /\ mean_cv_score (snd e') = mean_cv_score (snd e)
  /\ pipeline (snd e') = pipeline (snd e)
  /\ bp_id (snd e') = bp_id (snd e).

(** A run that only reports results. *)
Definition results_only (cs : list Call) : bool :=
  forallb (fun c => match c with
                    | AddResult _ _ _ => true
                    | NextBatch => false
                    end) cs.

(** The batches the [next_batch()] calls of a run returned, in order. *)
Fixpoint returned_batches (cs : list Call) (s : EvalML.Algo E)
  : list (list Pipeline) :=
  match cs with
  | [] => []
  | NextBatch :: cs' =>
      match EvalML.next_batch s with
      | (s', Ok b) => b :: returned_batches cs' s'
      | (s', Raise _) => returned_batches cs' s'
      end
  | AddResult sc p r :: cs' =>
      returned_batches cs' (fst (EvalML.add_result sc p r s))
  end.

(** ["n_jobs" in init_params] for the class of a graph entry. *)
Definition accepts_n_jobs (e : string * ComponentClass) : bool :=
  existsb (String.eqb "n_jobs") (EvalML.init_params E (snd e)).

(** The parameters a component gets from [_transform_parameters]: the
    proposed ones (none if the proposal has no entry for it), with
    [n_jobs] forced when its constructor accepts it. *)
Definition transformed_component (s : EvalML.Algo E)
    (proposed_parameters : parameters) (entry : string * ComponentClass)
  : component_parameters :=
  let proposed :=
    match sget (fst entry) proposed_parameters with
    | Some cp => cp
    | None => []
    end in
  if existsb (String.eqb "n_jobs") (EvalML.init_params E (snd entry))
  then sset "n_jobs" (EvalML.n_jobs (EvalML.config s)) proposed
  else proposed.
End MoreRuns.

Arguments only_tuners_and_top_n {E} s s'.

(** Further concrete inputs. *)
Module Inputs.

(** A tuner of a pipeline with no tunable parameter. *)
Definition empty_tuner : SKOptTuner.Tuner Demo.TE :=
  SKOptTuner.mkTuner Demo.TE [] []
    {| Demo.space := []; Demo.observations := [] |}.

End Inputs.

(* ================================================================= *)
(** * Properties *)

Unset Implicit Arguments.

(** ** The order on scores *)

Lemma SFltb_irrefl (a : spec_float) : SFltb a a = false.
Proof.
  unfold SFltb.
  destruct a as [s|s| |s m e]; simpl; try reflexivity.
  - destruct s; reflexivity.
  - destruct s; rewrite Z.compare_refl;
      change (Pos.compare_cont Eq m m) with (Pos.compare m m);
      rewrite Pos.compare_refl; reflexivity.
Qed.

Lemma finite_lt_trans (m1 m2 m3 : positive) (e1 e2 e3 : Z) :
  match Z.compare e1 e2 with Lt => Lt | Gt => Gt | Eq => Pos.compare m1 m2 end = Lt ->
  match Z.compare e2 e3 with Lt => Lt | Gt => Gt | Eq => Pos.compare m2 m3 end = Lt ->
  match Z.compare e1 e3 with Lt => Lt | Gt => Gt | Eq => Pos.compare m1 m3 end = Lt.
Proof.
  destruct (Z.compare_spec e1 e2), (Z.compare_spec e2 e3), (Z.compare_spec e1 e3);
    destruct (Pos.compare_spec m1 m2), (Pos.compare_spec m2 m3), (Pos.compare_spec m1 m3);
    intros; try discriminate; try reflexivity; try lia.
Qed.

Lemma finite_gt_trans (m1 m2 m3 : positive) (e1 e2 e3 : Z) :
  match Z.compare e1 e2 with Lt => Gt | Gt => Lt | Eq => CompOpp (Pos.compare m1 m2) end = Lt ->
  match Z.compare e2 e3 with Lt => Gt | Gt => Lt | Eq => CompOpp (Pos.compare m2 m3) end = Lt ->
  match Z.compare e1 e3 with Lt => Gt | Gt => Lt | Eq => CompOpp (Pos.compare m1 m3) end = Lt.
Proof.
  destruct (Z.compare_spec e1 e2), (Z.compare_spec e2 e3), (Z.compare_spec e1 e3);
    destruct (Pos.compare_spec m1 m2), (Pos.compare_spec m2 m3), (Pos.compare_spec m1 m3);
    simpl; intros; try discriminate; try reflexivity; try lia.
Qed.

Lemma SFltb_trans (a b c : spec_float) :
  SFltb a b = true -> SFltb b c = true -> SFltb a c = true.
Proof.
  unfold SFltb.
  destruct a as [sa|sa| |sa ma ea], b as [sb|sb| |sb mb eb],
    c as [sc|sc| |sc mc ec]; simpl;
    try discriminate; try reflexivity;
    try (destruct sa; try discriminate; try reflexivity);
    try (destruct sb; try discriminate; try reflexivity);
    try (destruct sc; try discriminate; try reflexivity);
    change (Pos.compare_cont Eq) with Pos.compare;
    intros H1 H2.
  all: try discriminate.
  - pose proof (finite_gt_trans ma mb mc ea eb ec) as T.
    destruct (ea ?= eb)%Z, (eb ?= ec)%Z, (ea ?= ec)%Z; try discriminate; try reflexivity;
    destruct (ma ?= mb)%positive, (mb ?= mc)%positive, (ma ?= mc)%positive; simpl in *; try discriminate; try reflexivity; try (specialize (T eq_refl eq_refl); discriminate).
  - pose proof (finite_lt_trans ma mb mc ea eb ec) as T.
    destruct (ea ?= eb)%Z, (eb ?= ec)%Z, (ea ?= ec)%Z; try discriminate; try reflexivity;
    destruct (ma ?= mb)%positive, (mb ?= mc)%positive, (ma ?= mc)%positive; simpl in *; try discriminate; try reflexivity; try (specialize (T eq_refl eq_refl); discriminate).
Qed.

(** ** The tuner *)

Section TunerFacts.
Variable E : SKOptTuner.Env.
Implicit Types (t : SKOptTuner.Tuner E) (pp : parameters) (sc : score).

Lemma add_skips_null pp sc t :
  pd_isnull sc = true -> SKOptTuner.add pp sc t = (t, Ok tt).
Proof. intros H. unfold SKOptTuner.add. now rewrite H. Qed.

Lemma add_tells pp sc t flat :
  pd_isnull sc = false ->
  SKOptTuner.convert_to_flat_parameters E (SKOptTuner._search_space_names t) pp
    = Ok flat ->
  SKOptTuner.add pp sc t =
    match SKOptTuner.opt_tell E flat sc (SKOptTuner.opt t) with
    | (o, Ok _) => (SKOptTuner.set_opt t o, Ok tt)
    | (o, Raise e) => (SKOptTuner.set_opt t o, Raise (SKOptTuner.add_handler E pp e))
    end.
Proof.
  intros Hn Hf. unfold SKOptTuner.add, SKOptTuner.on_opt.
  rewrite Hn, Hf.
  destruct (SKOptTuner.opt_tell E flat sc (SKOptTuner.opt t)) as [o [u|e]];
    reflexivity.
Qed.

(** C6 (as amended): [add] is a silent no-op whenever the score is null,
    that is [None] or NaN: it returns [None] without raising, the tuner and
    its optimizer are left as they were, nothing is told to the backend,
    and the outcomes of the following [propose()] calls are those that
    would have been obtained had [add] not been called. *)
Theorem add_null_score_is_noop pp sc t :
  pd_isnull sc = true ->
  SKOptTuner.add pp sc t = (t, Ok tt)
  /\ SKOptTuner.opt (fst (SKOptTuner.add pp sc t)) = SKOptTuner.opt t
  /\ forall n, SKOptTuner.propose_seq n (fst (SKOptTuner.add pp sc t))
               = SKOptTuner.propose_seq n t.
Proof.
  intros H. rewrite (add_skips_null pp sc t H). simpl. repeat split.
Qed.

(** C5 (as amended): when the backend's [tell] raises an exception whose
    message is exactly ['<=' not supported between instances of 'int' and
    'NoneType'], [add] raises a [ParameterError] whose message carries the
    offending parameters and the text of the backend's error; every other
    exception raised by [tell] propagates unchanged. *)
Theorem add_reraises pp sc t flat o e :
  pd_isnull sc = false ->
  SKOptTuner.convert_to_flat_parameters E (SKOptTuner._search_space_names t) pp
    = Ok flat ->
  SKOptTuner.opt_tell E flat sc (SKOptTuner.opt t) = (o, Raise e) ->
  (exc_msg e = "'<=' not supported between instances of 'int' and 'NoneType'" ->
     snd (SKOptTuner.add pp sc t)
     = Raise (mkExc "ParameterError"
                ("Invalid parameters specified to SKOptTuner.add: parameters "
                   ++ SKOptTuner.format_parameters E pp ++ " error "
                   ++ exc_msg e)))
  /\ (exc_msg e <> "'<=' not supported between instances of 'int' and 'NoneType'" ->
        snd (SKOptTuner.add pp sc t) = Raise e).
Proof.
  intros Hn Hf Ht. rewrite (add_tells pp sc t flat Hn Hf), Ht. simpl.
  unfold SKOptTuner.add_handler, SKOptTuner.le_not_supported.
  split; intros Hm.
  - rewrite Hm, String.eqb_refl. unfold SKOptTuner.ParameterError, SKOptTuner.invalid_parameters_msg. now rewrite Hm.
  - apply String.eqb_neq in Hm. now rewrite Hm.
Qed.
End TunerFacts.

Lemma add_null_score_is_noop_witness :
  SKOptTuner.add (Demo.params (PyInt 5)) (Some S754_nan) Demo.tuner = (Demo.tuner, Ok tt)
  /\ SKOptTuner.add (Demo.params (PyInt 5)) None Demo.tuner = (Demo.tuner, Ok tt).
Proof.
  split.
  - apply (add_null_score_is_noop Demo.TE (Demo.params (PyInt 5)) (Some S754_nan) Demo.tuner). reflexivity.
  - apply (add_null_score_is_noop Demo.TE (Demo.params (PyInt 5)) None Demo.tuner). reflexivity.
Defined.

(** C6 fails as stated: an infinite score is not a finite number, yet [add]
    tells it to the backend and the next proposal changes. *)
Lemma add_infinite_score_is_told :
  is_finite_score (Some np_inf) = false
  /\ Demo.observations (SKOptTuner.opt Demo.tuner) = []
  /\ snd (SKOptTuner.add (Demo.params (PyInt 5)) (Some np_inf) Demo.tuner)
     = Ok tt
  /\ Demo.observations
       (SKOptTuner.opt
          (fst (SKOptTuner.add (Demo.params (PyInt 5)) (Some np_inf)
                  Demo.tuner)))
     = [([PyInt 5], Some np_inf)]
  /\ SKOptTuner.propose_seq 1 Demo.tuner
     = [Ok (Demo.params (PyInt 0))]
  /\ SKOptTuner.propose_seq 1
       (fst (SKOptTuner.add (Demo.params (PyInt 5)) (Some np_inf) Demo.tuner))
     = [Ok (Demo.params (PyInt 1))].
Proof. repeat split. Qed.

Lemma add_reraises_witness :
  snd (SKOptTuner.add (Demo.params PyNone) (Some (float_of_Z 1)) Demo.tuner)
  = Raise (mkExc "ParameterError"
      "Invalid parameters specified to SKOptTuner.add: parameters Estimator error '<=' not supported between instances of 'int' and 'NoneType'")
  /\ snd (SKOptTuner.add (Demo.params (PyInt 11)) (Some (float_of_Z 1))
            Demo.tuner)
     = Raise (mkExc "ValueError" "Point is not within the bounds of the space").
Proof.
  split.
  - apply (proj1 (add_reraises Demo.TE (Demo.params PyNone)
                    (Some (float_of_Z 1)) Demo.tuner [PyNone]
                    (SKOptTuner.opt Demo.tuner)
                    (TypeError
                       "'<=' not supported between instances of 'int' and 'NoneType'")
                    eq_refl eq_refl eq_refl)).
    reflexivity.
  - apply (proj2 (add_reraises Demo.TE (Demo.params (PyInt 11))
                    (Some (float_of_Z 1)) Demo.tuner [PyInt 11]
                    (SKOptTuner.opt Demo.tuner) Demo.out_of_bounds
                    eq_refl eq_refl eq_refl)).
    vm_compute. discriminate.
Defined.

(** C5 fails as stated: the [ParameterError] does not carry the score, two
    observations that differ only in the score raise the same error; and a
    value outside the type of a real dimension, which the backend rejects
    with a comparison error, is not turned into a [ParameterError]. *)
Lemma parameter_error_omits_score :
  float_of_Z 1 <> float_of_Z 2
  /\ snd (SKOptTuner.add (Demo.params PyNone) (Some (float_of_Z 1)) Demo.tuner)
     = Raise (mkExc "ParameterError"
         "Invalid parameters specified to SKOptTuner.add: parameters Estimator error '<=' not supported between instances of 'int' and 'NoneType'")
  /\ snd (SKOptTuner.add (Demo.params PyNone) (Some (float_of_Z 2)) Demo.tuner)
     = Raise (mkExc "ParameterError"
         "Invalid parameters specified to SKOptTuner.add: parameters Estimator error '<=' not supported between instances of 'int' and 'NoneType'")
  /\ snd (SKOptTuner.add (Demo.params PyNone) (Some (float_of_Z 1))
            Demo.real_tuner)
     = Raise (mkExc "TypeError"
         "'<=' not supported between instances of 'float' and 'NoneType'").
Proof.
  split; [vm_compute; discriminate|]. repeat split.
Qed.

(** ** The constructor *)

Section InitFacts.
Variable E : EvalML.Env.

Lemma check_items_spec rejected msg items :
  EvalML.check_items rejected msg items
  = if existsb rejected (map snd items) then Raise (ValueError msg) else Ok tt.
Proof.
  induction items as [|[k v] rest IH]; simpl; [reflexivity|].
  destruct (rejected v); simpl; [reflexivity|exact IH].
Qed.

Lemma check_values_spec rejected msg d :
  forallb (fun kv => is_dict (snd kv)) d = true ->
  EvalML.check_values rejected msg (map snd d)
  = if existsb rejected (leaves (PyDict d))
    then Raise (ValueError msg) else Ok tt.
Proof.
  induction d as [|[k v] rest IH]; simpl; [reflexivity|].
  intros H. apply andb_true_iff in H as [Hv Hrest].
  destruct v; try discriminate. simpl.
  rewrite check_items_spec, existsb_app.
  destruct (existsb rejected (map snd items)); simpl; [reflexivity|].
  apply IH, Hrest.
Qed.

Lemma well_shaped_dict v :
  well_shaped v = true ->
  exists d, py_or v (PyDict []) = PyDict d
            /\ forallb (fun kv => is_dict (snd kv)) d = true.
Proof.
  unfold well_shaped. destruct (py_or v (PyDict [])); simpl; try discriminate.
  intros H. eauto.
Qed.

Lemma well_shaped_not_rejected v :
  well_shaped v = true -> truthy v && negb (is_dict v) = false.
Proof.
  unfold well_shaped, py_or.
  destruct (truthy v) eqn:T; simpl; [|reflexivity].
  destruct v; simpl; try discriminate; reflexivity.
Qed.

(** C4 (as amended): [__init__] raises a [ValueError] when
    [custom_hyperparameters] is truthy and is not a dict; when both
    [pipeline_params] and [custom_hyperparameters] are falsy or mappings of
    mappings, it raises a [ValueError] if some fixed pipeline parameter is
    a range object or some custom hyperparameter is not one, and otherwise
    it returns the algorithm. *)
Theorem init_validation (a : EvalML.InitArgs E) :
  let pipeline_params := EvalML.arg_pipeline_params a in
  let custom_hyperparameters := EvalML.arg_custom_hyperparameters a in
  (truthy custom_hyperparameters = true ->
   is_dict custom_hyperparameters = false ->
   exists msg, EvalML.__init__ a = Raise (mkExc "ValueError" msg))
  /\ (well_shaped pipeline_params = true ->
      well_shaped custom_hyperparameters = true ->
      (existsb is_skopt_space (leaves (py_or pipeline_params (PyDict []))) = true ->
       exists msg, EvalML.__init__ a = Raise (mkExc "ValueError" msg))
      /\ (existsb (fun v => negb (is_skopt_space v))
            (leaves (py_or custom_hyperparameters (PyDict []))) = true ->
          exists msg, EvalML.__init__ a = Raise (mkExc "ValueError" msg))
      /\ (existsb is_skopt_space (leaves (py_or pipeline_params (PyDict []))) = false ->
          existsb (fun v => negb (is_skopt_space v))
            (leaves (py_or custom_hyperparameters (PyDict []))) = false ->
          EvalML.__init__ a = Ok (EvalML.initial_attributes a))).
Proof.
  cbv zeta. split.
  - intros T D. unfold EvalML.__init__. rewrite T, D. simpl. eexists. reflexivity.
  - intros Wp Wc.
    assert (Hinit : EvalML.__init__ a =
              if existsb is_skopt_space (leaves (py_or (EvalML.arg_pipeline_params a) (PyDict [])))
              then Raise (ValueError (EvalML.pipeline_params_msg))
              else if existsb (fun v => negb (is_skopt_space v))
                        (leaves (py_or (EvalML.arg_custom_hyperparameters a) (PyDict [])))
                   then Raise (ValueError (EvalML.custom_hyperparameters_msg))
                   else Ok (EvalML.initial_attributes a)).
    { unfold EvalML.__init__.
      rewrite (well_shaped_not_rejected _ Wc).
      destruct (well_shaped_dict _ Wp) as (dp & Ep & Fp).
      destruct (well_shaped_dict _ Wc) as (dc & Ec & Fc).
      unfold EvalML.check_pipeline_params, EvalML.check_custom_hyperparameters.
      simpl. rewrite Ep, Ec. simpl.
      rewrite (check_values_spec _ _ dp Fp). unfold leaves.
      destruct (existsb is_skopt_space _); [reflexivity|].
      rewrite (check_values_spec _ _ dc Fc). unfold leaves.
      destruct (existsb _ _); reflexivity. }
    rewrite Hinit. repeat split.
    + intros ->. eexists. reflexivity.
    + intros ->. destruct (existsb is_skopt_space _); eexists; reflexivity.
    + intros -> ->. reflexivity.
Qed.

(** C10: when a per-component value of [custom_hyperparameters] or of
    [pipeline_params] is not a mapping, as in [{"Estimator": 5}], the
    constructor raises an [AttributeError] from calling [.items()] on that
    value, not the [ValueError] of its own checks. *)
Theorem init_component_not_a_mapping (a : EvalML.InitArgs E) (k : string) (v : PyVal) :
  is_dict v = false ->
  (EvalML.arg_pipeline_params a = PyNone ->
   EvalML.arg_custom_hyperparameters a = PyDict [(k, v)] ->
   EvalML.__init__ a
   = Raise (mkExc "AttributeError"
              ("'" ++ type_name v ++ "' object has no attribute 'items'")))
  /\ (EvalML.arg_pipeline_params a = PyDict [(k, v)] ->
      EvalML.arg_custom_hyperparameters a = PyNone ->
      EvalML.__init__ a
      = Raise (mkExc "AttributeError"
                 ("'" ++ type_name v ++ "' object has no attribute 'items'"))).
Proof.
  intros D. split; intros Hp Hc; unfold EvalML.__init__; rewrite Hc; simpl;
    unfold EvalML.check_pipeline_params, EvalML.check_custom_hyperparameters;
    simpl; rewrite Hp, ?Hc; simpl; destruct v; try discriminate; reflexivity.
Qed.
End InitFacts.

Lemma init_validation_witness :
  (exists msg, EvalML.__init__ (Demo.args PyNone (PyInt 5)) = Raise (mkExc "ValueError" msg))
  /\ (exists msg, EvalML.__init__
        (Demo.args (PyDict [("Estimator", PyDict [("n_jobs", SkoptInteger 1 4)])]) PyNone)
      = Raise (mkExc "ValueError" msg))
  /\ (exists msg, EvalML.__init__
        (Demo.args PyNone (PyDict [("Estimator", PyDict [("x", PyInt 5)])]))
      = Raise (mkExc "ValueError" msg))
  /\ EvalML.__init__
       (Demo.args (PyDict [("Estimator", PyDict [("n_jobs", PyInt 2)])])
                  (PyDict [("Estimator", PyDict [("x", SkoptInteger 0 10)])]))
     = Ok (EvalML.initial_attributes
             (Demo.args (PyDict [("Estimator", PyDict [("n_jobs", PyInt 2)])])
                        (PyDict [("Estimator", PyDict [("x", SkoptInteger 0 10)])]))).
Proof.
  split; [|split; [|split]].
  - apply (proj1 (init_validation Demo.E (Demo.args PyNone (PyInt 5))));
      reflexivity.
  - apply (proj1 (proj2 (init_validation Demo.E
      (Demo.args (PyDict [("Estimator", PyDict [("n_jobs", SkoptInteger 1 4)])])
                 PyNone)) eq_refl eq_refl)); reflexivity.
  - apply (proj1 (proj2 (proj2 (init_validation Demo.E
      (Demo.args PyNone (PyDict [("Estimator", PyDict [("x", PyInt 5)])])))
      eq_refl eq_refl))); reflexivity.
  - apply (proj2 (proj2 (proj2 (init_validation Demo.E
       (Demo.args (PyDict [("Estimator", PyDict [("n_jobs", PyInt 2)])])
                  (PyDict [("Estimator", PyDict [("x", SkoptInteger 0 10)])])))
       eq_refl eq_refl))); reflexivity.
Defined.

(** C4 fails as stated: an empty list is provided and is not a mapping, yet
    the constructor accepts it; and a plain [int] leaf after a component
    whose value is not a mapping yields an [AttributeError]. *)
Lemma init_accepts_empty_list_and_misreports_shape :
  EvalML.__init__ (Demo.args PyNone (PyList []))
  = Ok (EvalML.initial_attributes (Demo.args PyNone (PyList [])))
  /\ EvalML.__init__
       (Demo.args PyNone
          (PyDict [("Imputer", PyInt 5); ("Estimator", PyDict [("x", PyInt 5)])]))
     = Raise (mkExc "AttributeError" "'int' object has no attribute 'items'").
Proof. split; reflexivity. Qed.

Lemma init_component_not_a_mapping_witness :
  EvalML.__init__ (Demo.args PyNone (PyDict [("Estimator", PyInt 5)]))
  = Raise (mkExc "AttributeError" "'int' object has no attribute 'items'")
  /\ EvalML.__init__ (Demo.args (PyDict [("Estimator", PyInt 5)]) PyNone)
  = Raise (mkExc "AttributeError" "'int' object has no attribute 'items'").
Proof.
  split.
  - apply (proj1 (init_component_not_a_mapping Demo.E
             (Demo.args PyNone (PyDict [("Estimator", PyInt 5)]))
             "Estimator" (PyInt 5) eq_refl)); reflexivity.
  - apply (proj2 (init_component_not_a_mapping Demo.E
             (Demo.args (PyDict [("Estimator", PyInt 5)]) PyNone)
             "Estimator" (PyInt 5) eq_refl)); reflexivity.
Defined.

(** ** The monad and its loops *)
Section BindFacts.
Context {S : Type}.
Variable R : S -> S -> Prop.
Hypothesis R_refl : forall s, R s s.
Hypothesis R_trans : forall s1 s2 s3, R s1 s2 -> R s2 s3 -> R s1 s3.

Lemma bind_rel {A B} (m : M S A) (k : A -> M S B) (s : S) :
  R s (fst (m s)) -> (forall a s1, R s1 (fst (k a s1))) ->
  R s (fst (bind m k s)).
Proof.
  intros Hm Hk. unfold bind.
  destruct (m s) as [s1 [a|e]]; simpl in *; [|exact Hm].
  eapply R_trans; [exact Hm|apply Hk].
Qed.

Lemma ret_rel {A} (a : A) (s : S) : R s (fst (ret a s)).
Proof. apply R_refl. Qed.

Lemma raise_rel {A} (e : PyException) (s : S) : R s (fst (@raise S A e s)).
Proof. apply R_refl. Qed.

Lemma get_rel (s : S) : R s (fst (get s)).
Proof. apply R_refl. Qed.
End BindFacts.

Section MonadFacts.
Context {S A B : Type}.
Variable R : S -> S -> Prop.
Hypothesis R_refl : forall s, R s s.
Hypothesis R_trans : forall s1 s2 s3, R s1 s2 -> R s2 s3 -> R s1 s3.
Variable f : A -> M S B.
Hypothesis f_R : forall a s, R s (fst (f a s)).

Lemma mapM_rel (l : list A) : forall s, R s (fst (EvalML.mapM f l s)).
Proof.
  induction l as [|a l IH]; intros s; simpl; [apply R_refl|].
  unfold bind. pose proof (f_R a s) as Ha.
  destruct (f a s) as [s1 [b|e]]; simpl in *; [|exact Ha].
  pose proof (IH s1) as Hl.
  destruct (EvalML.mapM f l s1) as [s2 [bs|e]]; simpl in *;
    eapply R_trans; eauto.
Qed.

Lemma mapM_Forall2 (Q : A -> B -> Prop) (s0 : S) :
  (forall a s1 s2 b, R s0 s1 -> f a s1 = (s2, Ok b) -> Q a b) ->
  forall l s s' bs,
    R s0 s -> EvalML.mapM f l s = (s', Ok bs) -> Forall2 Q l bs.
Proof.
  intros HQ. induction l as [|a l IH]; intros s s' bs Hs; simpl.
  - unfold ret. intros [= <- <-]. constructor.
  - unfold bind. pose proof (f_R a s) as Ha.
    destruct (f a s) as [s1 [b|e]] eqn:Fa; simpl in *; [|discriminate].
    destruct (EvalML.mapM f l s1) as [s2 [bs'|e]] eqn:Fl; [|discriminate].
    unfold ret. intros [= <- <-]. constructor.
    + eapply HQ; eauto.
    + eapply IH; [|exact Fl]. eapply R_trans; eauto.
Qed.

Lemma mapM_total (s0 : S) (l : list A) :
  (forall a s1, In a l -> R s0 s1 -> is_ok (snd (f a s1)) = true) ->
  forall s, R s0 s -> is_ok (snd (EvalML.mapM f l s)) = true.
Proof.
  induction l as [|a l IH]; intros Hok s Hs; simpl; [reflexivity|].
  unfold bind. pose proof (f_R a s) as Ha.
  pose proof (Hok a s (or_introl eq_refl) Hs) as Oa.
  destruct (f a s) as [s1 [b|e]]; simpl in *; [|discriminate].
  assert (Hl : is_ok (snd (EvalML.mapM f l s1)) = true).
  { apply IH; [intros; apply Hok; auto|]. eapply R_trans; eauto. }
  destruct (EvalML.mapM f l s1) as [s2 [bs|e]]; simpl in *;
    [reflexivity|discriminate].
Qed.
End MonadFacts.

(** ** Dictionaries *)
Section DictFacts.
Context {K V : Type}.
Variable eqb : K -> K -> bool.
Hypothesis eqb_eq : forall a b, eqb a b = true <-> a = b.

Lemma eqb_refl' a : eqb a a = true.
Proof. now apply eqb_eq. Qed.

Lemma dict_get_set (k k' : K) (v : V) (d : dict K V) :
  dict_get eqb k (dict_set eqb k' v d)
  = if eqb k k' then Some v else dict_get eqb k d.
Proof.
  induction d as [|[k0 v0] d IH]; simpl; [reflexivity|].
  destruct (eqb k' k0) eqn:E0; simpl.
  - apply eqb_eq in E0. subst k0. destruct (eqb k k'); reflexivity.
  - rewrite IH. destruct (eqb k k0) eqn:E1; [|reflexivity].
    apply eqb_eq in E1. subst k0.
    destruct (eqb k k') eqn:E2; [|reflexivity].
    apply eqb_eq in E2. subst k'. rewrite eqb_refl' in E0. discriminate.
Qed.

Lemma dict_mem_set (k k' : K) (v : V) (d : dict K V) :
  dict_mem eqb k d = true -> dict_mem eqb k (dict_set eqb k' v d) = true.
Proof.
  unfold dict_mem. rewrite dict_get_set.
  destruct (eqb k k'); [reflexivity|auto].
Qed.

Lemma dict_get_map {W} (h : K * V -> K * V) (g : V -> W) (k : K) (d : dict K V) :
  (forall e, fst (h e) = fst e) ->
  (forall e, g (snd (h e)) = g (snd e)) ->
  option_map g (dict_get eqb k (map h d)) = option_map g (dict_get eqb k d).
Proof.
  intros Hk Hg. induction d as [|e d IH]; simpl; [reflexivity|].
  pose proof (Hk e) as Hk'. pose proof (Hg e) as Hg'.
  destruct (h e) as [k1 v1], e as [k0 v0]. simpl in *. subst k1.
  destruct (eqb k k0); simpl; [now rewrite Hg'|exact IH].
Qed.
End DictFacts.

Lemma String_eqb_eq' (a b : string) : String.eqb a b = true <-> a = b.
Proof. apply String.eqb_eq. Qed.

Lemma ModelFamily_eqb_eq (a b : ModelFamily) :
  ModelFamily_eqb a b = true <-> a = b.
Proof.
  destruct a, b; simpl; split; try discriminate; try reflexivity.
  - intros H. apply String.eqb_eq in H. now subst.
  - intros [= ->]. apply String.eqb_refl.
Qed.

Section AlgoFacts.
Variable E : EvalML.Env.
Implicit Types s : (EvalML.Algo E).

Lemma frame_refl s : frame s s.
Proof. constructor; auto. Qed.

Lemma frame_trans s1 s2 s3 : frame s1 s2 -> frame s2 s3 -> frame s1 s3.
Proof.
  intros H1 H2. destruct H1, H2.
  constructor;
    first [congruence | intros; etransitivity; solve [eauto] | auto].
Qed.

Lemma frame_set_tuners s k t :
  frame s (EvalML.set_tuners (sset k t (EvalML._tuners s)) s).
Proof.
  constructor; try reflexivity. simpl. intros k0 H.
  apply (dict_mem_set String.eqb String_eqb_eq'), H.
Qed.

Lemma frame_create_tuner p s : frame s (fst (EvalML._create_tuner p s)).
Proof. apply frame_set_tuners. Qed.

Lemma frame_tuner_propose n s : frame s (fst (EvalML.tuner_propose n s)).
Proof.
  unfold EvalML.tuner_propose.
  destruct (sget n (EvalML._tuners s)) as [t|]; [|apply frame_refl].
  destruct (SKOptTuner.propose t) as [t' r]. apply frame_set_tuners.
Qed.

Ltac frame_step :=
  first [ apply (bind_rel frame frame_trans); [|intros ? ?]
        | apply (ret_rel frame frame_refl)
        | apply (raise_rel frame frame_refl)
        | apply (get_rel frame frame_refl)
        | apply (mapM_rel frame frame_refl frame_trans); intros ? ?
        | apply frame_tuner_propose
        | apply frame_create_tuner
        | match goal with
          | |- frame _ (fst (match ?x with _ => _ end _)) => destruct x
          end ].

Lemma frame_propose_pipeline p s :
  frame s (fst (EvalML.propose_pipeline p s)).
Proof. unfold EvalML.propose_pipeline. repeat frame_step. Qed.

Lemma frame_sample_top_n s : frame s (fst (EvalML._sample_top_n s)).
Proof.
  unfold EvalML._sample_top_n. repeat frame_step.
Qed.

Lemma frame_create_fast_final s : frame s (fst (EvalML._create_fast_final s)).
Proof. unfold EvalML._create_fast_final. repeat frame_step. Qed.

Lemma frame_create_ensemble s : frame s (fst (EvalML._create_ensemble s)).
Proof.
  unfold EvalML._create_ensemble.
  assert (F : frame s (EvalML.set_best_pipeline_info
             (map snd (map (EvalML.ensemble_input s) (EvalML._best_pipeline_info s))) s)).
  { constructor; try reflexivity; auto.
    - intros f. unfold best_score. simpl. rewrite map_map.
      apply dict_get_map.
      + intros e. unfold EvalML.ensemble_input.
        destruct (EvalML._transform_parameters _ _ _). reflexivity.
      + intros e. unfold EvalML.ensemble_input.
        destruct (EvalML._transform_parameters _ _ _). reflexivity.
    - simpl. rewrite !map_map. apply map_ext. intros e.
      unfold EvalML.ensemble_input.
      destruct (EvalML._transform_parameters _ _ _). reflexivity. }
  destruct (map fst _); exact F.
Qed.

Lemma insert_by_score_length {A} (x : A * spec_float) l :
  List.length (EvalML.insert_by_score x l) = Datatypes.S (List.length l).
Proof.
  induction l as [|h t IH]; simpl; [reflexivity|].
  destruct (SFltb (snd x) (snd h)); simpl; [reflexivity|now rewrite IH].
Qed.

Lemma sort_by_score_length {A} (l : list (A * spec_float)) :
  List.length (EvalML.sort_by_score l) = List.length l.
Proof.
  unfold EvalML.sort_by_score.
  assert (G : forall acc,
             List.length
               (fold_left (fun acc x => EvalML.insert_by_score x acc) l acc)
             = List.length acc + List.length l).
  { induction l as [|x l IH]; intros acc; simpl; [lia|].
    rewrite IH, insert_by_score_length. lia. }
  apply G.
Qed.

Lemma frame_create_long_top_n n s :
  exists tops,
    frame (EvalML.set_top_n_pipelines (Some tops) s)
          (fst (EvalML._create_long_top_n n s))
    /\ List.length tops
       = Nat.min n (List.length (EvalML._best_pipeline_info s)).
Proof.
  unfold EvalML._create_long_top_n.
  unfold bind at 1. unfold get. cbv beta iota zeta.
  unfold bind at 1. unfold modify. cbv beta iota zeta.
  match goal with |- context [EvalML.set_top_n_pipelines (Some ?ps)] =>
    exists ps end.
  split.
  - repeat frame_step.
  - rewrite !length_map, length_firstn. f_equal.
    unfold dict_values. now rewrite sort_by_score_length, !length_map.
Qed.

(** *** [next_batch] and [add_result], step by step *)

Lemma next_batch_eq s :
  EvalML.next_batch s
  = match batch_generator (E := E) (EvalML._batch_number s) s with
    | (s1, Ok b) => (count_batch b s1, Ok b)
    | (s1, Raise e) => (s1, Raise e)
    end.
Proof.
  unfold EvalML.next_batch, batch_generator, EvalML.batch_number.
  unfold bind at 1. unfold get. cbv beta iota zeta.
  unfold bind at 1.
  repeat match goal with
         | |- context [if ?c then _ else _] => destruct c
         end;
    match goal with
    | |- context [match ?g s with _ => _ end] =>
        destruct (g s) as [s1 [b|e]]; reflexivity
    end.
Qed.

Lemma generator_frame s :
  exists s0,
    (s0 = s
     \/ exists tops,
          EvalML._batch_number s = 4
          /\ s0 = EvalML.set_top_n_pipelines (Some tops) s
          /\ List.length tops
             = Nat.min 3 (List.length (EvalML._best_pipeline_info s)))
    /\ frame s0 (fst (batch_generator (E := E) (EvalML._batch_number s) s)).
Proof.
  unfold batch_generator.
  destruct (Nat.eqb (EvalML._batch_number s) 0);
    [exists s; split; [now left|apply frame_refl]|].
  destruct (Nat.eqb (EvalML._batch_number s) 1);
    [exists s; split; [now left|apply frame_refl]|].
  destruct (Nat.eqb (EvalML._batch_number s) 2);
    [exists s; split; [now left|apply frame_create_fast_final]|].
  destruct (Nat.eqb (EvalML._batch_number s) 3);
    [exists s; split; [now left|apply frame_create_ensemble]|].
  destruct (Nat.eqb (EvalML._batch_number s) 4) eqn:B4.
  - destruct (frame_create_long_top_n 3 s) as (tops & F & L).
    exists (EvalML.set_top_n_pipelines (Some tops) s). split; [|exact F].
    right. exists tops. apply Nat.eqb_eq in B4. auto.
  - destruct (negb _);
      exists s; (split; [now left|]);
      [apply frame_create_ensemble|apply frame_sample_top_n].
Qed.

(** The fields a generator never touches, whatever the batch. *)
Lemma generator_keeps s :
  let s1 := fst (batch_generator (E := E) (EvalML._batch_number s) s) in
  EvalML.config s1 = EvalML.config s
  /\ EvalML._selected_cols s1 = EvalML._selected_cols s
  /\ EvalML._batch_number s1 = EvalML._batch_number s
  /\ EvalML._pipeline_number s1 = EvalML._pipeline_number s
  /\ EvalML.base_results s1 = EvalML.base_results s
  /\ (forall f, best_score s1 f = best_score s f)
  /\ (EvalML._batch_number s <> 4 ->
      EvalML._top_n_pipelines s1 = EvalML._top_n_pipelines s).
Proof.
  destruct (generator_frame s) as (s0 & [->|(tops & B & -> & L)] & F);
    destruct F; cbv zeta; repeat split; auto; intros; congruence.
Qed.

Lemma next_batch_keeps s :
  let s' := fst (EvalML.next_batch s) in
  EvalML.config s' = EvalML.config s
  /\ EvalML._selected_cols s' = EvalML._selected_cols s
  /\ EvalML.base_results s' = EvalML.base_results s
  /\ (forall f, best_score s' f = best_score s f)
  /\ (EvalML._batch_number s <> 4 ->
      EvalML._top_n_pipelines s' = EvalML._top_n_pipelines s).
Proof.
  pose proof (generator_keeps s) as (C & Sel & _ & _ & Bs & Sc & T).
  cbv zeta. rewrite next_batch_eq.
  destruct (batch_generator (E := E) (EvalML._batch_number s) s) as [s1 [b|e]];
    simpl in *; repeat split; auto.
Qed.

Lemma next_batch_counts s :
  match EvalML.next_batch s with
  | (s', Ok b) =>
      EvalML.pipeline_number s' = EvalML.pipeline_number s + List.length b
      /\ EvalML.batch_number s' = EvalML.batch_number s + 1
  | (s', Raise _) =>
      EvalML.pipeline_number s' = EvalML.pipeline_number s
      /\ EvalML.batch_number s' = EvalML.batch_number s
  end.
Proof.
  pose proof (generator_keeps s) as (_ & _ & B & P & _).
  rewrite next_batch_eq. unfold EvalML.pipeline_number, EvalML.batch_number.
  destruct (batch_generator (E := E) (EvalML._batch_number s) s) as [s1 [b|e]];
    simpl in *; split; congruence.
Qed.

Lemma add_result_eq sc p r s :
  EvalML.add_result sc p r s
  = (record_best sc p r (record_cols p (forward sc p r s)), Ok tt).
Proof.
  unfold EvalML.add_result, forward, record_cols, record_best.
  unfold bind, get, modify, ret, EvalML.super_add_result.
  destruct (negb (ModelFamily_eqb (model_family p) ENSEMBLE));
    destruct (Nat.leb 3 (EvalML.batch_number s)); simpl;
    match goal with
    | |- context [Nat.eqb ?a 2 && EvalML.is_None ?b] =>
        destruct (Nat.eqb a 2 && EvalML.is_None b)
    end;
    try (destruct (is_regression _)); simpl;
    match goal with
    | |- context [EvalML.improves sc ?c && ?d] =>
        destruct (EvalML.improves sc c && d)
    end; reflexivity.
Qed.

Lemma add_result_keeps sc p r s :
  let s' := fst (EvalML.add_result sc p r s) in
  EvalML.config s' = EvalML.config s
  /\ EvalML._batch_number s' = EvalML._batch_number s
  /\ EvalML._pipeline_number s' = EvalML._pipeline_number s
  /\ EvalML._top_n_pipelines s' = EvalML._top_n_pipelines s
  /\ EvalML._tuners s' = EvalML._tuners s.
Proof.
  cbv zeta. rewrite add_result_eq. simpl.
  unfold record_best, record_cols, forward.
  repeat match goal with
         | |- context [if ?c then _ else _] => destruct c
         end; repeat split.
Qed.

(** *** The counters *)

Lemma next_batches_counts (n : nat) :
  forall s s' (batches : list (list Pipeline)),
    next_batches n s = (s', Ok batches) ->
    List.length batches = n
    /\ EvalML.pipeline_number s'
       = EvalML.pipeline_number s
         + list_sum (map (@List.length Pipeline) batches)
    /\ EvalML.batch_number s' = EvalML.batch_number s + n.
Proof.
  induction n as [|n IH]; intros s s' batches; simpl.
  - unfold ret. intros [= <- <-]. simpl. repeat split; lia.
  - unfold bind. pose proof (next_batch_counts s) as C.
    destruct (EvalML.next_batch s) as [s1 [b|e]]; [|discriminate].
    destruct (next_batches n s1) as [s2 [bs|e]] eqn:N; [|discriminate].
    unfold ret. intros [= <- <-].
    destruct (IH _ _ _ N) as (L & P & B). destruct C as (P1 & B1).
    simpl. repeat split; lia.
Qed.

(** C7: [n] calls of [next_batch()] that return their batches increase
    [pipeline_number] by the sum of the lengths of the [n] batches and
    [batch_number] by [n]; a call of [next_batch()] that raises and every
    call of [add_result] leave both counters unchanged. *)
Theorem next_batch_counters (n : nat) s s'
    (batches : list (list Pipeline)) :
  next_batches n s = (s', Ok batches) ->
  (List.length batches = n
   /\ EvalML.pipeline_number s'
      = EvalML.pipeline_number s
        + list_sum (map (@List.length Pipeline) batches)
   /\ EvalML.batch_number s' = EvalML.batch_number s + n)
  /\ (forall s0 s1 e,
        EvalML.next_batch s0 = (s1, Raise e) ->
        EvalML.pipeline_number s1 = EvalML.pipeline_number s0
        /\ EvalML.batch_number s1 = EvalML.batch_number s0)
  /\ (forall sc p r s0,
        EvalML.pipeline_number (fst (EvalML.add_result sc p r s0))
        = EvalML.pipeline_number s0
        /\ EvalML.batch_number (fst (EvalML.add_result sc p r s0))
           = EvalML.batch_number s0).
Proof.
  intros H. split; [exact (next_batches_counts n s s' batches H)|]. split.
  - intros s0 s1 e H0. pose proof (next_batch_counts s0) as C.
    rewrite H0 in C. exact C.
  - intros sc p r s0.
    pose proof (add_result_keeps sc p r s0) as (_ & B & P & _).
    unfold EvalML.pipeline_number, EvalML.batch_number. auto.
Qed.

(** *** Forwarding to the base class *)

Lemma ModelFamily_eqb_neq (a b : ModelFamily) :
  ModelFamily_eqb a b = false <-> a <> b.
Proof.
  split.
  - intros H ->. rewrite (proj2 (ModelFamily_eqb_eq b b) eq_refl) in H.
    discriminate.
  - intros H. destruct (ModelFamily_eqb a b) eqn:Eq; [|reflexivity].
    apply ModelFamily_eqb_eq in Eq. contradiction.
Qed.

Lemma add_result_base sc p r s :
  EvalML.base_results (fst (EvalML.add_result sc p r s))
  = EvalML.base_results (forward sc p r s).
Proof.
  rewrite add_result_eq. simpl. unfold record_best, record_cols.
  repeat match goal with
         | |- context [if ?c then _ else _] => destruct c
         end; reflexivity.
Qed.

(** C3 (as amended): [add_result] forwards a non-ensemble result to the
    base class's bookkeeping if and only if it belongs to the batch of
    index 2 or to a later batch, that is when [batch_number] is at least 3
    at the call; the results of the batches 0 and 1 and every ensemble
    result are not forwarded, and [next_batch] forwards nothing. *)
Theorem add_result_forwards_from_batch_2 (k : nat) s sc p r :
  result_of_batch k s ->
  let s' := fst (EvalML.add_result sc p r s) in
  (model_family p <> ENSEMBLE /\ 2 <= k ->
   EvalML.base_results s' = (EvalML.base_results s ++ [(sc, p, r)])%list)
  /\ (model_family p = ENSEMBLE \/ k < 2 ->
      EvalML.base_results s' = EvalML.base_results s)
  /\ (forall s0,
        EvalML.base_results (fst (EvalML.next_batch s0))
        = EvalML.base_results s0).
Proof.
  unfold result_of_batch. intros B. cbv zeta.
  rewrite add_result_base. unfold forward. rewrite B. repeat split.
  - intros (F & K). apply ModelFamily_eqb_neq in F. rewrite F.
    destruct k as [|[|k]]; try lia. reflexivity.
  - intros [F|K].
    + rewrite F. reflexivity.
    + destruct (negb _); [|reflexivity].
      destruct k as [|[|k]]; try lia; reflexivity.
  - intros s0. apply (next_batch_keeps s0).
Qed.

(** *** The selected columns *)

Lemma forward_keeps sc p r s :
  EvalML.batch_number (forward sc p r s) = EvalML.batch_number s
  /\ EvalML._selected_cols (forward sc p r s) = EvalML._selected_cols s
  /\ EvalML.config (forward sc p r s) = EvalML.config s
  /\ EvalML._best_pipeline_info (forward sc p r s)
     = EvalML._best_pipeline_info s.
Proof. unfold forward. destruct (_ && _); repeat split. Qed.

Lemma record_cols_keeps p s :
  EvalML._best_pipeline_info (record_cols p s)
  = EvalML._best_pipeline_info s.
Proof. unfold record_cols. destruct (_ && _); reflexivity. Qed.

Lemma add_result_cols sc p r s :
  EvalML._selected_cols (fst (EvalML.add_result sc p r s))
  = EvalML._selected_cols (record_cols p s).
Proof.
  rewrite add_result_eq. simpl.
  destruct (forward_keeps sc p r s) as (B & S & C & _).
  transitivity (EvalML._selected_cols (record_cols p (forward sc p r s))).
  { unfold record_best. destruct (_ && _); reflexivity. }
  unfold record_cols. rewrite B, S, C.
  destruct (_ && _); simpl; auto.
Qed.

Lemma call_keeps_cols (c : Call) s cols :
  EvalML._selected_cols s = Some cols ->
  EvalML._selected_cols (call c s) = Some cols.
Proof.
  intros H. destruct c as [|sc p r]; simpl.
  - rewrite (proj1 (proj2 (next_batch_keeps s))). exact H.
  - rewrite add_result_cols. unfold record_cols. rewrite H. simpl.
    rewrite andb_false_r. exact H.
Qed.

Lemma run_keeps_cols (cs : list Call) :
  forall s cols,
    EvalML._selected_cols s = Some cols ->
    EvalML._selected_cols (run cs s) = Some cols.
Proof.
  induction cs as [|c cs IH]; intros s cols H; simpl; [exact H|].
  apply IH, call_keeps_cols, H.
Qed.

(** C2 (as amended): when [add_result] is called while [batch_number] is
    2, that is with a result of the feature-selection batch, the batch of
    index 1, and no selected columns have been recorded yet, it stores the
    names returned by [get_names()] of the pipeline's RF feature selector;
    a call made at any other batch number stores nothing, [next_batch]
    never changes the stored columns, and once columns are stored no later
    call overwrites them. *)
Theorem selected_cols_set_once s sc p r :
  result_of_batch 1 s ->
  EvalML._selected_cols s = None ->
  EvalML._selected_cols (fst (EvalML.add_result sc p r s))
  = Some (get_names
            (get_component p
               (if is_regression (EvalML.problem_type (EvalML.config s))
                then "RF Regressor Select From Model"
                else "RF Classifier Select From Model")))
  /\ (forall s0 sc0 p0 r0,
        EvalML.batch_number s0 <> 2 ->
        EvalML._selected_cols (fst (EvalML.add_result sc0 p0 r0 s0))
        = EvalML._selected_cols s0)
  /\ (forall s0,
        EvalML._selected_cols (fst (EvalML.next_batch s0))
        = EvalML._selected_cols s0)
  /\ (forall cs s0 cols,
        EvalML._selected_cols s0 = Some cols ->
        EvalML._selected_cols (run cs s0) = Some cols).
Proof.
  unfold result_of_batch. intros B N. repeat split.
  - rewrite add_result_cols. unfold record_cols. rewrite B, N. reflexivity.
  - intros s0 sc0 p0 r0 B0. rewrite add_result_cols. unfold record_cols.
    apply Nat.eqb_neq in B0. rewrite B0. reflexivity.
  - intros s0. apply (next_batch_keeps s0).
  - intros cs s0 cols. apply run_keeps_cols.
Qed.

(** *** The best-pipeline table *)

Lemma SFltb_asym (a b : spec_float) :
  SFltb a b = true -> SFltb b a = false.
Proof.
  intros H. destruct (SFltb b a) eqn:H'; [|reflexivity].
  pose proof (SFltb_trans a b a H H') as T.
  rewrite SFltb_irrefl in T. discriminate.
Qed.

Lemma ModelFamily_eqb_sym (a b : ModelFamily) :
  ModelFamily_eqb a b = ModelFamily_eqb b a.
Proof. destruct a, b; simpl; auto using String.eqb_sym. Qed.

Lemma current_best_score_eq s f :
  EvalML.current_best_score s f
  = match best_score s f with Some best => best | None => np_inf end.
Proof.
  unfold EvalML.current_best_score, best_score.
  destruct (dict_get _ _ _); reflexivity.
Qed.

Lemma add_result_table sc p r s :
  EvalML._best_pipeline_info (fst (EvalML.add_result sc p r s))
  = EvalML._best_pipeline_info (record_best sc p r s).
Proof.
  rewrite add_result_eq. simpl.
  destruct (forward_keeps sc p r s) as (_ & _ & _ & T).
  pose proof (record_cols_keeps p (forward sc p r s)) as T'.
  unfold record_best, EvalML.current_best_score. rewrite T', T.
  destruct (_ && _); simpl; congruence.
Qed.

Lemma best_score_record_best sc p r s f :
  best_score (record_best sc p r s) f
  = if EvalML.improves sc (EvalML.current_best_score s (model_family p))
       && negb (ModelFamily_eqb (model_family p) ENSEMBLE)
       && ModelFamily_eqb f (model_family p)
    then Some (EvalML.score_value sc)
    else best_score s f.
Proof.
  unfold record_best, best_score.
  destruct (_ && negb _); simpl; [|reflexivity].
  rewrite (dict_get_set ModelFamily_eqb ModelFamily_eqb_eq).
  destruct (ModelFamily_eqb f (model_family p)); reflexivity.
Qed.

Lemma best_score_add_result sc p r s f :
  best_score (fst (EvalML.add_result sc p r s)) f
  = best_score (record_best sc p r s) f.
Proof. unfold best_score. now rewrite add_result_table. Qed.

Lemma seen_snoc f (pre : list Call) (c : Call) :
  seen f (pre ++ [c]) = (seen f pre ++ seen1 f c)%list.
Proof. unfold seen. rewrite flat_map_app. simpl. now rewrite app_nil_r. Qed.

Lemma add_result_invariant (pre : list Call) sc p r s :
  table_invariant pre s ->
  table_invariant (pre ++ [AddResult sc p r])
    (fst (EvalML.add_result sc p r s)).
Proof.
  intros [H Hens]. split.
  - intros f. specialize (H f).
    rewrite best_score_add_result, best_score_record_best, seen_snoc.
    rewrite current_best_score_eq.
    destruct (ModelFamily_eqb f (model_family p)) eqn:Ef.
    + apply ModelFamily_eqb_eq in Ef. subst f.
      unfold seen1.
      rewrite (proj2 (ModelFamily_eqb_eq _ _) eq_refl).
      destruct (ModelFamily_eqb (model_family p) ENSEMBLE) eqn:En; simpl.
      * rewrite andb_false_r. simpl.
        destruct sc; rewrite app_nil_r; exact H.
      * destruct sc as [x|]; simpl; [|rewrite app_nil_r; exact H].
        rewrite andb_true_r.
        destruct (best_score s (model_family p)) as [old|] eqn:Bs.
        -- destruct H as (Hin & Hlow).
           destruct (SFltb x old) eqn:L.
           ++ split; [apply in_or_app; right; now left|].
              intros y Hy. apply in_app_or in Hy as [Hy|[<-|[]]].
              ** destruct (SFltb y x) eqn:Lyx; [|reflexivity].
                 pose proof (SFltb_trans y x old Lyx L) as T.
                 specialize (Hlow y Hy). congruence.
              ** apply SFltb_irrefl.
           ++ split; [apply in_or_app; now left|].
              intros y Hy. apply in_app_or in Hy as [Hy|[<-|[]]]; auto.
        -- destruct (SFltb x np_inf) eqn:L.
           ++ split; [apply in_or_app; right; now left|].
              intros y Hy. apply in_app_or in Hy as [Hy|[<-|[]]].
              ** destruct (SFltb y x) eqn:Lyx; [|reflexivity].
                 pose proof (SFltb_trans y x np_inf Lyx L) as T.
                 specialize (H y Hy). congruence.
              ** apply SFltb_irrefl.
           ++ intros y Hy. apply in_app_or in Hy as [Hy|[<-|[]]]; auto.
    + rewrite andb_false_r.
      assert (S1 : seen1 f (AddResult sc p r) = []).
      { unfold seen1. rewrite ModelFamily_eqb_sym, Ef. simpl.
        destruct sc; reflexivity. }
      rewrite S1, app_nil_r. exact H.
  - rewrite best_score_add_result, best_score_record_best.
    rewrite (ModelFamily_eqb_sym ENSEMBLE).
    destruct (ModelFamily_eqb (model_family p) ENSEMBLE); simpl;
      rewrite ?andb_false_r; exact Hens.
Qed.

Lemma run_invariant (cs : list Call) :
  forall pre s,
    table_invariant pre s -> table_invariant (pre ++ cs) (run cs s).
Proof.
  induction cs as [|c cs IH]; intros pre s H; simpl.
  - now rewrite app_nil_r.
  - replace (pre ++ c :: cs)%list with ((pre ++ [c]) ++ cs)%list
      by (rewrite <- app_assoc; reflexivity).
    apply IH. destruct c as [|sc p r]; simpl.
    + destruct H as [H Hens].
      pose proof (next_batch_keeps s) as (_ & _ & _ & Sc & _).
      split.
      * intros f. rewrite Sc, seen_snoc. simpl. rewrite app_nil_r. apply H.
      * now rewrite Sc.
    + apply add_result_invariant, H.
Qed.

Lemma init_ok (a : EvalML.InitArgs E) s0 :
  EvalML.__init__ a = Ok s0 -> s0 = EvalML.initial_attributes a.
Proof.
  unfold EvalML.__init__. destruct (_ && _); [discriminate|].
  destruct (EvalML.check_pipeline_params _); [|discriminate].
  destruct (EvalML.check_custom_hyperparameters _); [|discriminate].
  now intros [= <-].
Qed.

(** C1: along any run of a constructed algorithm, the score the table
    holds for a family is one of the non-null scores of the non-ensemble
    pipelines of that family passed to [add_result], and none of them is
    strictly lower; [ENSEMBLE] never has a record; a call of [add_result]
    changes the table only for a non-ensemble pipeline whose score is
    strictly lower than the family's current best (a higher, an equal or a
    null score leaves the table unchanged), and then the family's record
    becomes the new result; [next_batch] changes no score. *)
Theorem best_pipeline_info_holds_best (a : EvalML.InitArgs E) s0
    (cs : list Call) :
  EvalML.__init__ a = Ok s0 ->
  table_holds_best cs (run cs s0)
  /\ dict_get ModelFamily_eqb ENSEMBLE
       (EvalML._best_pipeline_info (run cs s0)) = None
  /\ (forall s sc p r,
        let s' := fst (EvalML.add_result sc p r s) in
        let best := EvalML.current_best_score s (model_family p) in
        (model_family p = ENSEMBLE ->
         EvalML._best_pipeline_info s' = EvalML._best_pipeline_info s)
        /\ (sc = None ->
            EvalML._best_pipeline_info s' = EvalML._best_pipeline_info s)
        /\ (forall x, sc = Some x -> SFltb x best = false ->
            EvalML._best_pipeline_info s' = EvalML._best_pipeline_info s)
        /\ (forall x, sc = Some x -> SFltb best x = true ->
            EvalML._best_pipeline_info s' = EvalML._best_pipeline_info s)
        /\ (forall x, sc = Some x -> SFltb x best = true ->
            model_family p <> ENSEMBLE ->
            dict_get ModelFamily_eqb (model_family p)
              (EvalML._best_pipeline_info s')
            = Some {| mean_cv_score := x;
                      pipeline := p;
                      bp_parameters := pipeline_parameters p;
                      bp_id := id r |}))
  /\ (forall s f, best_score (fst (EvalML.next_batch s)) f = best_score s f).
Proof.
  intros Hinit. apply init_ok in Hinit. subst s0.
  assert (I : table_invariant cs (run cs (EvalML.initial_attributes a))).
  { apply (run_invariant cs [] (EvalML.initial_attributes a)).
    split; [intros f; simpl; intros sc []|reflexivity]. }
  destruct I as [I1 I2]. split; [exact I1|]. split.
  { unfold best_score in I2.
    destruct (dict_get _ _ _); [discriminate|reflexivity]. }
  split.
  - intros s sc p r. cbv zeta. rewrite add_result_table. unfold record_best.
    repeat split.
    + intros ->. simpl. now rewrite andb_false_r.
    + intros ->. reflexivity.
    + intros x -> L. simpl. now rewrite L.
    + intros x -> L. simpl. now rewrite (SFltb_asym _ _ L).
    + intros x -> L F. simpl. rewrite L.
      apply ModelFamily_eqb_neq in F. rewrite F. simpl.
      rewrite (dict_get_set ModelFamily_eqb ModelFamily_eqb_eq).
      now rewrite (proj2 (ModelFamily_eqb_eq _ _) eq_refl).
  - intros s f. apply (next_batch_keeps s).
Qed.

(** *** The ensemble batches *)

Lemma odd_mod2 (b : nat) : Nat.odd b = true -> b mod 2 = 1.
Proof.
  intros H. rewrite <- Nat.bit0_mod, Nat.bit0_odd, H. reflexivity.
Qed.

Lemma even_mod2 (b : nat) : Nat.even b = true -> b mod 2 = 0.
Proof.
  intros H. rewrite <- Nat.negb_odd in H. apply negb_true_iff in H.
  rewrite <- Nat.bit0_mod, Nat.bit0_odd, H. reflexivity.
Qed.

Lemma ensemble_batches (b : nat) :
  b = 3 \/ (5 <= b /\ Nat.odd b = true) ->
  batch_generator (E := E) b = EvalML._create_ensemble (E := E).
Proof.
  intros [->|[Hb Ho]]; [reflexivity|]. unfold batch_generator.
  apply odd_mod2 in Ho. rewrite Ho.
  destruct b as [|[|[|[|[|b]]]]]; try lia; reflexivity.
Qed.

Lemma sampling_batches (b : nat) :
  6 <= b -> Nat.even b = true ->
  batch_generator (E := E) b = EvalML._sample_top_n (E := E).
Proof.
  intros Hb He. unfold batch_generator.
  apply even_mod2 in He. rewrite He.
  destruct b as [|[|[|[|[|b]]]]]; try lia; reflexivity.
Qed.

Lemma next_batch_generate s :
  EvalML.next_batch s
  = generate_and_count (batch_generator (EvalML._batch_number s)) s.
Proof. apply next_batch_eq. Qed.

Lemma create_ensemble_eq s :
  EvalML._create_ensemble s
  = (EvalML.set_best_pipeline_info
       (map snd (map (EvalML.ensemble_input s)
                   (EvalML._best_pipeline_info s))) s,
     match ensemble_inputs s with
     | [] => Raise (IndexError "list index out of range")
     | first :: _ =>
         Ok [EvalML._make_stacked_ensemble_pipeline E (ensemble_inputs s)
               (pipeline_problem_type first)
               (EvalML.random_seed (EvalML.config s)) (n_jobs_ensemble s)]
     end).
Proof.
  unfold EvalML._create_ensemble, ensemble_inputs, n_jobs_ensemble.
  destruct (map fst _); reflexivity.
Qed.

(** C9 (as amended): in an ensemble batch (batch 3 and the odd batches
    from 5 on), when the table has at least one family, in particular
    exactly one, [next_batch] returns a single stacked-ensemble pipeline
    built from one input pipeline per family of the table; when the table
    has no family, it raises an [IndexError] and counts no batch. *)
Theorem ensemble_batch_needs_an_input s :
  EvalML.batch_number s = 3
  \/ (5 <= EvalML.batch_number s /\ Nat.odd (EvalML.batch_number s) = true) ->
  (EvalML._best_pipeline_info s <> [] ->
   exists s' first,
     hd_error (ensemble_inputs s) = Some first
     /\ EvalML.next_batch s
        = (s', Ok [EvalML._make_stacked_ensemble_pipeline E
                     (ensemble_inputs s) (pipeline_problem_type first)
                     (EvalML.random_seed (EvalML.config s))
                     (n_jobs_ensemble s)])
     /\ List.length (ensemble_inputs s)
        = List.length (EvalML._best_pipeline_info s)
     /\ EvalML.batch_number s' = EvalML.batch_number s + 1
     /\ EvalML.pipeline_number s' = EvalML.pipeline_number s + 1)
  /\ (EvalML._best_pipeline_info s = [] ->
      exists s',
        EvalML.next_batch s
        = (s', Raise (IndexError "list index out of range"))
        /\ EvalML.batch_number s' = EvalML.batch_number s
        /\ EvalML.pipeline_number s' = EvalML.pipeline_number s).
Proof.
  intros Hb. unfold EvalML.batch_number in Hb.
  rewrite next_batch_generate, (ensemble_batches _ Hb).
  unfold generate_and_count. rewrite create_ensemble_eq.
  assert (L : List.length (ensemble_inputs s)
              = List.length (EvalML._best_pipeline_info s)).
  { unfold ensemble_inputs. now rewrite !length_map. }
  split.
  - intros Hne.
    destruct (ensemble_inputs s) as [|first rest] eqn:Ei.
    + destruct (EvalML._best_pipeline_info s); [contradiction|discriminate].
    + eexists. exists first. repeat split; try reflexivity. exact L.
  - intros He. rewrite He in L.
    destruct (ensemble_inputs s) as [|first rest]; [|discriminate].
    eexists. repeat split.
Qed.

(** *** The sampling batches *)

Lemma transform_parameters_config s1 s p pp :
  EvalML.config s1 = EvalML.config s ->
  EvalML._transform_parameters s1 p pp = EvalML._transform_parameters s p pp.
Proof.
  intros C. unfold EvalML._transform_parameters.
  generalize (@nil (string * component_parameters), pp).
  induction (linearized_component_graph p) as [|e g IH]; intros acc; simpl;
    [reflexivity|].
  rewrite IH. f_equal. unfold EvalML.transform_step. now rewrite C.
Qed.

Lemma propose_ok (t : EvalML.Tuner E) :
  asks_succeed E -> is_ok (snd (SKOptTuner.propose t)) = true.
Proof.
  intros A. unfold SKOptTuner.propose, SKOptTuner.on_opt.
  destruct (Nat.eqb _ 0); [reflexivity|].
  specialize (A (SKOptTuner.opt t)).
  destruct (SKOptTuner.opt_ask (EvalML.TE E) (SKOptTuner.opt t))
    as [o [x|e]]; simpl in *; [reflexivity|discriminate].
Qed.

Lemma propose_pipeline_ok s0 p s1 :
  asks_succeed E -> frame s0 s1 ->
  dict_mem String.eqb (name p) (EvalML._tuners s0) = true ->
  is_ok (snd (EvalML.propose_pipeline p s1)) = true.
Proof.
  intros A F Hm. apply (fr_tuners _ _ F) in Hm.
  unfold EvalML.propose_pipeline, bind, EvalML.tuner_propose.
  unfold dict_mem in Hm. unfold sget.
  destruct (dict_get String.eqb (name p) (EvalML._tuners s1)) as [t|];
    [|discriminate].
  pose proof (propose_ok t A) as P.
  destruct (SKOptTuner.propose t) as [t' [pp|e]]; simpl in *;
    [reflexivity|discriminate].
Qed.

Lemma propose_pipeline_materialized s0 p s1 s2 q :
  frame s0 s1 ->
  EvalML.propose_pipeline p s1 = (s2, Ok q) ->
  materialized s0 p q.
Proof.
  intros F. unfold EvalML.propose_pipeline, bind.
  pose proof (frame_tuner_propose (name p) s1) as F1.
  destruct (EvalML.tuner_propose (name p) s1) as [s3 [pp|e]];
    [|discriminate].
  simpl in F1. pose proof (frame_trans _ _ _ F F1) as F3.
  unfold get, ret. intros [= <- <-].
  exists pp. cbv zeta.
  rewrite (transform_parameters_config s3 s0 p pp (fr_config _ _ F3)).
  unfold EvalML.select_columns_parameters.
  rewrite (fr_selected _ _ F3), (fr_config _ _ F3). split; [reflexivity|].
  unfold sget, sset.
  rewrite (dict_get_set String.eqb String_eqb_eq').
  now rewrite String.eqb_refl.
Qed.

Lemma Forall2_rounds {A B C} (Q : A -> B -> Prop) (tops : list A)
    (l : list C) (rounds : list (list B)) :
  Forall2 (fun _ round => Forall2 Q tops round) l rounds ->
  Forall2 Q (List.concat (repeat tops (List.length l)))
            (List.concat rounds).
Proof.
  induction 1 as [|c round l rounds H _ IH]; simpl; [constructor|].
  apply Forall2_app; assumption.
Qed.

Lemma length_concat_repeat {A} (l : list A) (n : nat) :
  List.length (List.concat (repeat l n)) = n * List.length l.
Proof.
  induction n as [|n IH]; simpl; [reflexivity|].
  now rewrite length_app, IH.
Qed.

Lemma sample_top_n_ok s tops :
  asks_succeed E ->
  EvalML._top_n_pipelines s = Some tops ->
  tuners_cover s tops ->
  exists s' batch,
    EvalML._sample_top_n s = (s', Ok batch)
    /\ Forall2 (materialized s) (List.concat (repeat tops 10)) batch
    /\ frame s s'.
Proof.
  intros A T Cov.
  pose proof (frame_sample_top_n s) as F.
  unfold EvalML._sample_top_n, bind in *.
  set (body := fun _ : nat => _) in *.
  assert (body_frame : forall a s1, frame s1 (fst (body a s1))).
  { intros a s1. unfold body. repeat frame_step. }
  assert (body_eq : forall a s1, frame s s1 ->
            body a s1 = EvalML.mapM (EvalML.propose_pipeline (E := E))
                          tops s1).
  { intros a s1 F1. unfold body, bind, get.
    now rewrite (fr_top _ _ F1), T. }
  assert (Tot : is_ok (snd (EvalML.mapM body (seq 0 10) s)) = true).
  { apply (mapM_total frame frame_trans body body_frame s);
      [|apply frame_refl].
    intros a s1 _ F1. rewrite (body_eq a s1 F1).
    apply (mapM_total frame frame_trans _ frame_propose_pipeline s);
      [|exact F1].
    intros p s2 Hp F2.
    apply (propose_pipeline_ok s p s2 A F2), Cov, Hp. }
  destruct (EvalML.mapM body (seq 0 10) s) as [s' [rounds|e]] eqn:Hm;
    [|discriminate].
  exists s', (List.concat rounds). split; [reflexivity|].
  split; [|exact F].
  change 10 with (List.length (seq 0 10)).
  apply Forall2_rounds.
  apply (mapM_Forall2 frame frame_trans body body_frame
           (fun _ round => Forall2 (materialized s) tops round) s)
    with (s := s) (s' := s'); [|apply frame_refl|exact Hm].
  intros a s1 s2 round F1. rewrite (body_eq a s1 F1). intros Hr.
  apply (mapM_Forall2 frame frame_trans _ frame_propose_pipeline
           (materialized s) s)
    with (s := s1) (s' := s2); [|exact F1|exact Hr].
  intros p s3 s4 q F3. apply propose_pipeline_materialized, F3.
Qed.

(** *** The sampling loops ask the tuners *)

Lemma proposals_app s prepare tuners1 ps qs tuners2 ps' qs' tuners3 :
  proposals s prepare tuners1 ps tuners2 qs ->
  proposals s prepare tuners2 ps' tuners3 qs' ->
  proposals s prepare tuners1 (ps ++ ps')%list tuners3 (qs ++ qs')%list.
Proof.
  induction 1 as [|tuners p ps tuner tuner' pp tuners' qs Hg Hp _ IH];
    intros H2; simpl; [exact H2|].
  eapply proposals_cons; [exact Hg|exact Hp|].
  apply IH, H2.
Qed.

Lemma propose_pipeline_asks s0 p s1 s2 q :
  EvalML.config s1 = EvalML.config s0 ->
  EvalML._selected_cols s1 = EvalML._selected_cols s0 ->
  EvalML.propose_pipeline p s1 = (s2, Ok q) ->
  exists tuner tuner' proposed_parameters,
    sget (name p) (EvalML._tuners s1) = Some tuner
    /\ SKOptTuner.propose tuner = (tuner', Ok proposed_parameters)
    /\ s2 = EvalML.set_tuners
              (sset (name p) tuner' (EvalML._tuners s1)) s1
    /\ q = instantiate s0 p proposed_parameters.
Proof.
  intros C Sel.
  unfold EvalML.propose_pipeline, bind, EvalML.tuner_propose.
  destruct (sget (name p) (EvalML._tuners s1)) as [tuner|];
    [|discriminate].
  destruct (SKOptTuner.propose tuner) as [tuner' [pp|e]] eqn:Hp;
    [|discriminate].
  unfold get, ret. intros [= <- <-].
  exists tuner, tuner', pp.
  split; [reflexivity|]. split; [exact Hp|]. split; [reflexivity|].
  unfold instantiate.
  rewrite (transform_parameters_config
             (EvalML.set_tuners
                (sset (name p) tuner' (EvalML._tuners s1)) s1) s0 p pp C).
  unfold EvalML.select_columns_parameters. simpl.
  rewrite Sel, C. reflexivity.
Qed.

Lemma mapM_proposals s0 prepare
    (f : Pipeline -> M (EvalML.Algo E) Pipeline) :
  (forall p s1 s2 q,
     EvalML.config s1 = EvalML.config s0 ->
     EvalML._selected_cols s1 = EvalML._selected_cols s0 ->
     f p s1 = (s2, Ok q) ->
     exists tuner tuner' proposed_parameters,
       sget (name p) (prepare p (EvalML._tuners s1)) = Some tuner
       /\ SKOptTuner.propose tuner = (tuner', Ok proposed_parameters)
       /\ s2 = EvalML.set_tuners
                 (sset (name p) tuner' (prepare p (EvalML._tuners s1)))
                 s1
       /\ q = instantiate s0 p proposed_parameters) ->
  forall ps s1 s2 qs,
    EvalML.config s1 = EvalML.config s0 ->
    EvalML._selected_cols s1 = EvalML._selected_cols s0 ->
    EvalML.mapM f ps s1 = (s2, Ok qs) ->
    proposals s0 prepare (EvalML._tuners s1) ps (EvalML._tuners s2) qs
    /\ EvalML.config s2 = EvalML.config s0
    /\ EvalML._selected_cols s2 = EvalML._selected_cols s0
    /\ EvalML._top_n_pipelines s2 = EvalML._top_n_pipelines s1.
Proof.
  intros Hf. induction ps as [|p ps IH]; intros s1 s2 qs C Sel; simpl.
  - unfold ret. intros [= <- <-].
    split; [constructor|]. split; [exact C|]. split; [exact Sel|].
    reflexivity.
  - unfold bind.
    destruct (f p s1) as [s3 [q|e]] eqn:Hq; [|discriminate].
    destruct (EvalML.mapM f ps s3) as [s4 [qs'|e]] eqn:Hm;
      [|discriminate].
    unfold ret. intros [= <- <-].
    destruct (Hf p s1 s3 q C Sel Hq)
      as (tuner & tuner' & pp & Hg & Hp & -> & ->).
    apply IH in Hm; [|exact C|exact Sel].
    destruct Hm as (P & C4 & Sel4 & T4). simpl in P, T4.
    split; [|split; [exact C4|split; [exact Sel4|exact T4]]].
    eapply proposals_cons; [exact Hg|exact Hp|exact P].
Qed.

Lemma mapM_rounds_proposals s0 prepare (tops : list Pipeline)
    (Inv : EvalML.Algo E -> Prop)
    (body : nat -> M (EvalML.Algo E) (list Pipeline)) :
  (forall a s1 s2 round,
     Inv s1 -> body a s1 = (s2, Ok round) ->
     proposals s0 prepare (EvalML._tuners s1) tops (EvalML._tuners s2)
       round
     /\ Inv s2) ->
  forall l s1 s2 rounds,
    Inv s1 -> EvalML.mapM body l s1 = (s2, Ok rounds) ->
    proposals s0 prepare (EvalML._tuners s1)
      (List.concat (repeat tops (List.length l))) (EvalML._tuners s2)
      (List.concat rounds)
    /\ Inv s2.
Proof.
  intros Hb. induction l as [|a l IH]; intros s1 s2 rounds I; simpl.
  - unfold ret. intros [= <- <-]. split; [constructor|exact I].
  - unfold bind.
    destruct (body a s1) as [s3 [round|e]] eqn:Hr; [|discriminate].
    destruct (EvalML.mapM body l s3) as [s4 [rounds'|e]] eqn:Hm;
      [|discriminate].
    unfold ret. intros [= <- <-].
    destruct (Hb a s1 s3 round I Hr) as (P1 & I3).
    destruct (IH _ _ _ I3 Hm) as (P2 & I4).
    split; [|exact I4]. simpl.
    eapply proposals_app; [exact P1|exact P2].
Qed.

Lemma sample_top_n_proposals s tops s' batch :
  EvalML._top_n_pipelines s = Some tops ->
  EvalML._sample_top_n s = (s', Ok batch) ->
  proposals s as_stored (EvalML._tuners s)
    (List.concat (repeat tops 10)) (EvalML._tuners s') batch.
Proof.
  intros T. unfold EvalML._sample_top_n, bind.
  set (body := fun _ : nat => _).
  destruct (EvalML.mapM body (seq 0 10) s) as [s1 [rounds|e]] eqn:Hm;
    [|discriminate].
  unfold ret. intros [= <- <-].
  change 10 with (List.length (seq 0 10)).
  apply (mapM_rounds_proposals s as_stored tops
           (fun s1 => EvalML.config s1 = EvalML.config s
                      /\ EvalML._selected_cols s1 = EvalML._selected_cols s
                      /\ EvalML._top_n_pipelines s1 = Some tops)
           body) with (s1 := s) (s2 := s1);
    [|split; [reflexivity|split; [reflexivity|exact T]]|exact Hm].
  intros a s2 s3 round (C & Sel & T2). unfold body, get. rewrite T2.
  intros Hr.
  destruct (mapM_proposals s as_stored
              (EvalML.propose_pipeline (E := E))
              (fun p s4 s5 q => propose_pipeline_asks s p s4 s5 q)
              tops s2 s3 round C Sel Hr) as (P & C3 & Sel3 & T3).
  split; [exact P|]. split; [exact C3|]. split; [exact Sel3|].
  now rewrite T3.
Qed.

Lemma mapM_visits {A B} (f : A -> M (EvalML.Algo E) B)
    (f_frame : forall a s, frame s (fst (f a s))) (l : list A) :
  forall s s' bs,
    EvalML.mapM f l s = (s', Ok bs) ->
    forall a, In a l ->
      exists s1 s2 b, frame s s1 /\ f a s1 = (s2, Ok b) /\ frame s2 s'.
Proof.
  induction l as [|a0 l IH]; intros s s' bs H a Hin; [destruct Hin|].
  simpl in H. unfold bind in H.
  pose proof (f_frame a0 s) as F0.
  destruct (f a0 s) as [s1 [b0|e]] eqn:Fa; [|discriminate].
  pose proof (mapM_rel frame frame_refl frame_trans f f_frame l s1) as Fl.
  destruct (EvalML.mapM f l s1) as [s2 [bs'|e]] eqn:Hl; [|discriminate].
  unfold ret in H. injection H as <- <-. simpl in *.
  destruct Hin as [<-|Hin].
  - exists s, s1, b0. split; [apply frame_refl|]. split; assumption.
  - destruct (IH _ _ _ Hl a Hin) as (s3 & s4 & b & F3 & Hf & F4).
    exists s3, s4, b. split; [eapply frame_trans; eauto|].
    split; assumption.
Qed.

Lemma create_long_top_n_covers (n : nat) s s' (b : list Pipeline) :
  EvalML._create_long_top_n n s = (s', Ok b) ->
  EvalML._top_n_pipelines s' = Some (top_n_skeletons n s)
  /\ tuners_cover s' (top_n_skeletons n s).
Proof.
  unfold EvalML._create_long_top_n.
  unfold bind at 1. unfold get. cbv beta iota zeta.
  unfold bind at 1. unfold modify. cbv beta iota zeta.
  fold (top_n_skeletons n s).
  set (s0 := EvalML.set_top_n_pipelines (Some (top_n_skeletons n s)) s).
  unfold bind at 1.
  set (inner := fun pipeline : Pipeline => _).
  assert (inner_frame : forall p s1, frame s1 (fst (inner p s1))).
  { intros p s1. unfold inner. repeat frame_step. }
  set (outer := fun _ : nat => EvalML.mapM inner (top_n_skeletons n s)).
  assert (outer_frame : forall a s1, frame s1 (fst (outer a s1))).
  { intros a s1. unfold outer.
    apply (mapM_rel frame frame_refl frame_trans). apply inner_frame. }
  pose proof (mapM_rel frame frame_refl frame_trans outer outer_frame
                (seq 0 50) s0) as F.
  destruct (EvalML.mapM outer (seq 0 50) s0) as [s1 [rounds|e]] eqn:Hm;
    [|discriminate].
  unfold ret. intros [= <- <-]. simpl in F. split.
  - now rewrite (fr_top _ _ F).
  - intros p Hp.
    destruct (mapM_visits outer outer_frame _ _ _ _ Hm 0)
      as (s2 & s3 & round & F2 & Ho & F3); [now left|].
    unfold outer in Ho.
    destruct (mapM_visits inner inner_frame _ _ _ _ Ho p Hp)
      as (s4 & s5 & q & F4 & Hi & F5).
    apply (fr_tuners _ _ F3), (fr_tuners _ _ F5).
    unfold inner, bind at 1, get in Hi. cbv beta iota zeta in Hi.
    unfold bind at 1 in Hi.
    destruct (dict_mem String.eqb (name p) (EvalML._tuners s4)) eqn:Dm.
    + unfold ret in Hi.
      pose proof (frame_propose_pipeline p s4) as Fp.
      rewrite Hi in Fp. apply (fr_tuners _ _ Fp), Dm.
    + unfold EvalML._create_tuner in Hi.
      match type of Hi with
      | EvalML.propose_pipeline p ?s6 = _ =>
          pose proof (frame_propose_pipeline p s6) as Fp;
          rewrite Hi in Fp; apply (fr_tuners _ _ Fp)
      end.
      simpl. unfold dict_mem, sset.
      rewrite (dict_get_set String.eqb String_eqb_eq').
      now rewrite String.eqb_refl.
Qed.

Lemma next_batch_tuners s k :
  dict_mem String.eqb k (EvalML._tuners s) = true ->
  dict_mem String.eqb k (EvalML._tuners (fst (EvalML.next_batch s))) = true.
Proof.
  intros H. rewrite next_batch_eq.
  destruct (generator_frame s) as (s0 & Hs0 & F).
  assert (H0 : dict_mem String.eqb k (EvalML._tuners s0) = true).
  { destruct Hs0 as [->|(tops & _ & -> & _)]; exact H. }
  apply (fr_tuners _ _ F) in H0.
  destruct (batch_generator (EvalML._batch_number s) s) as [s1 [b|e]];
    exact H0.
Qed.

Lemma call_keeps_top_n (c : Call) s :
  (c = NextBatch -> EvalML.batch_number s <> 4) ->
  EvalML._top_n_pipelines (call c s) = EvalML._top_n_pipelines s
  /\ forall tops, tuners_cover s tops -> tuners_cover (call c s) tops.
Proof.
  intros Hc. destruct c as [|sc p r]; simpl.
  - split.
    + apply (next_batch_keeps s), Hc. reflexivity.
    + intros tops Cov p Hp. apply next_batch_tuners, Cov, Hp.
  - pose proof (add_result_keeps sc p r s) as (_ & _ & _ & T & Tu).
    split; [exact T|]. intros tops Cov q Hq. rewrite Tu. apply Cov, Hq.
Qed.


(** *** The first three batches *)

Lemma set_tuners_same s : EvalML.set_tuners (EvalML._tuners s) s = s.
Proof. destruct s; reflexivity. Qed.

Lemma mapM_create_tuner s (l : list Pipeline) :
forall d,
  EvalML.mapM (EvalML._create_tuner (E := E)) l (EvalML.set_tuners d s)
  = (EvalML.set_tuners
       (fold_left (fun d p => sset (name p) (tuner_for s p) d) l d) s,
     Ok (map (fun _ => tt) l)).
Proof.
induction l as [|p l IH]; intros d; simpl; [reflexivity|].
unfold bind. unfold EvalML._create_tuner at 1. simpl.
change (EvalML.set_tuners ?x (EvalML.set_tuners d s))
  with (EvalML.set_tuners x s).
rewrite IH. reflexivity.
Qed.

Lemma mapM_create_tuner_from s (l : list Pipeline) :
EvalML.mapM (EvalML._create_tuner (E := E)) l s
= (EvalML.set_tuners
     (fold_left (fun d p => sset (name p) (tuner_for s p) d) l
        (EvalML._tuners s)) s,
   Ok (map (fun _ => tt) l)).
Proof.
pose proof (mapM_create_tuner s l (EvalML._tuners s)) as H.
now rewrite set_tuners_same in H.
Qed.

Lemma fold_sset_lookup {V} (T : Pipeline -> V) (l : list Pipeline) :
forall d p,
  In p l ->
  exists p', In p' l /\ name p' = name p
             /\ sget (name p)
                  (fold_left (fun d p => sset (name p) (T p) d) l d)
                = Some (T p').
Proof.
induction l as [|x l IH] using rev_ind; intros d p Hin; [destruct Hin|].
rewrite fold_left_app. simpl. unfold sget, sset.
rewrite (dict_get_set String.eqb String_eqb_eq').
destruct (String.eqb (name p) (name x)) eqn:Ex.
- apply String.eqb_eq in Ex. exists x.
  split; [apply in_or_app; right; now left|]. split; [now symmetry|].
  reflexivity.
- apply in_app_or in Hin as [Hin|[<-|[]]].
  + destruct (IH d p Hin) as (p' & Hp' & Hn & Hg).
    exists p'. split; [apply in_or_app; now left|]. split; assumption.
  + rewrite String.eqb_refl in Ex. discriminate.
Qed.

Lemma fold_sset_keeps {V} (T : Pipeline -> V) (l : list Pipeline) :
forall d k,
  dict_mem String.eqb k d = true ->
  dict_mem String.eqb k
    (fold_left (fun d p => sset (name p) (T p) d) l d) = true.
Proof.
induction l as [|x l IH]; intros d k H; simpl; [exact H|].
apply IH. apply (dict_mem_set String.eqb String_eqb_eq'), H.
Qed.

Lemma create_fast_final_eq s :
EvalML._create_fast_final s
= match EvalML.mapM (EvalML._create_tuner (E := E))
          (fast_final_pipelines s) s with
  | (s', Ok _) => (s', Ok (fast_final_pipelines s))
  | (s', Raise e) => (s', Raise e)
  end.
Proof.
unfold fast_final_pipelines, remaining_estimators.
rewrite <- (map_map (EvalML.make s [SelectColumns])
              (fun pipeline =>
                 EvalML.new E pipeline
                   [(EvalML.select_columns_name,
                     [("columns", cols_val (EvalML._selected_cols s))])]
                   (EvalML.random_seed (EvalML.config s)))).
reflexivity.
Qed.

(** X4: at batch numbers 0 and 1 [next_batch] never raises and returns
  exactly two pipelines, made for the linear and the random-forest
  estimator of the problem kind in that order, with no extra component at
  batch 0 and with the RF feature selector of the problem kind at batch 1;
  it changes nothing but the two counters. *)
Theorem naive_batches s :
EvalML.batch_number s <= 1 ->
let regression := is_regression (EvalML.problem_type (EvalML.config s)) in
let extra :=
  if Nat.eqb (EvalML.batch_number s) 0 then []
  else [if regression then RFRegressorSelectFromModel
        else RFClassifierSelectFromModel] in
let batch :=
  [EvalML.make s extra
     (EvalML.handle_component_class E
        (if regression then "Linear Regressor"
         else "Logistic Regression Classifier"));
   EvalML.make s extra
     (EvalML.handle_component_class E
        (if regression then "Random Forest Regressor"
         else "Random Forest Classifier"))] in
EvalML.next_batch s = (count_batch batch s, Ok batch).
Proof.
intros Hb. cbv zeta. rewrite next_batch_eq.
unfold EvalML.batch_number in *. unfold batch_generator.
destruct (EvalML._batch_number s) as [|[|b]]; [| |lia]; simpl;
  unfold EvalML._create_naive_pipelines,
    EvalML._create_naive_pipelines_with_feature_selection,
    EvalML._naive_estimators;
  destruct (is_regression _); reflexivity.
Qed.

(** X5: at batch number 2 [next_batch] never raises; it returns one fresh
  pipeline per estimator of the problem type that is not a naive one, in
  the order of [get_estimators], each with the column selection bound to
  the columns recorded so far; afterwards every returned pipeline name has
  a tuner built from the hyperparameter ranges of a returned pipeline of
  that name, the tuners that existed are still there, and nothing else
  but the counters has changed. *)
Theorem fast_final_batch s :
EvalML.batch_number s = 2 ->
exists s',
  EvalML.next_batch s = (s', Ok (fast_final_pipelines s))
  /\ s' = count_batch (fast_final_pipelines s)
            (EvalML.set_tuners (EvalML._tuners s') s)
  /\ (forall p, In p (fast_final_pipelines s) ->
        exists p', In p' (fast_final_pipelines s) /\ name p' = name p
                   /\ sget (name p) (EvalML._tuners s')
                      = Some (tuner_for s p'))
  /\ (forall k, dict_mem String.eqb k (EvalML._tuners s) = true ->
                dict_mem String.eqb k (EvalML._tuners s') = true).
Proof.
intros Hb. rewrite next_batch_eq.
unfold EvalML.batch_number in Hb. rewrite Hb.
change (batch_generator (E := E) 2) with (EvalML._create_fast_final (E := E)).
rewrite create_fast_final_eq.
rewrite mapM_create_tuner_from.
eexists. split; [reflexivity|]. simpl. split; [reflexivity|]. split.
- intros p Hp. apply fold_sset_lookup, Hp.
- intros k Hk. apply fold_sset_keeps, Hk.
Qed.

(** *** [_transform_parameters] *)

Lemma sget_sset {V} (k k' : string) (v : V) (d : dict string V) :
sget k (sset k' v d) = if String.eqb k k' then Some v else sget k d.
Proof. apply (dict_get_set String.eqb String_eqb_eq'). Qed.

Lemma sset_same {V} (k : string) (v : V) (d : dict string V) :
sget k d = Some v -> sset k v d = d.
Proof.
unfold sget, sset. induction d as [|[k0 v0] d IH]; simpl; [discriminate|].
destruct (String.eqb k k0) eqn:Ek.
- now intros [= ->].
- intros H. now rewrite IH.
Qed.

Lemma sset_twice {V} (k : string) (v v' : V) (d : dict string V) :
sset k v (sset k v' d) = sset k v d.
Proof.
unfold sset. induction d as [|[k0 v0] d IH]; simpl.
- now rewrite String.eqb_refl.
- destruct (String.eqb k k0) eqn:Ek; simpl; rewrite Ek; [reflexivity|].
  now rewrite IH.
Qed.

Lemma sset_keys {V} (k : string) (v : V) (d : dict string V) :
map fst (sset k v d)
= if dict_mem String.eqb k d then map fst d else (map fst d ++ [k])%list.
Proof.
unfold sset, dict_mem. induction d as [|[k0 v0] d IH]; simpl; [reflexivity|].
destruct (String.eqb k k0) eqn:Ek; simpl; [reflexivity|].
rewrite IH. destruct (dict_get String.eqb k d); reflexivity.
Qed.

(** Whether the constructor of the class of a graph entry accepts
  [n_jobs], and the write [_transform_parameters] makes into the
  proposal for that entry. *)
Lemma transform_step_eq s (a q : parameters) (e : string * ComponentClass) :
EvalML.transform_step s (a, q) e
= (sset (fst e) (transformed_component s q e) a,
   if existsb (String.eqb "n_jobs") (EvalML.init_params E (snd e))
   then match sget (fst e) q with
        | Some _ => sset (fst e) (transformed_component s q e) q
        | None => q
        end
   else q).
Proof.
destruct e as [n c]. unfold EvalML.transform_step, transformed_component.
simpl. destruct (existsb _ _); reflexivity.
Qed.

Lemma transform_step_other s (a q : parameters) e (n : string) :
n <> fst e ->
sget n (snd (EvalML.transform_step s (a, q) e)) = sget n q.
Proof.
intros Hn. rewrite transform_step_eq. simpl.
destruct (existsb _ _); [|reflexivity].
destruct (sget (fst e) q); [|reflexivity].
rewrite sget_sset. apply String.eqb_neq in Hn. now rewrite Hn.
Qed.

Lemma transformed_component_ext s (q q' : parameters) e :
sget (fst e) q' = sget (fst e) q ->
transformed_component s q' e = transformed_component s q e.
Proof. intros H. unfold transformed_component. now rewrite H. Qed.

(** The loop of [_transform_parameters] in closed form, when the component
  names of the graph are distinct: each entry reads the proposal as it was
  at the start. *)
Lemma transform_fold s (q : parameters)
  (g : list (string * ComponentClass)) :
NoDup (map fst g) ->
forall a q' : parameters,
  (forall e, In e g -> sget (fst e) q' = sget (fst e) q) ->
  fold_left (EvalML.transform_step s) g (a, q')
  = (fold_left (fun a e => sset (fst e) (transformed_component s q e) a)
       g a,
     snd (fold_left (EvalML.transform_step s) g (a, q')))
  /\ (forall n, ~ In n (map fst g) ->
        sget n (snd (fold_left (EvalML.transform_step s) g (a, q')))
        = sget n q').
Proof.
induction g as [|e g IH]; intros ND a q' Hq; cbn [fold_left];
  [split; reflexivity|].
inversion ND as [|n0 l0 Hnotin ND']; subst.
pose proof (transform_step_eq s a q' e) as Hs.
destruct (EvalML.transform_step s (a, q') e) as [a1 q1] eqn:St.
injection Hs as Ha1 Hq1.
assert (Hother : forall n, n <> fst e -> sget n q1 = sget n q').
{ intros n Hn. pose proof (transform_step_other s a q' e n Hn) as H.
  now rewrite St in H. }
assert (Hq1' : forall e', In e' g -> sget (fst e') q1 = sget (fst e') q).
{ intros e' He'. rewrite Hother.
  - apply Hq. now right.
  - intros Heq. apply Hnotin. rewrite <- Heq. now apply in_map. }
destruct (IH ND' a1 q1 Hq1') as (F1 & F2).
split.
- rewrite F1. f_equal. rewrite Ha1.
  rewrite (transformed_component_ext s q q' e (Hq e (or_introl eq_refl))).
  reflexivity.
- intros n Hn. rewrite F2 by (intros H; apply Hn; now right).
  apply Hother. intros ->. apply Hn. now left.
Qed.

Lemma fold_sset_components s (q : parameters)
  (g : list (string * ComponentClass)) :
NoDup (map fst g) ->
forall a : parameters,
  (forall n, In n (map fst g) -> dict_mem String.eqb n a = false) ->
  let a1 :=
    fold_left (fun a e => sset (fst e) (transformed_component s q e) a)
      g a in
  map fst a1 = (map fst a ++ map fst g)%list
  /\ (forall e, In e g ->
        sget (fst e) a1 = Some (transformed_component s q e))
  /\ (forall n, ~ In n (map fst g) -> sget n a1 = sget n a).
Proof.
induction g as [|e g IH]; intros ND a Hfresh; simpl.
- rewrite app_nil_r. repeat split. intros e [].
- inversion ND as [|n0 l0 Hnotin ND']; subst.
  assert (Hfresh' : forall n, In n (map fst g) ->
            dict_mem String.eqb n
              (sset (fst e) (transformed_component s q e) a) = false).
  { intros n Hn. unfold dict_mem.
    change (dict_get String.eqb n (sset ?k ?v a)) with (sget n (sset k v a)).
    rewrite sget_sset.
    destruct (String.eqb n (fst e)) eqn:En.
    - apply String.eqb_eq in En. subst n. contradiction.
    - apply (Hfresh n). now right. }
  destruct (IH ND' _ Hfresh') as (K & L & O).
  split; [|split].
  + rewrite K, sset_keys, (Hfresh (fst e) (or_introl eq_refl)).
    now rewrite <- app_assoc.
  + intros e' [<-|He'].
    * rewrite O by exact Hnotin. rewrite sget_sset.
      now rewrite String.eqb_refl.
    * apply L, He'.
  + intros n Hn. rewrite O by (intros H; apply Hn; now right).
    rewrite sget_sset.
    destruct (String.eqb n (fst e)) eqn:En; [|reflexivity].
    apply String.eqb_eq in En. subst n. exfalso. apply Hn. now left.
Qed.

Lemma transform_parameters_closed s (p : Pipeline) (pp : parameters) :
NoDup (map fst (linearized_component_graph p)) ->
fst (EvalML._transform_parameters s p pp)
= fold_left (fun a e => sset (fst e) (transformed_component s pp e) a)
    (linearized_component_graph p) [].
Proof.
intros ND.
destruct (transform_fold s pp _ ND [] pp (fun _ _ => eq_refl)) as (F & _).
exact (f_equal fst F).
Qed.

(** X6: for a pipeline whose component names are distinct,
  [_transform_parameters] returns a mapping with exactly one entry per
  component of the graph, in the order of the graph; a component whose
  constructor accepts [n_jobs] gets the proposed parameters with [n_jobs]
  set to the algorithm's value, whatever the proposal said, and any other
  component gets the proposed parameters unchanged ([{}] if the proposal
  has none for it). *)
Theorem transform_parameters_forces_n_jobs s (p : Pipeline)
  (proposed_parameters : parameters) :
NoDup (map fst (linearized_component_graph p)) ->
let parameters :=
  fst (EvalML._transform_parameters s p proposed_parameters) in
map fst parameters = map fst (linearized_component_graph p)
/\ (forall e, In e (linearized_component_graph p) ->
      sget (fst e) parameters
      = Some (transformed_component s proposed_parameters e))
/\ (forall e, In e (linearized_component_graph p) ->
      existsb (String.eqb "n_jobs") (EvalML.init_params E (snd e)) = true ->
      exists cp, sget (fst e) parameters = Some cp
                 /\ sget "n_jobs" cp = Some (EvalML.n_jobs (EvalML.config s))).
Proof.
intros ND. cbv zeta. rewrite (transform_parameters_closed s p _ ND).
destruct (fold_sset_components s proposed_parameters _ ND []
            (fun _ _ => eq_refl)) as (K & L & _).
split; [exact K|]. split; [exact L|].
intros e He Acc. eexists. split; [apply L, He|].
unfold transformed_component. rewrite Acc. rewrite sget_sset.
reflexivity.
Qed.

Lemma transform_q_lookup s (q : parameters)
  (g : list (string * ComponentClass)) :
NoDup (map fst g) ->
forall a q' : parameters,
  (forall e, In e g -> sget (fst e) q' = sget (fst e) q) ->
  forall e, In e g ->
    sget (fst e) (snd (fold_left (EvalML.transform_step s) g (a, q')))
    = if accepts_n_jobs E e
      then option_map (fun _ => transformed_component s q e)
             (sget (fst e) q)
      else sget (fst e) q.
Proof.
induction g as [|e0 g IH]; intros ND a q' Hq e He; [destruct He|].
cbn [fold_left].
inversion ND as [|n0 l0 Hnotin ND']; subst.
pose proof (transform_step_eq s a q' e0) as Hs.
destruct (EvalML.transform_step s (a, q') e0) as [a1 q1] eqn:St.
injection Hs as Ha1 Hq1.
assert (Hother : forall n, n <> fst e0 -> sget n q1 = sget n q').
{ intros n Hn. rewrite Hq1. destruct (existsb _ _); [|reflexivity].
  destruct (sget (fst e0) q'); [|reflexivity].
  rewrite sget_sset. apply String.eqb_neq in Hn. now rewrite Hn. }
assert (Hq1' : forall e', In e' g -> sget (fst e') q1 = sget (fst e') q).
{ intros e' He'. rewrite Hother.
  - apply Hq. now right.
  - intros Heq. apply Hnotin. rewrite <- Heq. now apply in_map. }
destruct He as [<-|He].
- destruct (transform_fold s q g ND' a1 q1 Hq1') as (_ & F2).
  rewrite (F2 _ Hnotin), Hq1. unfold accepts_n_jobs.
  pose proof (Hq e0 (or_introl eq_refl)) as H0.
  rewrite (transformed_component_ext s q q' e0 H0).
  destruct (existsb _ _); [|exact H0].
  rewrite H0. destruct (sget (fst e0) q) eqn:G; simpl.
  + rewrite sget_sset. now rewrite String.eqb_refl.
  + exact H0.
- apply (IH ND' a1 q1 Hq1' e He).
Qed.

Lemma transform_q_fixed s (g : list (string * ComponentClass)) :
forall a q' : parameters,
  (forall e cp, In e g -> accepts_n_jobs E e = true ->
     sget (fst e) q' = Some cp -> transformed_component s q' e = cp) ->
  snd (fold_left (EvalML.transform_step s) g (a, q')) = q'.
Proof.
induction g as [|e g IH]; intros a q' H; cbn [fold_left]; [reflexivity|].
pose proof (transform_step_eq s a q' e) as Hs.
destruct (EvalML.transform_step s (a, q') e) as [a1 q1] eqn:St.
injection Hs as Ha1 Hq1.
assert (Eq : q1 = q').
{ rewrite Hq1.
  pose proof (H e) as He. unfold accepts_n_jobs in He.
  destruct (existsb _ _); [|reflexivity].
  destruct (sget (fst e) q') as [cp|] eqn:G; [|reflexivity].
  rewrite (He cp (or_introl eq_refl) eq_refl eq_refl).
  apply sset_same, G. }
rewrite Eq. apply IH. intros e' cp He'. apply H. now right.
Qed.

Lemma fold_left_ext_in {A B} (f f' : A -> B -> A) (l : list B) :
(forall a b, In b l -> f a b = f' a b) ->
forall a, fold_left f l a = fold_left f' l a.
Proof.
induction l as [|b l IH]; intros H a; simpl; [reflexivity|].
rewrite (H a b (or_introl eq_refl)). apply IH.
intros a' b' Hb'. apply H. now right.
Qed.

Lemma transformed_component_again s (q q1 : parameters)
  (e : string * ComponentClass) :
sget (fst e) q1
= (if accepts_n_jobs E e
   then option_map (fun _ => transformed_component s q e) (sget (fst e) q)
   else sget (fst e) q) ->
transformed_component s q1 e = transformed_component s q e.
Proof.
intros H. unfold transformed_component in *. unfold accepts_n_jobs in H.
rewrite H. destruct (existsb _ _); [|reflexivity].
destruct (sget (fst e) q); simpl; [|reflexivity].
apply sset_twice.
Qed.

Lemma transform_idempotent s (p : Pipeline) (pp : parameters) :
NoDup (map fst (linearized_component_graph p)) ->
EvalML._transform_parameters s p
  (snd (EvalML._transform_parameters s p pp))
= EvalML._transform_parameters s p pp.
Proof.
intros ND.
set (q1 := snd (EvalML._transform_parameters s p pp)).
assert (L : forall e, In e (linearized_component_graph p) ->
          sget (fst e) q1
          = if accepts_n_jobs E e
            then option_map (fun _ => transformed_component s pp e)
                   (sget (fst e) pp)
            else sget (fst e) pp).
{ intros e He.
  apply (transform_q_lookup s pp _ ND [] pp (fun _ _ => eq_refl) e He). }
rewrite (surjective_pairing (EvalML._transform_parameters s p q1)).
rewrite (surjective_pairing (EvalML._transform_parameters s p pp)).
f_equal.
- rewrite !(transform_parameters_closed s p _ ND).
  apply fold_left_ext_in. intros a e He. f_equal.
  apply transformed_component_again, L, He.
- fold q1. unfold EvalML._transform_parameters.
  apply (transform_q_fixed s _ [] q1).
  intros e cp He Acc G.
  pose proof (L e He) as Le. rewrite Acc, G in Le.
  rewrite (transformed_component_again s pp q1 e).
  + destruct (sget (fst e) pp); simpl in Le; [|discriminate].
    now injection Le as ->.
  + rewrite (L e He), Acc. reflexivity.
Qed.

Lemma ensemble_input_again s s1 (entry : ModelFamily * BestPipelineInfo) :
EvalML.config s1 = EvalML.config s ->
NoDup (map fst (linearized_component_graph (pipeline (snd entry)))) ->
EvalML.ensemble_input s1 (snd (EvalML.ensemble_input s entry))
= EvalML.ensemble_input s entry.
Proof.
intros C ND. unfold EvalML.ensemble_input at 2 3.
destruct (EvalML._transform_parameters s (pipeline (snd entry))
            (bp_parameters (snd entry))) as [P1 q1] eqn:T.
unfold EvalML.ensemble_input. simpl.
rewrite (transform_parameters_config s1 s _ _ C).
pose proof (transform_idempotent s (pipeline (snd entry))
              (bp_parameters (snd entry)) ND) as I.
rewrite T in I. simpl in I. rewrite I, C. reflexivity.
Qed.

(** X7: when the component names of every stored pipeline are distinct,
  running the ensemble construction again on the state it left gives the
  same outcome and leaves that state as it is: the [n_jobs] it writes into
  the stored parameters of the table is written once and for all. *)
Theorem ensemble_construction_is_repeatable s :
(forall entry, In entry (EvalML._best_pipeline_info s) ->
   NoDup (map fst (linearized_component_graph (pipeline (snd entry))))) ->
EvalML._create_ensemble (fst (EvalML._create_ensemble s))
= EvalML._create_ensemble s.
Proof.
intros ND.
set (table1 := map snd (map (EvalML.ensemble_input s)
                          (EvalML._best_pipeline_info s))).
assert (S1 : fst (EvalML._create_ensemble s)
             = EvalML.set_best_pipeline_info table1 s)
  by (rewrite create_ensemble_eq; reflexivity).
rewrite S1.
assert (M : map (EvalML.ensemble_input
                   (EvalML.set_best_pipeline_info table1 s)) table1
            = map (EvalML.ensemble_input s) (EvalML._best_pipeline_info s)).
{ unfold table1. rewrite !map_map. apply map_ext_in. intros entry He.
  apply ensemble_input_again; [reflexivity|apply ND, He]. }
rewrite (create_ensemble_eq (EvalML.set_best_pipeline_info table1 s)).
rewrite (create_ensemble_eq s).
unfold ensemble_inputs, n_jobs_ensemble.
cbn [EvalML._best_pipeline_info EvalML.set_best_pipeline_info
     EvalML.config].
rewrite M. reflexivity.
Qed.

(** *** The ranking of batch 4 *)

Lemma insert_by_score_perm {A} (x : A * spec_float) l :
Permutation (x :: l) (EvalML.insert_by_score x l).
Proof.
induction l as [|h t IH]; simpl; [apply Permutation_refl|].
destruct (SFltb (snd x) (snd h)); [apply Permutation_refl|].
eapply Permutation_trans; [apply perm_swap|]. now apply perm_skip.
Qed.

Lemma insert_by_score_in {A} (x z : A * spec_float) l :
In z (EvalML.insert_by_score x l) -> z = x \/ In z l.
Proof.
intros H.
apply (Permutation_in z (Permutation_sym (insert_by_score_perm x l))) in H.
destruct H as [<-|H]; auto.
Qed.

Lemma insert_by_score_sorted {A} (x : A * spec_float) l :
StronglySorted not_below l ->
StronglySorted not_below (EvalML.insert_by_score x l).
Proof.
induction 1 as [|h t St IH Hall]; simpl.
- constructor; constructor.
- destruct (SFltb (snd x) (snd h)) eqn:L.
  + constructor; [constructor; assumption|].
    constructor.
    * unfold not_below. apply SFltb_asym, L.
    * rewrite Forall_forall in *. intros y Hy. unfold not_below.
      destruct (SFltb (snd y) (snd x)) eqn:Ly; [|reflexivity].
      pose proof (SFltb_trans _ _ _ Ly L) as T.
      specialize (Hall y Hy). unfold not_below in Hall. congruence.
  + constructor; [exact IH|].
    rewrite Forall_forall in *. intros z Hz.
    apply insert_by_score_in in Hz as [->|Hz]; [exact L|apply Hall, Hz].
Qed.

Lemma sort_by_score_fold {A} (l : list (A * spec_float)) :
forall acc,
  StronglySorted not_below acc ->
  Permutation (acc ++ l)
    (fold_left (fun acc x => EvalML.insert_by_score x acc) l acc)
  /\ StronglySorted not_below
       (fold_left (fun acc x => EvalML.insert_by_score x acc) l acc).
Proof.
induction l as [|x l IH]; intros acc Hs; simpl.
- rewrite app_nil_r. split; [apply Permutation_refl|exact Hs].
- destruct (IH _ (insert_by_score_sorted x acc Hs)) as (P & S).
  split; [|exact S].
  eapply Permutation_trans; [|exact P].
  eapply Permutation_trans; [apply Permutation_sym, Permutation_middle|].
  apply (Permutation_app_tail l (insert_by_score_perm x acc)).
Qed.

Lemma sorted_firstn_skipn {A} (R : A -> A -> Prop) (l : list A) :
StronglySorted R l ->
forall n a b, In a (firstn n l) -> In b (skipn n l) -> R a b.
Proof.
induction 1 as [|h t St IH Hall]; intros n a b Ha Hb.
- destruct n; destruct Ha.
- destruct n as [|n]; [destruct Ha|]. simpl in Ha, Hb.
  destruct Ha as [<-|Ha].
  + rewrite Forall_forall in Hall. apply Hall.
    rewrite <- (firstn_skipn n t). apply in_or_app. now right.
  + apply (IH n a b Ha Hb).
Qed.

(** X8: the ranking [_create_long_top_n] sorts is a rearrangement of the
  records of the table in which no record comes after one with a strictly
  higher score; hence no record left out of the first [n] has a score
  strictly lower than a selected one, and the stored top-n skeletons are
  made from the estimators of the first [n] records of that ranking. *)
Theorem top_n_are_lowest (n : nat) s :
Permutation (scored_estimators s) (ranked s)
/\ StronglySorted not_below (ranked s)
/\ (forall a b,
      In a (firstn n (ranked s)) -> In b (skipn n (ranked s)) ->
      SFltb (snd b) (snd a) = false)
/\ top_n_skeletons n s
   = map (EvalML.make s [SelectColumns]) (map fst (firstn n (ranked s))).
Proof.
destruct (sort_by_score_fold (scored_estimators s) []
            (SSorted_nil _)) as (P & S).
split; [exact P|]. split; [exact S|]. split; [|reflexivity].
intros a b Ha Hb. exact (sorted_firstn_skipn not_below _ S n a b Ha Hb).
Qed.

(** *** The batch of index 4 *)

Lemma materialized_ext s0 s (p q : Pipeline) :
EvalML.config s0 = EvalML.config s ->
EvalML._selected_cols s0 = EvalML._selected_cols s ->
materialized s0 p q -> materialized s p q.
Proof.
intros C Sel (pp & Hq & Hs). exists pp. cbv zeta in *.
unfold EvalML.select_columns_parameters in *.
rewrite <- (transform_parameters_config s0 s p pp C), <- Sel, <- C.
split; assumption.
Qed.

Lemma long_top_n_ok s :
asks_succeed E ->
exists s' batch,
  EvalML._create_long_top_n 3 s = (s', Ok batch)
  /\ Forall2 (materialized s)
       (List.concat (repeat (top_n_skeletons 3 s) 50)) batch.
Proof.
intros A.
unfold EvalML._create_long_top_n.
unfold bind at 1. unfold get. cbv beta iota zeta.
unfold bind at 1. unfold modify. cbv beta iota zeta.
fold (top_n_skeletons 3 s).
set (s0 := EvalML.set_top_n_pipelines (Some (top_n_skeletons 3 s)) s).
unfold bind at 1.
set (inner := fun pipeline : Pipeline => _).
assert (inner_frame : forall p s1, frame s1 (fst (inner p s1))).
{ intros p s1. unfold inner. repeat frame_step. }
assert (inner_cases : forall p s1,
          exists s2, frame s1 s2
            /\ dict_mem String.eqb (name p) (EvalML._tuners s2) = true
            /\ inner p s1 = EvalML.propose_pipeline p s2).
{ intros p s1. unfold inner, bind at 1, get. cbv beta iota zeta.
  unfold bind at 1.
  destruct (dict_mem String.eqb (name p) (EvalML._tuners s1)) eqn:Dm.
  - exists s1. split; [apply frame_refl|]. split; [exact Dm|reflexivity].
  - eexists. split; [apply (frame_create_tuner p s1)|].
    split; [|reflexivity]. simpl. unfold dict_mem.
    change (dict_get String.eqb ?k (sset ?k' ?v ?d))
      with (sget k (sset k' v d)).
    rewrite sget_sset. now rewrite String.eqb_refl. }
set (outer := fun _ : nat => EvalML.mapM inner (top_n_skeletons 3 s)).
assert (outer_frame : forall a s1, frame s1 (fst (outer a s1))).
{ intros a s1. unfold outer.
  apply (mapM_rel frame frame_refl frame_trans). apply inner_frame. }
assert (Tot : is_ok (snd (EvalML.mapM outer (seq 0 50) s0)) = true).
{ apply (mapM_total frame frame_trans outer outer_frame s0);
    [|apply frame_refl].
  intros a s1 _ F1. unfold outer.
  apply (mapM_total frame frame_trans inner inner_frame s0); [|exact F1].
  intros p s2 _ F2.
  destruct (inner_cases p s2) as (s3 & F3 & Dm & ->).
  apply (propose_pipeline_ok s3 p s3 A (frame_refl s3) Dm). }
destruct (EvalML.mapM outer (seq 0 50) s0) as [s' [rounds|e]] eqn:Hm;
  [|discriminate].
exists s', (List.concat rounds). split; [reflexivity|].
change 50 with (List.length (seq 0 50)).
apply Forall2_rounds.
apply (mapM_Forall2 frame frame_trans outer outer_frame
         (fun _ round => Forall2 (materialized s) (top_n_skeletons 3 s)
                           round) s0)
  with (s := s0) (s' := s'); [|apply frame_refl|exact Hm].
intros a s1 s2 round F1 Hr. unfold outer in Hr.
apply (mapM_Forall2 frame frame_trans inner inner_frame
         (materialized s) s0)
  with (s := s1) (s' := s2); [|exact F1|exact Hr].
intros p s3 s4 q F3 Hi.
destruct (inner_cases p s3) as (s5 & F5 & _ & Eq). rewrite Eq in Hi.
apply (materialized_ext s0 s p q eq_refl eq_refl).
apply (propose_pipeline_materialized s0 p s5 s4 q); [|exact Hi].
eapply frame_trans; eauto.
Qed.

Lemma long_top_n_proposals s s' batch :
EvalML._create_long_top_n 3 s = (s', Ok batch) ->
proposals s (ensure_tuner s) (EvalML._tuners s)
  (List.concat (repeat (top_n_skeletons 3 s) 50)) (EvalML._tuners s')
  batch.
Proof.
unfold EvalML._create_long_top_n.
unfold bind at 1. unfold get. cbv beta iota zeta.
unfold bind at 1. unfold modify. cbv beta iota zeta.
fold (top_n_skeletons 3 s).
set (s0 := EvalML.set_top_n_pipelines (Some (top_n_skeletons 3 s)) s).
unfold bind at 1.
set (inner := fun pipeline : Pipeline => _).
assert (inner_asks : forall p s1 s2 q,
          EvalML.config s1 = EvalML.config s ->
          EvalML._selected_cols s1 = EvalML._selected_cols s ->
          inner p s1 = (s2, Ok q) ->
          exists tuner tuner' proposed_parameters,
            sget (name p) (ensure_tuner s p (EvalML._tuners s1))
            = Some tuner
            /\ SKOptTuner.propose tuner = (tuner', Ok proposed_parameters)
            /\ s2 = EvalML.set_tuners
                      (sset (name p) tuner'
                         (ensure_tuner s p (EvalML._tuners s1))) s1
            /\ q = instantiate s p proposed_parameters).
{ intros p s1 s2 q C Sel. unfold inner, bind at 1, get.
  cbv beta iota zeta. unfold bind at 1. unfold ensure_tuner.
  destruct (dict_mem String.eqb (name p) (EvalML._tuners s1)) eqn:Dm.
  - unfold ret. apply (propose_pipeline_asks s p s1 s2 q C Sel).
  - unfold EvalML._create_tuner, tuner_for. rewrite <- C. intros Hq.
    apply (propose_pipeline_asks s p) in Hq; [|exact C|exact Sel].
    exact Hq. }
set (outer := fun _ : nat => EvalML.mapM inner (top_n_skeletons 3 s)).
destruct (EvalML.mapM outer (seq 0 50) s0) as [s1 [rounds|e]] eqn:Hm;
  [|discriminate].
unfold ret. intros [= <- <-].
change 50 with (List.length (seq 0 50)).
change (EvalML._tuners s) with (EvalML._tuners s0).
apply (mapM_rounds_proposals s (ensure_tuner s) (top_n_skeletons 3 s)
         (fun s1 => EvalML.config s1 = EvalML.config s
                    /\ EvalML._selected_cols s1
                       = EvalML._selected_cols s)
         outer) with (s1 := s0) (s2 := s1);
  [|split; reflexivity|exact Hm].
intros a s2 s3 round (C & Sel) Hr. unfold outer in Hr.
destruct (mapM_proposals s (ensure_tuner s) inner inner_asks
            (top_n_skeletons 3 s) s2 s3 round C Sel Hr)
  as (P & C3 & Sel3 & _).
split; [exact P|]. split; [exact C3|exact Sel3].
Qed.


(** *** What [next_batch] leaves alone *)

Lemma only_refl s : only_tuners_and_top_n s s.
Proof.
exists (EvalML._top_n_pipelines s), (EvalML._tuners s).
destruct s; reflexivity.
Qed.

Lemma only_trans s1 s2 s3 :
only_tuners_and_top_n s1 s2 -> only_tuners_and_top_n s2 s3 ->
only_tuners_and_top_n s1 s3.
Proof.
intros (x & y & ->) (x' & y' & ->). exists x', y'. reflexivity.
Qed.

Lemma only_set_tuners s d : only_tuners_and_top_n s (EvalML.set_tuners d s).
Proof. exists (EvalML._top_n_pipelines s), d. destruct s; reflexivity. Qed.

Lemma only_set_top s tops :
only_tuners_and_top_n s (EvalML.set_top_n_pipelines tops s).
Proof. exists tops, (EvalML._tuners s). destruct s; reflexivity. Qed.

Lemma only_create_tuner p s :
only_tuners_and_top_n s (fst (EvalML._create_tuner p s)).
Proof. apply only_set_tuners. Qed.

Lemma only_tuner_propose n s :
only_tuners_and_top_n s (fst (EvalML.tuner_propose n s)).
Proof.
unfold EvalML.tuner_propose.
destruct (sget n (EvalML._tuners s)) as [t|]; [|apply only_refl].
destruct (SKOptTuner.propose t) as [t' r]. apply only_set_tuners.
Qed.

Lemma only_modify_top s tops :
only_tuners_and_top_n s
  (fst (modify (EvalML.set_top_n_pipelines tops) s)).
Proof. apply only_set_top. Qed.

Ltac only_step :=
first [ apply (bind_rel only_tuners_and_top_n only_trans); [|intros ? ?]
      | apply (ret_rel only_tuners_and_top_n only_refl)
      | apply (raise_rel only_tuners_and_top_n only_refl)
      | apply (get_rel only_tuners_and_top_n only_refl)
      | apply (mapM_rel only_tuners_and_top_n only_refl only_trans);
        intros ? ?
      | apply only_tuner_propose
      | apply only_create_tuner
      | apply only_modify_top
      | match goal with
        | |- only_tuners_and_top_n _ (fst (match ?x with _ => _ end _)) =>
            destruct x
        end ].

Lemma only_generator (b : nat) s :
b = 3 \/ (5 <= b /\ Nat.odd b = true)
\/ only_tuners_and_top_n s (fst (batch_generator (E := E) b s)).
Proof.
destruct b as [|[|[|[|[|b]]]]].
- right; right. apply only_refl.
- right; right. apply only_refl.
- right; right. change (batch_generator (E := E) 2)
    with (EvalML._create_fast_final (E := E)).
  unfold EvalML._create_fast_final. repeat only_step.
- now left.
- right; right. change (batch_generator (E := E) 4)
    with (EvalML._create_long_top_n (E := E) 3).
  unfold EvalML._create_long_top_n. repeat only_step.
- remember (S (S (S (S (S b))))) as n eqn:Hn.
  assert (H5 : 5 <= n) by lia. clear Hn b.
  destruct (Nat.odd n) eqn:O.
  + right; left. split; [exact H5|reflexivity].
  + right; right.
    assert (Ev : Nat.even n = true)
      by (rewrite <- Nat.negb_odd; now rewrite O).
    assert (H6 : 6 <= n).
    { destruct (Nat.eq_dec n 5) as [->|]; [discriminate|lia]. }
    rewrite (sampling_batches n H6 Ev).
    unfold EvalML._sample_top_n. repeat only_step.
Qed.

Lemma same_record_refl (l : list (ModelFamily * BestPipelineInfo)) :
Forall2 same_record l l.
Proof.
induction l; constructor; [repeat split|assumption].
Qed.

Lemma ensemble_keeps_records s :
Forall2 same_record (EvalML._best_pipeline_info s)
  (EvalML._best_pipeline_info (fst (EvalML._create_ensemble s))).
Proof.
rewrite create_ensemble_eq. simpl.
induction (EvalML._best_pipeline_info s) as [|e l IH]; simpl;
  constructor; [|exact IH].
unfold EvalML.ensemble_input.
destruct (EvalML._transform_parameters _ _ _). repeat split.
Qed.

Lemma next_batch_keeps_records_aux s :
Forall2 same_record (EvalML._best_pipeline_info s)
  (EvalML._best_pipeline_info (fst (EvalML.next_batch s))).
Proof.
rewrite next_batch_generate. unfold generate_and_count.
destruct (only_generator (EvalML._batch_number s) s) as [B|[B|O]].
- rewrite (ensemble_batches _ (or_introl B)).
  pose proof (ensemble_keeps_records s) as K.
  destruct (EvalML._create_ensemble s) as [s1 [b|e]]; exact K.
- rewrite (ensemble_batches _ (or_intror B)).
  pose proof (ensemble_keeps_records s) as K.
  destruct (EvalML._create_ensemble s) as [s1 [b|e]]; exact K.
- destruct (batch_generator (EvalML._batch_number s) s) as [s1 [b|e]];
    simpl in *; destruct O as (tops & tuners & ->);
    apply same_record_refl.
Qed.

(** X10: [next_batch] never adds, removes or reorders a record of the
  table and never changes a record's family, score, pipeline or id: an
  ensemble batch may only rewrite the stored parameters, and every other
  batch changes nothing of the algorithm but its tuners, its top-n set
  and its two counters. *)
Theorem next_batch_keeps_records s :
Forall2 same_record (EvalML._best_pipeline_info s)
  (EvalML._best_pipeline_info (fst (EvalML.next_batch s)))
/\ (~ (EvalML.batch_number s = 3
       \/ (5 <= EvalML.batch_number s
           /\ Nat.odd (EvalML.batch_number s) = true)) ->
    exists tops tuners,
      EvalML.set_pipeline_number (EvalML._pipeline_number s)
        (EvalML.set_batch_number (EvalML._batch_number s)
           (fst (EvalML.next_batch s)))
      = EvalML.set_top_n_pipelines tops (EvalML.set_tuners tuners s)).
Proof.
rewrite next_batch_generate. unfold generate_and_count.
unfold EvalML.batch_number.
destruct (only_generator (EvalML._batch_number s) s) as [B|[B|O]].
- split; [|intros N; exfalso; apply N; now left].
  rewrite (ensemble_batches _ (or_introl B)).
  pose proof (ensemble_keeps_records s) as K.
  destruct (EvalML._create_ensemble s) as [s1 [b|e]]; exact K.
- split; [|intros N; exfalso; apply N; now right].
  rewrite (ensemble_batches _ (or_intror B)).
  pose proof (ensemble_keeps_records s) as K.
  destruct (EvalML._create_ensemble s) as [s1 [b|e]]; exact K.
- destruct (batch_generator (EvalML._batch_number s) s) as [s1 [b|e]];
    simpl in *; destruct O as (tops & tuners & ->); split;
    try apply same_record_refl; intros _; exists tops, tuners;
    destruct s; reflexivity.
Qed.

(** *** Invariants of the runs *)

Lemma dict_set_keys {K V} (eqb : K -> K -> bool) (k : K) (v : V)
  (d : dict K V) :
map fst (dict_set eqb k v d)
= if dict_mem eqb k d then map fst d else (map fst d ++ [k])%list.
Proof.
unfold dict_mem. induction d as [|[k0 v0] d IH]; simpl; [reflexivity|].
destruct (eqb k k0) eqn:Ek; simpl; [reflexivity|].
rewrite IH. destruct (dict_get eqb k d); reflexivity.
Qed.

Lemma family_set_in (k k0 : ModelFamily) (v v0 : BestPipelineInfo)
  (d : dict ModelFamily BestPipelineInfo) :
In (k, v) (dict_set ModelFamily_eqb k0 v0 d) ->
(k = k0 /\ v = v0) \/ In (k, v) d.
Proof.
induction d as [|[k1 v1] d IH]; simpl.
- intros [[= <- <-]|[]]. now left.
- destruct (ModelFamily_eqb k0 k1) eqn:Ek; simpl.
  + apply ModelFamily_eqb_eq in Ek. subst k1.
    intros [[= <- <-]|H]; [now left|right; now right].
  + intros [[= <- <-]|H]; [right; now left|].
    destruct (IH H) as [L|R]; [now left|right; now right].
Qed.

Lemma family_get_in (k : ModelFamily) (v : BestPipelineInfo)
  (d : dict ModelFamily BestPipelineInfo) :
dict_get ModelFamily_eqb k d = Some v -> In (k, v) d.
Proof.
induction d as [|[k1 v1] d IH]; simpl; [discriminate|].
destruct (ModelFamily_eqb k k1) eqn:Ek.
- apply ModelFamily_eqb_eq in Ek. subst k1. intros [= ->]. now left.
- intros H. right. now apply IH.
Qed.

Lemma family_mem_false (k : ModelFamily)
  (d : dict ModelFamily BestPipelineInfo) :
dict_mem ModelFamily_eqb k d = false -> ~ In k (map fst d).
Proof.
unfold dict_mem. induction d as [|[k1 v1] d IH]; simpl; [tauto|].
destruct (ModelFamily_eqb k k1) eqn:Ek; [discriminate|].
intros H [->|Hin].
- rewrite (proj2 (ModelFamily_eqb_eq k k) eq_refl) in Ek. discriminate.
- now apply IH.
Qed.

Lemma well_formed_table s s' :
EvalML._best_pipeline_info s' = EvalML._best_pipeline_info s ->
table_well_formed s -> table_well_formed s'.
Proof. unfold table_well_formed. intros ->. auto. Qed.

Lemma record_best_well_formed sc p r s :
table_well_formed s -> table_well_formed (record_best sc p r s).
Proof.
intros (ND & W). unfold record_best.
destruct (EvalML.improves sc _) eqn:I; simpl; [|split; assumption].
destruct (ModelFamily_eqb (model_family p) ENSEMBLE) eqn:En; simpl;
  [split; assumption|].
apply ModelFamily_eqb_neq in En.
destruct sc as [x|]; [|discriminate]. simpl in I.
assert (Hx : SFltb x np_inf = true).
{ rewrite current_best_score_eq in I. unfold best_score in I.
  destruct (dict_get ModelFamily_eqb (model_family p)
              (EvalML._best_pipeline_info s)) as [old|] eqn:G;
    simpl in I; [|exact I].
  apply family_get_in in G. destruct (W _ _ G) as (_ & _ & Hold).
  exact (SFltb_trans _ _ _ I Hold). }
split.
- unfold table_well_formed. simpl. rewrite dict_set_keys.
  destruct (dict_mem ModelFamily_eqb (model_family p) _) eqn:M;
    [exact ND|].
  apply family_mem_false in M.
  apply NoDup_app; [exact ND|constructor; [intros []|constructor]|].
  intros k Hk [<-|[]]. contradiction.
- intros family info Hin. simpl in Hin.
  apply family_set_in in Hin as [[-> ->]|Hin]; [|apply W, Hin].
  simpl. repeat split; assumption.
Qed.

Lemma same_records_well_formed s s' :
Forall2 same_record (EvalML._best_pipeline_info s)
  (EvalML._best_pipeline_info s') ->
table_well_formed s -> table_well_formed s'.
Proof.
unfold table_well_formed.
generalize (EvalML._best_pipeline_info s) (EvalML._best_pipeline_info s').
intros l l' F (ND & W).
assert (K : map fst l' = map fst l).
{ induction F as [|e e' l l' (Hk & _) _ IH]; simpl; [reflexivity|].
  rewrite Hk, IH; [reflexivity| |].
  - now inversion ND.
  - intros k i Hi. apply W. now right. }
split; [now rewrite K|].
intros family info Hin.
assert (Hex : exists info0, In (family, info0) l
                /\ mean_cv_score info = mean_cv_score info0
                /\ pipeline info = pipeline info0).
{ clear -F Hin. induction F as [|e e' l l' (Hk & Hs & Hp & _) _ IH];
    [destruct Hin|].
  destruct Hin as [He|Hin].
  - subst e'. exists (snd e). destruct e as [k i]. simpl in *. subst.
    split; [now left|]. split; assumption.
  - destruct (IH Hin) as (i0 & Hi0 & Hrest).
    exists i0. split; [now right|exact Hrest]. }
destruct Hex as (info0 & Hin0 & Hs & Hp).
rewrite Hs, Hp. apply W, Hin0.
Qed.

Lemma call_well_formed (c : Call) s :
table_well_formed s -> table_well_formed (call c s).
Proof.
intros W. destruct c as [|sc p r]; simpl.
- apply (same_records_well_formed s); [|exact W].
  apply next_batch_keeps_records_aux.
- apply (well_formed_table (record_best sc p r s));
    [apply add_result_table|].
  apply record_best_well_formed, W.
Qed.

Lemma run_well_formed (cs : list Call) :
forall s, table_well_formed s -> table_well_formed (run cs s).
Proof.
induction cs as [|c cs IH]; intros s W; simpl; [exact W|].
apply IH, call_well_formed, W.
Qed.

(** X11: along any run of a constructed algorithm the table keeps one
  record per model family, none for [ENSEMBLE], each holding a pipeline
  of its own family and a score strictly below infinity (so never NaN). *)
Theorem table_stays_well_formed (a : EvalML.InitArgs E) s0
  (cs : list Call) :
EvalML.__init__ a = Ok s0 -> table_well_formed (run cs s0).
Proof.
intros Hinit. apply init_ok in Hinit. subst s0. apply run_well_formed.
split; [constructor|intros family info []].
Qed.

Lemma call_best_score (c : Call) s f x :
best_score s f = Some x ->
exists y, best_score (call c s) f = Some y
          /\ (y = x \/ SFltb y x = true).
Proof.
intros B. destruct c as [|sc p r]; simpl.
- exists x. split; [|now left].
  rewrite (proj1 (proj2 (proj2 (proj2 (next_batch_keeps s))))). exact B.
- rewrite best_score_add_result, best_score_record_best.
  destruct (ModelFamily_eqb f (model_family p)) eqn:Ef;
    [|rewrite andb_false_r; exists x; split; [exact B|now left]].
  apply ModelFamily_eqb_eq in Ef. subst f.
  rewrite current_best_score_eq, B.
  destruct sc as [y|]; simpl; [|exists x; split; [reflexivity|now left]].
  destruct (SFltb y x) eqn:L; simpl;
    [|exists x; split; [reflexivity|now left]].
  destruct (negb _); simpl; [|exists x; split; [reflexivity|now left]].
  exists y. split; [reflexivity|now right].
Qed.

(** X12: along any run the score recorded for a family never gets worse and
  the family never loses its record: whatever is recorded later is the
  same score or a strictly lower one. *)
Theorem best_score_never_worsens (cs : list Call) s f x :
best_score s f = Some x ->
exists y, best_score (run cs s) f = Some y
          /\ (y = x \/ SFltb y x = true).
Proof.
revert s x. induction cs as [|c cs IH]; intros s x B; simpl.
- exists x. split; [exact B|now left].
- destruct (call_best_score c s f x B) as (y & By & Hy).
  destruct (IH _ _ By) as (z & Bz & Hz).
  exists z. split; [exact Bz|].
  destruct Hz as [->|Hz]; [exact Hy|].
  destruct Hy as [->|Hy]; [now right|].
  right. exact (SFltb_trans _ _ _ Hz Hy).
Qed.

(** X13: along any run, whatever the interleaving of [add_result] calls
  and of [next_batch] calls that raise, [pipeline_number] has grown by
  the total size of the batches returned and [batch_number] by their
  number. *)
Theorem run_counts_returned_batches (cs : list Call) s :
EvalML.pipeline_number (run cs s)
= EvalML.pipeline_number s
  + list_sum (map (@List.length Pipeline) (returned_batches cs s))
/\ EvalML.batch_number (run cs s)
   = EvalML.batch_number s + List.length (returned_batches cs s).
Proof.
revert s. induction cs as [|c cs IH]; intros s; simpl; [split; lia|].
destruct c as [|sc p r]; simpl.
- pose proof (next_batch_counts s) as C.
  destruct (EvalML.next_batch s) as [s1 [b|e]]; simpl;
    destruct (IH s1) as (P & B); destruct C as (P1 & B1); split; lia.
- pose proof (add_result_keeps sc p r s) as (_ & B1 & P1 & _).
  destruct (IH (fst (EvalML.add_result sc p r s))) as (P & B).
  unfold EvalML.pipeline_number, EvalML.batch_number in *.
  split; lia.
Qed.

Lemma call_batch_number (c : Call) s :
EvalML.batch_number s <= EvalML.batch_number (call c s).
Proof.
destruct c as [|sc p r]; simpl.
- pose proof (next_batch_counts s) as C.
  destruct (EvalML.next_batch s) as [s1 [b|e]]; simpl; lia.
- pose proof (add_result_keeps sc p r s) as (_ & B1 & _).
  unfold EvalML.batch_number. lia.
Qed.

Lemma call_keeps_tuner_names (c : Call) s k :
dict_mem String.eqb k (EvalML._tuners s) = true ->
dict_mem String.eqb k (EvalML._tuners (call c s)) = true.
Proof.
intros H. destruct c as [|sc p r]; simpl.
- apply next_batch_tuners, H.
- pose proof (add_result_keeps sc p r s) as (_ & _ & _ & _ & Tu).
  now rewrite Tu.
Qed.

(** X14: once batch 4 has been issued ([batch_number] at least 5), the
  top-n set is final: no later call of a run changes it, and from
  then on no call removes a tuner or lowers [batch_number]. *)
Theorem top_n_is_final (cs : list Call) s :
5 <= EvalML.batch_number s ->
EvalML._top_n_pipelines (run cs s) = EvalML._top_n_pipelines s
/\ EvalML.batch_number s <= EvalML.batch_number (run cs s)
/\ (forall k, dict_mem String.eqb k (EvalML._tuners s) = true ->
      dict_mem String.eqb k (EvalML._tuners (run cs s)) = true).
Proof.
revert s. induction cs as [|c cs IH]; intros s H5; simpl.
- repeat split; auto.
- pose proof (call_batch_number c s) as Hm.
  assert (H5' : 5 <= EvalML.batch_number (call c s)) by lia.
  destruct (IH _ H5') as (T & B & K).
  destruct (call_keeps_top_n c s) as (Tc & _); [intros _; lia|].
  split; [now rewrite T|]. split; [lia|].
  intros k Hk. apply K, call_keeps_tuner_names, Hk.
Qed.

(** *** What a successful construction guarantees *)

Lemma check_values_ok rejected msg (d : list (string * PyVal)) u :
EvalML.check_values rejected msg (map snd d) = Ok u ->
forallb (fun kv => is_dict (snd kv)) d = true
/\ existsb rejected (leaves (PyDict d)) = false.
Proof.
induction d as [|[k v] rest IH]; simpl; [auto|].
destruct v; simpl; try discriminate.
rewrite check_items_spec, existsb_app.
destruct (existsb rejected (map snd items)); simpl; [discriminate|].
exact IH.
Qed.

Lemma walked_is_well_shaped rejected msg v values u :
py_values v = Ok values ->
EvalML.check_values rejected msg values = Ok u ->
mapping_of_mappings v = true /\ existsb rejected (leaves v) = false.
Proof.
destruct v; simpl; try discriminate.
intros [= <-]. apply check_values_ok.
Qed.

(** X15: a construction that succeeds has checked its arguments: the
  algorithm is the initial one, [pipeline_params] and
  [custom_hyperparameters] are each falsy or a mapping of mappings, no
  fixed pipeline parameter is a range object and every custom
  hyperparameter is one. *)
Theorem init_success_is_sound (a : EvalML.InitArgs E) s :
EvalML.__init__ a = Ok s ->
s = EvalML.initial_attributes a
/\ well_shaped (EvalML.arg_pipeline_params a) = true
/\ well_shaped (EvalML.arg_custom_hyperparameters a) = true
/\ existsb is_skopt_space
     (leaves (py_or (EvalML.arg_pipeline_params a) (PyDict []))) = false
/\ forallb is_skopt_space
     (leaves (py_or (EvalML.arg_custom_hyperparameters a) (PyDict [])))
   = true.
Proof.
unfold EvalML.__init__.
destruct (truthy _ && negb _); [discriminate|].
unfold EvalML.check_pipeline_params, EvalML.check_custom_hyperparameters.
cbn [EvalML.initial_attributes EvalML.config EvalML._pipeline_params
     EvalML._custom_hyperparameters].
destruct (py_values (py_or (EvalML.arg_pipeline_params a) (PyDict [])))
  as [vp|e] eqn:Vp; [|discriminate].
destruct (EvalML.check_values is_skopt_space _ vp) as [up|e] eqn:Cp;
  [|discriminate].
destruct (py_values (py_or (EvalML.arg_custom_hyperparameters a)
                       (PyDict []))) as [vc|e] eqn:Vc; [|discriminate].
destruct (EvalML.check_values _ _ vc) as [uc|e] eqn:Cc; [|discriminate].
intros [= <-].
destruct (walked_is_well_shaped _ _ _ _ _ Vp Cp) as (Wp & Lp).
destruct (walked_is_well_shaped _ _ _ _ _ Vc Cc) as (Wc & Lc).
split; [reflexivity|]. split; [exact Wp|]. split; [exact Wc|].
split; [exact Lp|].
clear -Lc. induction (leaves _) as [|v l IH]; simpl in *; [reflexivity|].
apply orb_false_iff in Lc as [Hv Hl]. apply negb_false_iff in Hv.
rewrite Hv. simpl. apply IH, Hl.
Qed.

(** *** From the results of batch 1 to batch 2 *)

Lemma results_only_keep (cs : list Call) :
forall s, results_only cs = true ->
  EvalML.config (run cs s) = EvalML.config s
  /\ EvalML._batch_number (run cs s) = EvalML._batch_number s.
Proof.
induction cs as [|c cs IH]; intros s R; simpl; [split; reflexivity|].
destruct c as [|sc p r]; [discriminate|]. simpl in R.
destruct (IH (fst (EvalML.add_result sc p r s)) R) as (C & B).
pose proof (add_result_keeps sc p r s) as (C1 & B1 & _).
simpl. split; [now rewrite C, C1|now rewrite B, B1].
Qed.

Lemma fast_final_pipelines_ext s s' :
EvalML.config s' = EvalML.config s ->
EvalML._selected_cols s' = EvalML._selected_cols s ->
fast_final_pipelines s' = fast_final_pipelines s.
Proof.
intros C S.
unfold fast_final_pipelines, remaining_estimators, EvalML.make,
  EvalML._naive_estimators.
rewrite C, S. reflexivity.
Qed.

Lemma next_batch_fast_final s :
EvalML.batch_number s = 2 ->
snd (EvalML.next_batch s) = Ok (fast_final_pipelines s).
Proof.
intros Hb. rewrite next_batch_eq.
unfold EvalML.batch_number in Hb. rewrite Hb.
change (batch_generator (E := E) 2)
  with (EvalML._create_fast_final (E := E)).
rewrite create_fast_final_eq, mapM_create_tuner_from. reflexivity.
Qed.

(** X16: the first result reported for the feature-selection batch decides
  the columns of batch 2: when no columns are recorded and a result is
  reported at batch number 2, then, whatever further results are
  reported, the next batch is the batch-2 list with every pipeline bound
  to the names of that first pipeline's feature selector. *)
Theorem first_result_decides_columns s sc p r (cs : list Call) :
EvalML.batch_number s = 2 ->
EvalML._selected_cols s = None ->
results_only cs = true ->
snd (EvalML.next_batch (run (AddResult sc p r :: cs) s))
= Ok (fast_final_pipelines
        (EvalML.set_selected_cols
           (Some (get_names
                    (get_component p
                       (if is_regression
                             (EvalML.problem_type (EvalML.config s))
                        then "RF Regressor Select From Model"
                        else "RF Classifier Select From Model")))) s)).
Proof.
intros B N R. simpl.
set (s1 := fst (EvalML.add_result sc p r s)).
pose proof (add_result_keeps sc p r s) as (C1 & B1 & _). fold s1 in C1, B1.
destruct (results_only_keep cs s1 R) as (C & Bn).
assert (S1 : EvalML._selected_cols s1
             = Some (get_names
                       (get_component p
                          (if is_regression
                                (EvalML.problem_type (EvalML.config s))
                           then "RF Regressor Select From Model"
                           else "RF Classifier Select From Model")))).
{ unfold s1. rewrite add_result_cols. unfold record_cols.
  rewrite B, N. reflexivity. }
rewrite next_batch_fast_final.
- f_equal. apply fast_final_pipelines_ext.
  + rewrite C, C1. reflexivity.
  + rewrite (run_keeps_cols cs s1 _ S1). reflexivity.
- unfold EvalML.batch_number in *. rewrite Bn, B1. exact B.
Qed.

(** *** An ensemble batch asked for too early *)

(** X17: an ensemble batch asked for while the table is empty raises and
  leaves the algorithm exactly as it was, so the call can be repeated;
  after one result with a score below infinity for a pipeline that is
  not an ensemble, the same call returns a single pipeline and counts
  the batch. *)
Theorem empty_ensemble_batch_recovers s x p r :
EvalML.batch_number s = 3
\/ (5 <= EvalML.batch_number s /\ Nat.odd (EvalML.batch_number s) = true) ->
EvalML._best_pipeline_info s = [] ->
SFltb x np_inf = true ->
model_family p <> ENSEMBLE ->
EvalML.next_batch s = (s, Raise (IndexError "list index out of range"))
/\ exists s' ensemble,
     EvalML.next_batch (fst (EvalML.add_result (Some x) p r s))
     = (s', Ok [ensemble])
     /\ EvalML.batch_number s' = EvalML.batch_number s + 1
     /\ EvalML.pipeline_number s' = EvalML.pipeline_number s + 1.
Proof.
intros Hb He Hx Hf. split.
- unfold EvalML.batch_number in Hb.
  rewrite next_batch_generate, (ensemble_batches _ Hb).
  unfold generate_and_count. rewrite create_ensemble_eq.
  unfold ensemble_inputs. rewrite He. simpl.
  f_equal. destruct s. simpl in He. subst. reflexivity.
- set (s1 := fst (EvalML.add_result (Some x) p r s)).
  pose proof (add_result_keeps (Some x) p r s) as (_ & B1 & P1 & _).
  fold s1 in B1, P1.
  assert (T1 : exists info,
             EvalML._best_pipeline_info s1 = [(model_family p, info)]).
  { unfold s1. rewrite add_result_table. unfold record_best.
    unfold EvalML.current_best_score. rewrite He. simpl. rewrite Hx.
    apply ModelFamily_eqb_neq in Hf. rewrite Hf. simpl.
    eexists. reflexivity. }
  destruct T1 as (info & T1).
  unfold EvalML.batch_number, EvalML.pipeline_number in *.
  rewrite <- B1 in Hb.
  rewrite next_batch_generate, (ensemble_batches _ Hb).
  unfold generate_and_count. rewrite create_ensemble_eq.
  unfold ensemble_inputs. rewrite T1. simpl.
  eexists. eexists. split; [reflexivity|]. simpl. split; lia.
Qed.

End AlgoFacts.

(** ** Concrete runs *)

Lemma best_pipeline_info_holds_best_witness :
  table_holds_best (Demo.calls2 ++ Demo.calls3 ++ Demo.calls3_results)
    (run (Demo.calls2 ++ Demo.calls3 ++ Demo.calls3_results) Demo.algo0)
  /\ dict_get ModelFamily_eqb ENSEMBLE
       (EvalML._best_pipeline_info
          (run (Demo.calls2 ++ Demo.calls3 ++ Demo.calls3_results)
             Demo.algo0)) = None.
Proof.
  pose proof (best_pipeline_info_holds_best Demo.E (Demo.args PyNone PyNone)
                Demo.algo0
                (Demo.calls2 ++ Demo.calls3 ++ Demo.calls3_results)
                eq_refl) as H.
  split; [exact (proj1 H)|exact (proj1 (proj2 H))].
Defined.

Lemma next_batch_counters_witness :
  map (@List.length Pipeline)
    (Demo.returned (snd (next_batches 4 Demo.reported3))) = [1; 150; 1; 30]
  /\ EvalML.pipeline_number (fst (next_batches 4 Demo.reported3))
     = EvalML.pipeline_number Demo.reported3
       + list_sum (map (@List.length Pipeline)
                     (Demo.returned (snd (next_batches 4 Demo.reported3))))
  /\ EvalML.batch_number (fst (next_batches 4 Demo.reported3))
     = EvalML.batch_number Demo.reported3 + 4.
Proof.
  assert (H : next_batches 4 Demo.reported3
              = (fst (next_batches 4 Demo.reported3),
                 Ok (Demo.returned (snd (next_batches 4 Demo.reported3)))))
    by (vm_compute; reflexivity).
  split; [vm_compute; reflexivity|].
  exact (proj2 (proj1 (next_batch_counters Demo.E 4 Demo.reported3 _ _ H))).
Defined.

Lemma add_result_forwards_from_batch_2_witness :
  EvalML.base_results
    (fst (EvalML.add_result (Some (float_of_Z 2))
            (Demo.fast_final "Extra Trees Classifier" (Some ["a"; "b"]))
            (Demo.results 4) Demo.driver3))
  = (EvalML.base_results Demo.driver3
       ++ [(Some (float_of_Z 2),
            Demo.fast_final "Extra Trees Classifier" (Some ["a"; "b"]),
            Demo.results 4)])%list
  /\ EvalML.base_results
       (fst (EvalML.add_result (Some (float_of_Z 4))
               (Demo.skeleton "Logistic Regression Classifier"
                  [RFClassifierSelectFromModel])
               (Demo.results 2) Demo.driver2))
     = EvalML.base_results Demo.driver2.
Proof.
  split.
  - apply (proj1 (add_result_forwards_from_batch_2 Demo.E 2 Demo.driver3
                    (Some (float_of_Z 2))
                    (Demo.fast_final "Extra Trees Classifier"
                       (Some ["a"; "b"]))
                    (Demo.results 4) eq_refl)).
    split; [discriminate|lia].
  - apply (proj1 (proj2 (add_result_forwards_from_batch_2 Demo.E 1
                           Demo.driver2 (Some (float_of_Z 4))
                           (Demo.skeleton "Logistic Regression Classifier"
                              [RFClassifierSelectFromModel])
                           (Demo.results 2) eq_refl))).
    right. lia.
Defined.

(** C3 fails as stated: the first pipeline of the batch of index 2 is not an
    ensemble, and its result, reported before the next batch is asked for,
    is forwarded to the base class. *)
Lemma batch_2_result_is_forwarded :
  Demo.nth_of_next_batch 0 (run (removelast Demo.calls3) Demo.driver2)
  = Some (Demo.fast_final "Extra Trees Classifier" (Some ["a"; "b"]))
  /\ model_family (Demo.fast_final "Extra Trees Classifier" (Some ["a"; "b"]))
     <> ENSEMBLE
  /\ result_of_batch 2 Demo.driver3
  /\ EvalML.base_results Demo.driver3 = []
  /\ EvalML.base_results
       (fst (EvalML.add_result (Some (float_of_Z 2))
               (Demo.fast_final "Extra Trees Classifier" (Some ["a"; "b"]))
               (Demo.results 4) Demo.driver3))
     = [(Some (float_of_Z 2),
         Demo.fast_final "Extra Trees Classifier" (Some ["a"; "b"]),
         Demo.results 4)].
Proof.
  split; [reflexivity|]. split; [discriminate|].
  split; [reflexivity|]. split; reflexivity.
Qed.

Lemma selected_cols_set_once_witness :
  EvalML._selected_cols
    (fst (EvalML.add_result (Some (float_of_Z 4))
            (Demo.skeleton "Logistic Regression Classifier"
               [RFClassifierSelectFromModel])
            (Demo.results 2) Demo.driver2))
  = Some ["a"; "b"].
Proof.
  exact (proj1 (selected_cols_set_once Demo.E Demo.driver2
                  (Some (float_of_Z 4))
                  (Demo.skeleton "Logistic Regression Classifier"
                     [RFClassifierSelectFromModel])
                  (Demo.results 2) eq_refl eq_refl)).
Defined.

(** C2 fails as stated: a result of the batch of index 2 comes in while
    [batch_number] is 3, and nothing is extracted from it although no
    columns have been recorded. *)
Lemma batch_2_result_records_no_columns :
  Demo.nth_of_next_batch 0 (run [NextBatch; NextBatch] Demo.algo0)
  = Some (Demo.fast_final "Extra Trees Classifier" None)
  /\ result_of_batch 2 Demo.algo3
  /\ EvalML._selected_cols Demo.algo3 = None
  /\ EvalML._selected_cols
       (fst (EvalML.add_result (Some (float_of_Z 1))
               (Demo.fast_final "Extra Trees Classifier" None)
               (Demo.results 0) Demo.algo3))
     = None.
Proof. repeat split. Qed.

Lemma ensemble_batch_needs_an_input_witness :
  List.length (EvalML._best_pipeline_info Demo.algo_one_family) = 1
  /\ exists s' first,
       hd_error (ensemble_inputs Demo.algo_one_family) = Some first
       /\ EvalML.next_batch Demo.algo_one_family
          = (s', Ok [EvalML._make_stacked_ensemble_pipeline Demo.E
                       (ensemble_inputs Demo.algo_one_family)
                       (pipeline_problem_type first)
                       (EvalML.random_seed
                          (EvalML.config Demo.algo_one_family))
                       (n_jobs_ensemble Demo.algo_one_family)])
       /\ List.length (ensemble_inputs Demo.algo_one_family)
          = List.length (EvalML._best_pipeline_info Demo.algo_one_family)
       /\ EvalML.batch_number s'
          = EvalML.batch_number Demo.algo_one_family + 1
       /\ EvalML.pipeline_number s'
          = EvalML.pipeline_number Demo.algo_one_family + 1.
Proof.
  split; [reflexivity|].
  apply (proj1 (ensemble_batch_needs_an_input Demo.E Demo.algo_one_family
                  (or_introl eq_refl))).
  vm_compute. discriminate.
Defined.

(** C9 fails as stated: with no family in the table, the batch of index 3
    raises an [IndexError] instead of returning an ensemble. *)
Lemma ensemble_batch_without_input_raises :
  EvalML.batch_number Demo.algo3 = 3
  /\ List.length (EvalML._best_pipeline_info Demo.algo3) = 0
  /\ snd (EvalML.next_batch Demo.algo3)
     = Raise (mkExc "IndexError" "list index out of range").
Proof. repeat split. Qed.


(** ** More on the tuner *)

Section TunerHistories.
Variable E : SKOptTuner.Env.
Implicit Types (t : SKOptTuner.Tuner E).

Lemma propose_empty t :
SKOptTuner._search_space_ranges t = [] ->
SKOptTuner.propose t
= (t, Ok (SKOptTuner.convert_to_pipeline_parameters E
            (SKOptTuner._search_space_names t) [])).
Proof. intros H. unfold SKOptTuner.propose. now rewrite H. Qed.

(** X1: on an empty search space every [propose()] returns the same empty
  proposal and the tuner, its optimizer included, stays as it was, however
  many times it is called. *)
Theorem propose_on_empty_space t (n : nat) :
SKOptTuner._search_space_ranges t = [] ->
SKOptTuner.propose_seq n t
= repeat (Ok (SKOptTuner.convert_to_pipeline_parameters E
                (SKOptTuner._search_space_names t) [])) n
/\ fst (tuner_run (repeat Propose n) t) = t.
Proof.
intros H. split.
- induction n as [|n IH]; simpl; [reflexivity|].
  rewrite (propose_empty t H). now rewrite IH.
- induction n as [|n IH]; simpl; [reflexivity|].
  rewrite (propose_empty t H).
  destruct (tuner_run (repeat Propose n) t) as [t2 rs]. exact IH.
Qed.

Lemma tuner_call_space (c : TunerCall) t :
SKOptTuner._search_space_names (fst (tuner_call c t))
= SKOptTuner._search_space_names t
/\ SKOptTuner._search_space_ranges (fst (tuner_call c t))
   = SKOptTuner._search_space_ranges t.
Proof.
destruct c as [|pp sc]; simpl.
- unfold SKOptTuner.propose, SKOptTuner.on_opt.
  destruct (Nat.eqb _ 0); [split; reflexivity|].
  destruct (SKOptTuner.opt_ask E (SKOptTuner.opt t)) as [o [x|e]];
    split; reflexivity.
- unfold SKOptTuner.add, SKOptTuner.on_opt.
  destruct (pd_isnull sc); [split; reflexivity|].
  destruct (SKOptTuner.convert_to_flat_parameters E _ pp) as [flat|e];
    [|split; reflexivity].
  destruct (SKOptTuner.opt_tell E flat sc (SKOptTuner.opt t)) as [o [u|e]];
    split; reflexivity.
Qed.

(** X2: no history of [propose()] and [add] calls, whether they return or
  raise, changes the names or the ranges of the search space: the order
  of the flat vector is fixed for the life of the tuner. *)
Theorem search_space_is_stable (cs : list TunerCall) t :
SKOptTuner._search_space_names (fst (tuner_run cs t))
= SKOptTuner._search_space_names t
/\ SKOptTuner._search_space_ranges (fst (tuner_run cs t))
   = SKOptTuner._search_space_ranges t.
Proof.
revert t. induction cs as [|c cs IH]; intros t; simpl; [split; reflexivity|].
pose proof (tuner_call_space c t) as [N R].
destruct (tuner_call c t) as [t1 r]. simpl in N, R.
specialize (IH t1).
destruct (tuner_run cs t1) as [t2 rs]. simpl in *.
split; [now rewrite (proj1 IH)|now rewrite (proj2 IH)].
Qed.

(** X3: the adds with a null score are invisible in a history: taking them
  out leaves the final tuner and the outcome of every other call as they
  were. *)
Theorem null_adds_are_invisible (cs : list TunerCall) t :
fst (tuner_run (filter (fun c => negb (is_null_add c)) cs) t)
= fst (tuner_run cs t)
/\ snd (tuner_run (filter (fun c => negb (is_null_add c)) cs) t)
   = drop_null_adds cs (snd (tuner_run cs t)).
Proof.
revert t. induction cs as [|c cs IH]; intros t; simpl; [split; reflexivity|].
destruct (is_null_add c) eqn:N; simpl.
- destruct c as [|pp sc]; [discriminate|]. simpl in N. simpl.
  unfold SKOptTuner.add. rewrite N.
  specialize (IH t). destruct (tuner_run cs t) as [t2 rs]. exact IH.
- destruct (tuner_call c t) as [t1 r].
  specialize (IH t1).
  destruct (tuner_run (filter _ cs) t1) as [t2 rs].
  destruct (tuner_run cs t1) as [t3 rs']. simpl in *.
  destruct IH as [-> ->]. split; reflexivity.
Qed.
End TunerHistories.

Lemma propose_on_empty_space_witness :
  SKOptTuner.propose_seq 3 Inputs.empty_tuner = [Ok []; Ok []; Ok []]
  /\ fst (tuner_run (repeat Propose 3) Inputs.empty_tuner)
     = Inputs.empty_tuner.
Proof.
  exact (propose_on_empty_space Demo.TE Inputs.empty_tuner 3 eq_refl).
Defined.

(** ** The further properties on the concrete run *)

Lemma naive_batches_witness :
  EvalML.next_batch Demo.algo0
  = (count_batch
       [Demo.skeleton "Logistic Regression Classifier" [];
        Demo.skeleton "Random Forest Classifier" []] Demo.algo0,
     Ok [Demo.skeleton "Logistic Regression Classifier" [];
         Demo.skeleton "Random Forest Classifier" []]).
Proof.
  assert (H : EvalML.batch_number Demo.algo0 <= 1)
    by (vm_compute; repeat constructor).
  exact (naive_batches Demo.E Demo.algo0 H).
Defined.

Lemma fast_final_batch_witness :
  exists s',
    EvalML.next_batch Demo.driver2
    = (s', Ok (fast_final_pipelines Demo.driver2))
    /\ s' = count_batch (fast_final_pipelines Demo.driver2)
              (EvalML.set_tuners (EvalML._tuners s') Demo.driver2)
    /\ (forall p, In p (fast_final_pipelines Demo.driver2) ->
          exists p', In p' (fast_final_pipelines Demo.driver2)
                     /\ name p' = name p
                     /\ sget (name p) (EvalML._tuners s')
                        = Some (tuner_for Demo.driver2 p'))
    /\ (forall k,
          dict_mem String.eqb k (EvalML._tuners Demo.driver2) = true ->
          dict_mem String.eqb k (EvalML._tuners s') = true).
Proof.
  exact (fast_final_batch Demo.E Demo.driver2 eq_refl).
Defined.

Lemma transform_parameters_forces_n_jobs_witness :
  exists cp,
    sget "Random Forest Classifier"
      (fst (EvalML._transform_parameters Demo.algo0
              (Demo.skeleton "Random Forest Classifier" [SelectColumns]) []))
    = Some cp
    /\ sget "n_jobs" cp = Some (PyInt (-1)).
Proof.
  assert (H : NoDup (map fst (linearized_component_graph
                                (Demo.skeleton "Random Forest Classifier"
                                   [SelectColumns]))))
    by (vm_compute;
        repeat (constructor; [simpl; intuition discriminate|]);
        constructor).
  apply (proj2 (proj2 (transform_parameters_forces_n_jobs Demo.E Demo.algo0
                         (Demo.skeleton "Random Forest Classifier"
                            [SelectColumns]) [] H))
           ("Random Forest Classifier", "Random Forest Classifier")).
  - right. left. reflexivity.
  - reflexivity.
Defined.

Lemma ensemble_construction_is_repeatable_witness :
  EvalML._create_ensemble (fst (EvalML._create_ensemble Demo.reported3))
  = EvalML._create_ensemble Demo.reported3.
Proof.
  apply (ensemble_construction_is_repeatable Demo.E Demo.reported3).
  intros entry Hin. vm_compute in Hin.
  destruct Hin as [<-|[<-|[<-|[<-|[]]]]]; vm_compute;
    repeat (constructor; [simpl; intuition discriminate|]); constructor.
Defined.


Lemma next_batch_keeps_records_witness :
  exists tops tuners,
    EvalML.set_pipeline_number (EvalML._pipeline_number Demo.driver2)
      (EvalML.set_batch_number (EvalML._batch_number Demo.driver2)
         (fst (EvalML.next_batch Demo.driver2)))
    = EvalML.set_top_n_pipelines tops
        (EvalML.set_tuners tuners Demo.driver2).
Proof.
  apply (proj2 (next_batch_keeps_records Demo.E Demo.driver2)).
  intros [H|[H _]]; [discriminate H|].
  vm_compute in H. lia.
Defined.

Lemma table_stays_well_formed_witness :
  table_well_formed
    (run (Demo.calls2 ++ Demo.calls3 ++ Demo.calls3_results) Demo.algo0).
Proof.
  exact (table_stays_well_formed Demo.E (Demo.args PyNone PyNone)
           Demo.algo0
           (Demo.calls2 ++ Demo.calls3 ++ Demo.calls3_results) eq_refl).
Defined.

Lemma best_score_never_worsens_witness :
  best_score Demo.driver3 (Family "Random Forest Classifier")
  = Some (float_of_Z 1)
  /\ exists y,
       best_score (run Demo.calls3_results Demo.driver3)
         (Family "Random Forest Classifier") = Some y
       /\ (y = float_of_Z 1 \/ SFltb y (float_of_Z 1) = true).
Proof.
  assert (H : best_score Demo.driver3 (Family "Random Forest Classifier")
              = Some (float_of_Z 1)) by (vm_compute; reflexivity).
  split; [exact H|].
  exact (best_score_never_worsens Demo.E Demo.calls3_results Demo.driver3
           (Family "Random Forest Classifier") (float_of_Z 1) H).
Defined.

Lemma top_n_is_final_witness :
  EvalML._top_n_pipelines
    (run [NextBatch;
          AddResult (Some (float_of_Z 0))
            (Demo.fast_final "XGBoost Classifier" (Some ["a"; "b"]))
            (Demo.results 9);
          NextBatch] Demo.driver6)
  = EvalML._top_n_pipelines Demo.driver6.
Proof.
  assert (H5 : 5 <= EvalML.batch_number Demo.driver6)
    by (vm_compute; repeat constructor).
  exact (proj1 (top_n_is_final Demo.E
                  [NextBatch;
                   AddResult (Some (float_of_Z 0))
                     (Demo.fast_final "XGBoost Classifier"
                        (Some ["a"; "b"]))
                     (Demo.results 9);
                   NextBatch] Demo.driver6 H5)).
Defined.

Lemma init_success_is_sound_witness :
  well_shaped (PyDict [("Estimator", PyDict [("n_jobs", PyInt 2)])]) = true
  /\ well_shaped (PyDict [("Estimator", PyDict [("x", SkoptInteger 0 10)])])
     = true.
Proof.
  pose proof (init_success_is_sound Demo.E
                (Demo.args
                   (PyDict [("Estimator", PyDict [("n_jobs", PyInt 2)])])
                   (PyDict [("Estimator",
                             PyDict [("x", SkoptInteger 0 10)])]))
                _ eq_refl) as H.
  split; [exact (proj1 (proj2 H))|exact (proj1 (proj2 (proj2 H)))].
Defined.

Lemma first_result_decides_columns_witness :
  snd (EvalML.next_batch (run Demo.calls3_results
                            (run (removelast Demo.calls3) Demo.driver2)))
  = snd (EvalML.next_batch (run (removelast Demo.calls3) Demo.driver2))
  /\ snd (EvalML.next_batch (run (removelast Demo.calls3) Demo.driver2))
     = Ok (fast_final_pipelines
             (EvalML.set_selected_cols (Some ["a"; "b"]) Demo.driver2)).
Proof.
  split; [vm_compute; reflexivity|].
  exact (first_result_decides_columns Demo.E Demo.driver2
           (Some (float_of_Z 4))
           (Demo.skeleton "Logistic Regression Classifier"
              [RFClassifierSelectFromModel])
           (Demo.results 2)
           [AddResult (Some (float_of_Z 1))
              (Demo.skeleton "Random Forest Classifier"
                 [RFClassifierSelectFromModel]) (Demo.results 3)]
           eq_refl eq_refl eq_refl).
Defined.

Lemma empty_ensemble_batch_recovers_witness :
  EvalML.next_batch Demo.algo3
  = (Demo.algo3, Raise (IndexError "list index out of range"))
  /\ exists s' ensemble,
       EvalML.next_batch Demo.algo_one_family = (s', Ok [ensemble])
       /\ EvalML.batch_number s' = EvalML.batch_number Demo.algo3 + 1
       /\ EvalML.pipeline_number s' = EvalML.pipeline_number Demo.algo3 + 1.
Proof.
  assert (Hf : model_family (Demo.fast_final "Extra Trees Classifier" None)
               <> ENSEMBLE) by (vm_compute; discriminate).
  exact (empty_ensemble_batch_recovers Demo.E Demo.algo3 (float_of_Z 1)
           (Demo.fast_final "Extra Trees Classifier" None) (Demo.results 0)
           (or_introl eq_refl) eq_refl eq_refl Hf).
Defined.
